(** * OpenRazer diagnostic scripts: a model of their runs

    The repository holds three Python scripts,
    [scripts/test_system.py], [scripts/debug_workflow.py] and
    [examples/test_device_capabilities.py].  Each one talks to the outside
    (shell commands, the [openrazer.client] library, device objects) and
    prints what it found.  A script is modelled as a function from the
    history of the run so far to a result and the events it adds; the
    outside is a [World] that answers every call, given the history.  The
    text that step 7 of [debug_workflow.py] writes to [/tmp/test_devices.py]
    and runs is a script of its own, [TestDevices.script].

    A text is the string of the bytes of its UTF-8 encoding, and
    [str.strip] and [str.split] know the white space of Unicode in that
    encoding; a string of bytes that is no UTF-8 stands for no text.  What
    the model leaves out: [print] and [time.sleep] never fail; the values
    read from a device are None, booleans, integers, strings and objects,
    with no floats; a method call is one event, the lookup of the method
    included. *)

From Stdlib Require Import String Ascii ZArith List Bool QArith DecimalString Lia.
Import ListNotations.
Local Open Scope string_scope.
Local Open Scope Z_scope.

(** ** Python text *)

Module Py.

Definition nl : string := String "010"%char EmptyString.
Definition dquote : string := String "034"%char EmptyString.

(** *** White space

    The characters [str.isspace] holds for, which [str.strip] and
    [str.split] take as white space: U+0009 to U+000D, U+001C to U+0020,
    U+0085, U+00A0, U+1680, U+2000 to U+200A, U+2028, U+2029, U+202F,
    U+205F and U+3000, each as UTF-8 writes it. *)

Definition byte (c : ascii) : nat := nat_of_ascii c.

(** The white space of one byte: tab to carriage return, the four separators
    0x1c-0x1f, and the blank. *)
Definition is_space (c : ascii) : bool :=
  let n := byte c in
  (((9 <=? n) && (n <=? 13)) || ((28 <=? n) && (n <=? 32)))%nat.

(** The white space of two bytes: U+0085 and U+00A0 *)
Definition is_space2 (c c1 : ascii) : bool :=
  ((byte c =? 194) && ((byte c1 =? 133) || (byte c1 =? 160)))%nat.

(** The white space of three bytes: U+1680, U+2000 to U+200A, U+2028,
    U+2029, U+202F, U+205F and U+3000 *)
Definition is_space3 (c c1 c2 : ascii) : bool :=
  (((byte c =? 225) && (byte c1 =? 154) && (byte c2 =? 128))
   || ((byte c =? 226) && (byte c1 =? 128)
       && (((128 <=? byte c2) && (byte c2 <=? 138))
           || (byte c2 =? 168) || (byte c2 =? 169) || (byte c2 =? 175)))
   || ((byte c =? 226) && (byte c1 =? 129) && (byte c2 =? 159))
   || ((byte c =? 227) && (byte c1 =? 128) && (byte c2 =? 128)))%nat.

(** A text cut into its characters of white space and its other bytes *)
Inductive piece : Type :=
| Blank (c : ascii) (more : string)
| Plain (c : ascii).

Definition piece_text (p : piece) : string :=
  match p with
  | Blank c more => String c more
  | Plain c => String c EmptyString
  end.

Definition is_blank (p : piece) : bool :=
  match p with Blank _ _ => true | Plain _ => false end.

Fixpoint pieces (s : string) : list piece :=
  match s with
  | EmptyString => []
  | String c s1 =>
      if is_space c then Blank c EmptyString :: pieces s1
      else
        match s1 with
        | String c1 s2 =>
            if is_space2 c c1 then Blank c (String c1 EmptyString) :: pieces s2
            else
              match s2 with
              | String c2 s3 =>
                  if is_space3 c c1 c2
                  then Blank c (String c1 (String c2 EmptyString)) :: pieces s3
                  else Plain c :: pieces s1
              | EmptyString => Plain c :: pieces s1
              end
        | EmptyString => Plain c :: pieces s1
        end
  end.

Fixpoint join (l : list piece) : string :=
  match l with
  | [] => EmptyString
  | p :: l' => piece_text p ++ join l'
  end.

Fixpoint drop_blanks (l : list piece) : list piece :=
  match l with
  | [] => []
  | p :: l' => if is_blank p then drop_blanks l' else l
  end.

Fixpoint drop_blanks_end (l : list piece) : list piece :=
  match l with
  | [] => []
  | p :: l' =>
      match drop_blanks_end l' with
      | [] => if is_blank p then [] else [p]
      | r => p :: r
      end
  end.

(** [s.strip()] *)
Definition strip (s : string) : string :=
  join (drop_blanks_end (drop_blanks (pieces s))).

(** Truth value of a string: [if s:] *)
Definition truthy (s : string) : bool :=
  match s with EmptyString => false | _ => true end.

(** [s.split(sep)] for a one-character separator *)
Fixpoint split_on (sep : ascii) (s : string) : list string :=
  match s with
  | EmptyString => [EmptyString]
  | String c s' =>
      if Ascii.eqb c sep then EmptyString :: split_on sep s'
      else match split_on sep s' with
           | x :: r => String c x :: r
           | [] => [String c EmptyString]
           end
  end.

(** [s.split()]: the words between runs of white space *)
Fixpoint words (cur : option string) (l : list piece) : list string :=
  match l with
  | [] => match cur with Some tok => [tok] | None => [] end
  | Blank _ _ :: l' =>
      match cur with
      | Some tok => tok :: words None l'
      | None => words None l'
      end
  | Plain c :: l' =>
      words (Some (match cur with
                   | Some tok => tok ++ String c EmptyString
                   | None => String c EmptyString
                   end)) l'
  end.

Definition split_ws (s : string) : list string := words None (pieces s).

(** A text of white space only *)
Definition blank (s : string) : bool := forallb is_blank (pieces s).

(** [sub in s] *)
Fixpoint contains (sub s : string) : bool :=
  match s with
  | EmptyString => String.prefix sub EmptyString
  | String _ s' => String.prefix sub s || contains sub s'
  end.

(** [c * n] for a one-character string *)
Fixpoint replicate (c : ascii) (n : nat) : string :=
  match n with
  | O => EmptyString
  | S n' => String c (replicate c n')
  end.

(** [str(n)] for an int *)
Definition str_int (z : Z) : string := NilZero.string_of_int (Z.to_int z).

(** ** Values, exceptions, events *)

(** The Python values the scripts handle.  [VObj] is an object of the client
    library (a manager, a device, an fx or lighting object), known by an
    identity and by the text [str] gives for it. *)
Inductive pyval : Type :=
| VNone
| VBool (b : bool)
| VInt (z : Z)
| VStr (s : string)
| VObj (id : nat) (repr : string).

(** [str(v)], as an f-string interpolates it *)
Definition py_str (v : pyval) : string :=
  match v with
  | VNone => "None"
  | VBool true => "True"
  | VBool false => "False"
  | VInt z => str_int z
  | VStr s => s
  | VObj _ repr => repr
  end.

(** [a == b] *)
Definition py_eq (a b : pyval) : bool :=
  match a, b with
  | VNone, VNone => true
  | VBool x, VBool y => Bool.eqb x y
  | VBool x, VInt y => (if x then 1 else 0) =? y
  | VInt x, VBool y => x =? (if y then 1 else 0)
  | VInt x, VInt y => x =? y
  | VStr x, VStr y => String.eqb x y
  | VObj i _, VObj j _ => Nat.eqb i j
  | _, _ => false
  end.

(** [a is b]: an object of the client library is known by its identity,
    the other values by what they are. *)
Definition same_object (a b : pyval) : bool :=
  match a, b with
  | VNone, VNone => true
  | VBool x, VBool y => Bool.eqb x y
  | VInt x, VInt y => x =? y
  | VStr x, VStr y => String.eqb x y
  | VObj i _, VObj j _ => Nat.eqb i j
  | _, _ => false
  end.

(** The exception classes the scripts tell apart.  [KeyboardInterrupt] is the
    one that is no subclass of [Exception]; [OtherException] stands for every
    other subclass of [Exception]. *)
Inductive exn_class : Type :=
| KeyboardInterrupt
| TimeoutExpired
| ImportError
| ModuleNotFoundError
| ValueError
| IndexError
| OtherException (name : string).

Record exn : Type := Exn { exn_cls : exn_class; exn_msg : string }.

(** [isinstance(e, Exception)] *)
Definition is_Exception (e : exn) : bool :=
  match exn_cls e with
  | KeyboardInterrupt => false
  | _ => true
  end.

Inductive outcome (A : Type) : Type :=
| Ok (a : A)
| Raise (e : exn).
Arguments Ok {A} a.
Arguments Raise {A} e.

(** A printed message keeps the literal text of the format string apart
    from the interpolated values: [f"Found {n} device(s)"] is
    [[Lit "Found "; Arg n; Lit " device(s)"]]. *)
Inductive frag : Type :=
| Lit (s : string)
| Arg (s : string).

Definition frag_text (f : frag) : string :=
  match f with Lit s => s | Arg s => s end.

(** The line as it reaches the terminal *)
Definition render (msg : list frag) : string :=
  fold_right (fun f acc => frag_text f ++ acc) EmptyString msg.

(** What a run does, call by call, each with the answer it got. *)
Inductive event : Type :=
| EvPrint (msg : list frag)
| EvSleep (seconds : Q)
| EvRun (command : string) (timeout : option Q)
        (r : outcome (Z * string * string))
| EvFindSpec (module : string) (r : outcome bool)
| EvImport (module name : string) (r : outcome unit)
| EvNew (cls : string) (r : outcome pyval)
| EvDevices (manager : pyval) (r : outcome (list pyval))
| EvHasAttr (o : pyval) (attr : string) (r : outcome bool)
| EvGetAttr (o : pyval) (attr : string) (r : outcome pyval)
| EvSetAttr (o : pyval) (attr : string) (v : pyval) (r : outcome unit)
| EvCall (o : pyval) (method : string) (args : list pyval) (r : outcome pyval)
| EvPrintAttrs (o : pyval) (r : outcome unit)
| EvPathExists (path : string) (r : bool)
| EvInSysPath (path : string) (r : bool)
| EvSysPathInsert (path : string)
| EvWriteFile (path content : string) (r : outcome unit)
| EvRemove (path : string) (r : outcome unit).

Definition history := list event.

(** The outside of a script.  Every answer may depend on everything that
    happened before it in the run. *)
Record World : Type := {
  (** [os.path.join(repo_root, 'pylib')], computed from [__file__] *)
  w_pylib_path : string;
  (** [subprocess.run(command, shell=True, capture_output=True, text=True,
      timeout=...)]: return code, stdout, stderr *)
  w_subprocess_run : history -> string -> option Q -> outcome (Z * string * string);
  (** [importlib.util.find_spec(module) is not None] *)
  w_find_spec : history -> string -> outcome bool;
  (** [from module import name] *)
  w_import : history -> string -> string -> outcome unit;
  (** [cls()] *)
  w_new : history -> string -> outcome pyval;
  (** [manager.devices] *)
  w_devices : history -> pyval -> outcome (list pyval);
  w_hasattr : history -> pyval -> string -> outcome bool;
  w_getattr : history -> pyval -> string -> outcome pyval;
  w_setattr : history -> pyval -> string -> pyval -> outcome unit;
  (** [o.method(args...)] *)
  w_call : history -> pyval -> string -> list pyval -> outcome pyval;
  (** [openrazer.client.debug.print_attrs(o)] *)
  w_print_attrs : history -> pyval -> outcome unit;
  w_path_exists : history -> string -> bool;
  w_in_sys_path : history -> string -> bool;
  (** [with open(path, 'w') as f: f.write(content)] *)
  w_write_file : history -> string -> string -> outcome unit;
  w_remove : history -> string -> outcome unit
}.

(** ** The monad of a run *)

(** A computation reads the history and gives its result with the events it
    adds. *)
Definition M (A : Type) : Type := history -> outcome A * list event.

Definition ret {A} (a : A) : M A := fun _ => (Ok a, []).

Definition raise {A} (e : exn) : M A := fun _ => (Raise e, []).

Definition bind {A B} (m : M A) (f : A -> M B) : M B :=
  fun h =>
    match m h with
    | (Ok a, t1) => let (r, t2) := f a (h ++ t1)%list in (r, (t1 ++ t2)%list)
    | (Raise e, t1) => (Raise e, t1)
    end.

(** [try: body / except ...:], the clauses folded into [handler]: it gives
    the code of the first clause that matches, [None] when none does and the
    exception goes on. *)
Definition try_catch {A} (body : M A) (handler : exn -> option (M A)) : M A :=
  fun h =>
    match body h with
    | (Ok a, t) => (Ok a, t)
    | (Raise e, t) =>
        match handler e with
        | Some m => let (r, t') := m (h ++ t)%list in (r, (t ++ t')%list)
        | None => (Raise e, t)
        end
    end.

(** [except Exception as e:] *)
Definition except_Exception {A} (k : exn -> M A) : exn -> option (M A) :=
  fun e => if is_Exception e then Some (k e) else None.

(** [except:] *)
Definition except_all {A} (k : M A) : exn -> option (M A) :=
  fun _ => Some k.

(** A call to the outside: ask, log the answer, pass it on. *)
Definition ask {A} (answer : history -> outcome A) (ev : outcome A -> event) : M A :=
  fun h => let r := answer h in (r, [ev r]).

Definition tell (ev : event) : M unit := fun _ => (Ok tt, [ev]).

Definition ask_bool (answer : history -> bool) (ev : bool -> event) : M bool :=
  fun h => let r := answer h in (Ok r, [ev r]).

Declare Scope py_scope.
Delimit Scope py_scope with py.
Notation "x <- m ;; k" := (bind m (fun x => k))
  (at level 61, m at next level, right associativity) : py_scope.
Notation "' pat <- m ;; k" := (bind m (fun x => match x with pat => k end))
  (at level 61, pat pattern, m at next level, right associativity) : py_scope.
Notation "m ;; k" := (bind m (fun _ => k))
  (at level 61, right associativity) : py_scope.

Local Open Scope py_scope.

(** [for x in l: body] *)
Fixpoint for_each {A} (l : list A) (body : A -> M unit) : M unit :=
  match l with
  | [] => ret tt
  | x :: l' => body x ;; for_each l' body
  end.

(** [if c: body] with no else *)
Definition when (c : bool) (body : M unit) : M unit :=
  if c then body else ret tt.

Section Primitives.
Variable w : World.

Definition print (msg : list frag) : M unit := tell (EvPrint msg).

Definition sleep (seconds : Q) : M unit := tell (EvSleep seconds).

Definition subprocess_run (command : string) (timeout : option Q)
  : M (Z * string * string) :=
  ask (fun h => w_subprocess_run w h command timeout) (EvRun command timeout).

Definition find_spec (module : string) : M bool :=
  ask (fun h => w_find_spec w h module) (EvFindSpec module).

Definition import_from (module name : string) : M unit :=
  ask (fun h => w_import w h module name) (EvImport module name).

Definition new (cls : string) : M pyval :=
  ask (fun h => w_new w h cls) (EvNew cls).

Definition devices_of (manager : pyval) : M (list pyval) :=
  ask (fun h => w_devices w h manager) (EvDevices manager).

Definition hasattr (o : pyval) (attr : string) : M bool :=
  ask (fun h => w_hasattr w h o attr) (EvHasAttr o attr).

Definition getattr (o : pyval) (attr : string) : M pyval :=
  ask (fun h => w_getattr w h o attr) (EvGetAttr o attr).

Definition setattr (o : pyval) (attr : string) (v : pyval) : M unit :=
  ask (fun h => w_setattr w h o attr v) (EvSetAttr o attr v).

Definition call (o : pyval) (method : string) (args : list pyval) : M pyval :=
  ask (fun h => w_call w h o method args) (EvCall o method args).

Definition print_attrs (o : pyval) : M unit :=
  ask (fun h => w_print_attrs w h o) (EvPrintAttrs o).

Definition path_exists (path : string) : M bool :=
  ask_bool (fun h => w_path_exists w h path) (EvPathExists path).

Definition in_sys_path (path : string) : M bool :=
  ask_bool (fun h => w_in_sys_path w h path) (EvInSysPath path).

Definition sys_path_insert (path : string) : M unit :=
  tell (EvSysPathInsert path).

Definition write_file (path content : string) : M unit :=
  ask (fun h => w_write_file w h path content) (EvWriteFile path content).

Definition remove (path : string) : M unit :=
  ask (fun h => w_remove w h path) (EvRemove path).
End Primitives.

End Py.

(** ** scripts/test_system.py *)

Module TestSystem.
Import Py.
Local Open Scope py_scope.

Section Script.
Variable w : World.

(** [check_import], lines 13-19 *)
Definition check_import (module_name : string) : M bool :=
  try_catch
    (found <- find_spec w module_name ;;
     ret found)
    (fun e =>
       match exn_cls e with
       | ImportError | ModuleNotFoundError | ValueError => Some (ret false)
       | _ => None
       end).

(** [run_command], lines 21-27: no [timeout] argument *)
Definition run_command (command : string) : M (bool * string * string) :=
  try_catch
    ('(returncode, stdout, stderr) <- subprocess_run w command None ;;
     ret (returncode =? 0, stdout, stderr))
    (except_Exception (fun e => ret (false, EmptyString, exn_msg e))).

(** [main], lines 36-48.  Each test takes the two counters and gives them
    back. *)
Definition test1_razer_devices (tests_passed total_tests : Z) : M (Z * Z) :=
  print [Lit (nl ++ "1. Checking for Razer devices...")] ;;
  let total_tests := total_tests + 1 in
  '(success, stdout, stderr) <- run_command "lsusb | grep 1532" ;;
  if success && truthy (strip stdout) then
    print [Lit "✓ Found Razer device(s):"] ;;
    for_each (split_on "010" (strip stdout))
      (fun line => print [Lit "  "; Arg line]) ;;
    ret (tests_passed + 1, total_tests)
  else
    print [Lit "✗ No Razer devices found"] ;;
    print [Lit "  This is OK if you're testing with fake devices"] ;;
    ret (tests_passed, total_tests).

(** lines 50-62; [line.split()[0]] raises [IndexError] on a line with no
    word *)
Definition index_error : exn := Exn IndexError "list index out of range".

Definition test2_kernel_modules (tests_passed total_tests : Z) : M (Z * Z) :=
  print [Lit (nl ++ "2. Checking kernel modules...")] ;;
  let total_tests := total_tests + 1 in
  '(success, stdout, stderr) <- run_command "lsmod | grep razer" ;;
  if success && truthy (strip stdout) then
    print [Lit "✓ OpenRazer kernel modules loaded:"] ;;
    for_each (split_on "010" (strip stdout))
      (fun line =>
         match split_ws line with
         | module_name :: _ => print [Lit "  "; Arg module_name]
         | [] => raise index_error
         end) ;;
    ret (tests_passed + 1, total_tests)
  else
    print [Lit "✗ No OpenRazer kernel modules loaded"] ;;
    ret (tests_passed, total_tests).

(** lines 64-83 *)
Definition test3_python_library (tests_passed total_tests : Z) : M (Z * Z) :=
  print [Lit (nl ++ "3. Checking Python library...")] ;;
  let total_tests := total_tests + 1 in
  let pylib_path := w_pylib_path w in
  there <- path_exists w pylib_path ;;
  missing <- (if there then
                listed <- in_sys_path w pylib_path ;;
                ret (negb listed)
              else ret false) ;;
  when missing (sys_path_insert pylib_path) ;;
  importable <- check_import "openrazer.client" ;;
  if importable then
    print [Lit "✓ OpenRazer Python library can be imported"] ;;
    ret (tests_passed + 1, total_tests)
  else
    print [Lit "✗ Cannot import OpenRazer Python library"] ;;
    print [Lit "  Make sure openrazer is installed: pip3 install openrazer"] ;;
    print [Lit "  Or run from repository root with PYTHONPATH=pylib"] ;;
    ret (tests_passed, total_tests).

(** lines 85-106 *)
Definition test4_device_detection (tests_passed total_tests : Z) : M (Z * Z) :=
  print [Lit (nl ++ "4. Testing device detection...")] ;;
  let total_tests := total_tests + 1 in
  tests_passed <-
    try_catch
      (import_from w "openrazer.client" "DeviceManager" ;;
       device_manager <- new w "DeviceManager" ;;
       devices <- devices_of w device_manager ;;
       let device_count := Z.of_nat (length devices) in
       if device_count >? 0 then
         print [Lit "✓ Found "; Arg (str_int device_count); Lit " device(s):"] ;;
         devices <- devices_of w device_manager ;;
         for_each devices
           (fun device =>
              name <- getattr w device "name" ;;
              serial <- getattr w device "serial" ;;
              print [Lit "  - "; Arg (py_str name); Lit " (Serial: ";
                     Arg (py_str serial); Lit ")"]) ;;
         ret (tests_passed + 1)
       else
         print [Lit "✗ No devices detected by OpenRazer"] ;;
         print [Lit "  This could be due to:"] ;;
         print [Lit "  - No physical devices connected"] ;;
         print [Lit "  - Permission issues"] ;;
         print [Lit "  - Driver not loaded"] ;;
         ret tests_passed)
      (except_Exception
         (fun e =>
            print [Lit "✗ Error testing device detection: "; Arg (exn_msg e)] ;;
            ret tests_passed)) ;;
  ret (tests_passed, total_tests).

(** lines 108-118 *)
Definition test5_daemon_status (tests_passed total_tests : Z) : M (Z * Z) :=
  print [Lit (nl ++ "5. Checking daemon status...")] ;;
  let total_tests := total_tests + 1 in
  '(success, stdout, stderr) <- run_command "systemctl is-active openrazer-daemon" ;;
  if success && contains "active" stdout then
    print [Lit "✓ OpenRazer daemon is running"] ;;
    ret (tests_passed + 1, total_tests)
  else
    print [Lit "✗ OpenRazer daemon is not running"] ;;
    print [Lit "  Try: systemctl start openrazer-daemon"] ;;
    ret (tests_passed, total_tests).

(** [device.fx.lighting_led_matrix], read afresh at each use *)
Definition led_matrix (device : pyval) : M pyval :=
  fx <- getattr w device "fx" ;;
  getattr w fx "lighting_led_matrix".

Definition brightness_ok : list frag := [Lit "  - Brightness control: ✓"].
Definition brightness_bad : list frag := [Lit "  - Brightness control: ✗"].

(** lines 139-156: the lighting test with its own handler *)
Definition lighting_test (device : pyval) : M unit :=
  try_catch
    (matrix <- led_matrix device ;;
     original_brightness <- getattr w matrix "brightness" ;;
     matrix <- led_matrix device ;;
     setattr w matrix "brightness" (VInt 128) ;;
     matrix <- led_matrix device ;;
     current_brightness <- getattr w matrix "brightness" ;;
     (if py_eq current_brightness (VInt 128) then print brightness_ok
      else print brightness_bad) ;;
     matrix <- led_matrix device ;;
     setattr w matrix "brightness" original_brightness)
    (except_Exception
       (fun e => print [Lit "  - Lighting test failed: "; Arg (exn_msg e)])).

(** lines 120-164 *)
Definition test6_device_functionality (tests_passed total_tests : Z) : M (Z * Z) :=
  print [Lit (nl ++ "6. Testing basic device functionality...")] ;;
  let total_tests := total_tests + 1 in
  tests_passed <-
    try_catch
      (import_from w "openrazer.client" "DeviceManager" ;;
       device_manager <- new w "DeviceManager" ;;
       devices <- devices_of w device_manager ;;
       if Z.of_nat (length devices) >? 0 then
         devices <- devices_of w device_manager ;;
         match devices with
         | [] => raise index_error
         | device :: _ =>
             name <- getattr w device "name" ;;
             print [Lit "  Testing with: "; Arg (py_str name)] ;;
             type <- getattr w device "type" ;;
             print [Lit "  - Type: "; Arg (py_str type)] ;;
             firmware_version <- getattr w device "firmware_version" ;;
             print [Lit "  - Firmware: "; Arg (py_str firmware_version)] ;;
             driver_version <- getattr w device "driver_version" ;;
             print [Lit "  - Driver: "; Arg (py_str driver_version)] ;;
             has_fx <- hasattr w device "fx" ;;
             has_matrix <- (if has_fx then
                              fx <- getattr w device "fx" ;;
                              hasattr w fx "lighting_led_matrix"
                            else ret false) ;;
             when has_matrix (lighting_test device) ;;
             ret (tests_passed + 1)
         end
       else
         print [Lit "  Skipped - no devices available"] ;;
         ret (tests_passed + 1))
      (except_Exception
         (fun e =>
            print [Lit "✗ Error testing device functionality: "; Arg (exn_msg e)] ;;
            ret tests_passed)) ;;
  ret (tests_passed, total_tests).

(** lines 166-180 *)
Definition summary (tests_passed total_tests : Z) : M Z :=
  print [Lit nl; Arg (replicate "=" 40)] ;;
  print [Lit "Test Results: "; Arg (str_int tests_passed); Lit "/";
         Arg (str_int total_tests); Lit " passed"] ;;
  if tests_passed =? total_tests then
    print [Lit "🎉 All tests passed! OpenRazer appears to be working correctly."] ;;
    ret 0
  else if tests_passed >=? total_tests - 1 then
    print [Lit "⚠️  Most tests passed. Minor issues detected."] ;;
    ret 0
  else
    print [Lit "❌ Multiple tests failed. Please check the issues above."] ;;
    print [Lit (nl ++ "For troubleshooting help, see DEBUGGING_AND_TESTING.md")] ;;
    print [Lit "or run: ./scripts/troubleshoot.sh"] ;;
    ret 1.

(** The six tests in the order of the file, lines 30-164 *)
Definition tests : M (Z * Z) :=
  print [Lit "OpenRazer Basic System Test"] ;;
  print [Lit "==========================="] ;;
  let tests_passed := 0 in
  let total_tests := 0 in
  '(tests_passed, total_tests) <- test1_razer_devices tests_passed total_tests ;;
  '(tests_passed, total_tests) <- test2_kernel_modules tests_passed total_tests ;;
  '(tests_passed, total_tests) <- test3_python_library tests_passed total_tests ;;
  '(tests_passed, total_tests) <- test4_device_detection tests_passed total_tests ;;
  '(tests_passed, total_tests) <- test5_daemon_status tests_passed total_tests ;;
  test6_device_functionality tests_passed total_tests.

(** [main], lines 29-180 *)
Definition main : M Z :=
  '(tests_passed, total_tests) <- tests ;;
  summary tests_passed total_tests.

End Script.
End TestSystem.

(** ** scripts/debug_workflow.py *)

Module DebugWorkflow.
Import Py.
Local Open Scope py_scope.

(** [test_script], lines 167-184 *)
Definition test_script : string := "
import os, sys
script_dir = os.path.dirname(os.path.abspath(__file__))
repo_root = os.path.dirname(script_dir)
pylib_path = os.path.join(repo_root, 'pylib')
if os.path.exists(pylib_path):
    sys.path.insert(0, pylib_path)

try:
    from openrazer.client import DeviceManager
    dm = DeviceManager()
    print(f'Found {len(dm.devices)} devices')
    for device in dm.devices:
        print(f'  - {device.name}')
except Exception as e:
    print(f'Error: {e}')
    exit(1)
".

Definition import_command : string :=
  "python3 -c 'from openrazer.client import DeviceManager; print(" ++ dquote
  ++ "Import successful" ++ dquote ++ ")'".

(** [x in issues_found] *)
Definition mem (x : string) (l : list string) : bool := existsb (String.eqb x) l.

Section Script.
Variable w : World.

(** [run_command], lines 16-36 *)
Definition run_command (command description : string) : M (bool * string * string) :=
  print [Lit nl; Arg description; Lit "..."] ;;
  print [Lit "$ "; Arg command] ;;
  try_catch
    ('(returncode, stdout, stderr) <- subprocess_run w command (Some (10 # 1)%Q) ;;
     when (truthy stdout)
       (print [Lit "STDOUT:"] ;;
        print [Arg stdout]) ;;
     when (truthy stderr)
       (print [Lit "STDERR:"] ;;
        print [Arg stderr]) ;;
     print [Lit "Exit code: "; Arg (str_int returncode)] ;;
     ret (returncode =? 0, stdout, stderr))
    (fun e =>
       match exn_cls e with
       | TimeoutExpired =>
           Some (print [Lit "Command timed out!"] ;;
                 ret (false, EmptyString, "Timeout"))
       | _ =>
           except_Exception
             (fun e =>
                print [Lit "Error running command: "; Arg (exn_msg e)] ;;
                ret (false, EmptyString, exn_msg e)) e
       end).

(** [check_step], lines 39-52 *)
Definition check_step (step_name : string) (condition : bool)
    (success_msg failure_msg tip : string) : M bool :=
  print [Lit nl; Arg (replicate "=" 50)] ;;
  print [Lit "STEP: "; Arg step_name] ;;
  print [Arg (replicate "=" 50)] ;;
  if condition then
    print [Lit "✓ "; Arg success_msg] ;;
    ret true
  else
    print [Lit "✗ "; Arg failure_msg] ;;
    when (truthy tip) (print [Lit "TIP: "; Arg tip]) ;;
    ret false.

(** [main], lines 64-76.  Each step takes the list of issues and gives it
    back, with what later steps read. *)
Definition step1_hardware (issues_found : list string) : M (bool * list string) :=
  '(success, stdout, stderr) <-
    run_command "lsusb | grep 1532" "Checking for Razer devices" ;;
  has_hardware <-
    check_step "Hardware Detection"
      (success && truthy (strip stdout))
      ("Found Razer device(s):" ++ nl ++ stdout)
      "No Razer devices detected by USB subsystem"
      "Try a different USB port or check if device is powered on" ;;
  if negb has_hardware then
    let issues_found := (issues_found ++ ["No hardware detected"])%list in
    print [Lit (nl ++ "INFO: Continuing with software checks...")] ;;
    ret (has_hardware, issues_found)
  else ret (has_hardware, issues_found).

(** lines 78-96 *)
Definition step2_kernel_modules (issues_found : list string) : M (bool * list string) :=
  '(success, stdout, stderr) <-
    run_command "lsmod | grep razer" "Checking kernel modules" ;;
  has_modules <-
    check_step "Kernel Module Loading"
      (success && truthy (strip stdout))
      ("OpenRazer modules loaded:" ++ nl ++ stdout)
      "No OpenRazer kernel modules loaded"
      "Try: sudo modprobe razerkbd razermouse razeraccessory" ;;
  if negb has_modules then
    let issues_found := (issues_found ++ ["Kernel modules not loaded"])%list in
    '(success, stdout, stderr) <-
      run_command "dkms status openrazer-driver" "Checking DKMS status" ;;
    (if success && truthy (strip stdout) then
       print [Lit ("DKMS status:" ++ nl); Arg stdout]
     else
       print [Lit "DKMS module not found or not installed"]) ;;
    ret (has_modules, issues_found)
  else ret (has_modules, issues_found).

(** lines 98-109 *)
Definition step3_module_files (issues_found : list string) : M (list string) :=
  '(success, stdout, stderr) <-
    run_command "find /lib/modules/$(uname -r) -name '*razer*'"
      "Checking module files" ;;
  has_module_files <-
    check_step "Module Files"
      (success && truthy (strip stdout))
      ("Found module files:" ++ nl ++ stdout)
      "No OpenRazer module files found"
      "Try reinstalling OpenRazer or check DKMS installation" ;;
  if negb has_module_files then
    ret (issues_found ++ ["Module files missing"])%list
  else ret issues_found.

(** lines 111-123 *)
Definition step4_device_files (has_hardware has_modules : bool)
    (issues_found : list string) : M (list string) :=
  if has_hardware && has_modules then
    '(success, stdout, stderr) <-
      run_command "find /sys/bus/hid/drivers/razer* -name '*1532*' 2>/dev/null"
        "Checking device files" ;;
    has_device_files <-
      check_step "Device Files"
        (success && truthy (strip stdout))
        ("Found device files:" ++ nl ++ stdout)
        "No device files in sysfs"
        "Check if modules recognize your specific device model" ;;
    if negb has_device_files then
      ret (issues_found ++ ["Device files not created"])%list
    else ret issues_found
  else ret issues_found.

(** lines 125-141 *)
Definition step5_daemon (issues_found : list string) : M (list string) :=
  '(success, stdout, stderr) <-
    run_command "systemctl is-active openrazer-daemon" "Checking daemon status" ;;
  daemon_running <-
    check_step "Daemon Status"
      (success && contains "active" stdout)
      "OpenRazer daemon is running"
      "OpenRazer daemon is not running"
      "Try: systemctl start openrazer-daemon" ;;
  if negb daemon_running then
    let issues_found := (issues_found ++ ["Daemon not running"])%list in
    '(success, stdout, stderr) <-
      run_command "journalctl -u openrazer-daemon --no-pager -n 10"
        "Checking daemon logs" ;;
    when (success && truthy (strip stdout))
      (print [Lit ("Recent daemon logs:" ++ nl); Arg stdout]) ;;
    ret issues_found
  else ret issues_found.

(** lines 143-163.  [env] is a local copy of the environment that no later
    line reads; only the look at the file system shows outside. *)
Definition step6_python_library (issues_found : list string)
  : M (bool * list string) :=
  let pylib_path := w_pylib_path w in
  _ <- path_exists w pylib_path ;;
  '(success, stdout, stderr) <-
    run_command import_command "Testing Python library import" ;;
  python_works <-
    check_step "Python Library"
      success
      "OpenRazer Python library imported successfully"
      ("Failed to import OpenRazer Python library:" ++ nl ++ stderr)
      "Try: pip3 install openrazer" ;;
  if negb python_works then
    ret (python_works, (issues_found ++ ["Python library import failed"])%list)
  else ret (python_works, issues_found).

(** lines 165-204 *)
Definition step7_device_detection (python_works : bool)
    (issues_found : list string) : M (list string) :=
  if python_works then
    write_file w "/tmp/test_devices.py" test_script ;;
    '(success, stdout, stderr) <-
      run_command "python3 /tmp/test_devices.py" "Testing device detection" ;;
    devices_detected <-
      check_step "Device Detection"
        (success && contains "Found" stdout)
        ("Device detection successful:" ++ nl ++ stdout)
        ("Device detection failed:" ++ nl ++ stderr)
        "Check hardware connection and permissions" ;;
    let issues_found :=
      if negb devices_detected
      then (issues_found ++ ["Device detection failed"])%list
      else issues_found in
    try_catch (remove w "/tmp/test_devices.py") (except_all (ret tt)) ;;
    ret issues_found
  else ret issues_found.

(** lines 206-217 *)
Definition step8_permissions (issues_found : list string) : M (list string) :=
  '(success, stdout, stderr) <-
    run_command "groups | grep plugdev" "Checking user groups" ;;
  has_plugdev <-
    check_step "User Permissions"
      success
      "User is in 'plugdev' group"
      "User is not in 'plugdev' group"
      "Try: sudo usermod -a -G plugdev $USER (then logout/login)" ;;
  if negb has_plugdev then
    ret (issues_found ++ ["User not in plugdev group"])%list
  else ret issues_found.

(** [for i, issue in enumerate(issues_found, 1)], lines 232-233 *)
Fixpoint print_issues (i : Z) (issues : list string) : M unit :=
  match issues with
  | [] => ret tt
  | issue :: rest =>
      print [Lit "  "; Arg (str_int i); Lit ". "; Arg issue] ;;
      print_issues (i + 1) rest
  end.

(** lines 219-261 *)
Definition summary (issues_found : list string) : M Z :=
  print [Lit nl; Arg (replicate "=" 60)] ;;
  print [Lit "DEBUG SUMMARY"] ;;
  print [Arg (replicate "=" 60)] ;;
  (match issues_found with
   | [] =>
       print [Lit "🎉 No issues detected! OpenRazer should be working correctly."] ;;
       print [Lit (nl ++ "If you're still experiencing problems:")] ;;
       print [Lit "- Try running: python3 scripts/test_system.py"] ;;
       print [Lit "- Check device-specific issues with scripts in scripts/driver/"] ;;
       print [Lit "- Look for more help in DEBUGGING_AND_TESTING.md"]
   | _ =>
       print [Lit "❌ Found "; Arg (str_int (Z.of_nat (length issues_found)));
              Lit " issue(s):"] ;;
       print_issues 1 issues_found ;;
       print [Lit (nl ++ "NEXT STEPS:")] ;;
       when (mem "No hardware detected" issues_found)
         (print [Lit "1. Verify your Razer device is connected and powered on"] ;;
          print [Lit "2. Try a different USB port"] ;;
          print [Lit "3. Check if device is supported (see README.md)"]) ;;
       when (mem "Kernel modules not loaded" issues_found
             || mem "Module files missing" issues_found)
         (print [Lit "1. Reinstall OpenRazer kernel modules"] ;;
          print [Lit "2. Check for secure boot issues"] ;;
          print [Lit "3. Verify kernel headers are installed"]) ;;
       when (mem "Daemon not running" issues_found)
         (print [Lit "1. Start daemon: systemctl start openrazer-daemon"] ;;
          print [Lit "2. Enable on boot: systemctl enable openrazer-daemon"] ;;
          print [Lit "3. Check daemon logs: journalctl -u openrazer-daemon"]) ;;
       when (mem "Python library import failed" issues_found)
         (print [Lit "1. Install Python library: pip3 install openrazer"] ;;
          print [Lit "2. Check dependencies are installed"]) ;;
       when (mem "User not in plugdev group" issues_found)
         (print [Lit "1. Add user to group: sudo usermod -a -G plugdev $USER"] ;;
          print [Lit "2. Logout and login again"]) ;;
       print [Lit (nl ++ "For detailed troubleshooting, see DEBUGGING_AND_TESTING.md")]
   end) ;;
  ret (Z.of_nat (length issues_found)).

(** The eight steps in the order of the file, lines 56-217 *)
Definition steps : M (list string) :=
  print [Lit "OpenRazer Debug Workflow"] ;;
  print [Arg (replicate "=" 60)] ;;
  print [Lit "This script walks through a systematic debugging process"] ;;
  print [Lit "for OpenRazer. Follow along to identify issues with your setup."] ;;
  print [Arg (replicate "=" 60)] ;;
  let issues_found := [] in
  '(has_hardware, issues_found) <- step1_hardware issues_found ;;
  '(has_modules, issues_found) <- step2_kernel_modules issues_found ;;
  issues_found <- step3_module_files issues_found ;;
  issues_found <- step4_device_files has_hardware has_modules issues_found ;;
  issues_found <- step5_daemon issues_found ;;
  '(python_works, issues_found) <- step6_python_library issues_found ;;
  issues_found <- step7_device_detection python_works issues_found ;;
  step8_permissions issues_found.

(** [main], lines 55-261 *)
Definition main : M Z :=
  issues_found <- steps ;;
  summary issues_found.

(** The [__main__] block, lines 264-273.  Its value is the status handed to
    [sys.exit]: the [SystemExit] that [sys.exit(exit_code)] raises inside
    the [try] is caught by neither clause. *)
Definition script : M Z :=
  try_catch
    (exit_code <- main ;;
     ret exit_code)
    (fun e =>
       match exn_cls e with
       | KeyboardInterrupt =>
           Some (print [Lit (nl ++ nl ++ "Debugging interrupted by user.")] ;;
                 ret 1)
       | _ =>
           except_Exception
             (fun e =>
                print [Lit (nl ++ "Unexpected error: "); Arg (exn_msg e)] ;;
                ret 1) e
       end).

End Script.
End DebugWorkflow.

(** ** examples/test_device_capabilities.py *)

Module DeviceCapabilities.
Import Py.
Local Open Scope py_scope.

(** [effects_to_test], lines 86-91 *)
Definition effects_to_test : list (string * string) :=
  [("breath_random", "Random breathing");
   ("wave", "Wave effect");
   ("reactive", "Reactive effect");
   ("spectrum", "Spectrum cycling")].

Section Script.
Variable w : World.

(** [test_device_info], lines 15-31 *)
Definition test_device_info (device : pyval) : M unit :=
  name <- getattr w device "name" ;;
  print [Lit (nl ++ "=== "); Arg (py_str name); Lit " ==="] ;;
  type <- getattr w device "type" ;;
  print [Lit "Type: "; Arg (py_str type)] ;;
  serial <- getattr w device "serial" ;;
  print [Lit "Serial: "; Arg (py_str serial)] ;;
  firmware_version <- getattr w device "firmware_version" ;;
  print [Lit "Firmware: "; Arg (py_str firmware_version)] ;;
  driver_version <- getattr w device "driver_version" ;;
  print [Lit "Driver: "; Arg (py_str driver_version)] ;;
  has_device_mode <- hasattr w device "device_mode" ;;
  when has_device_mode
    (device_mode <- getattr w device "device_mode" ;;
     print [Lit "Device Mode: "; Arg (py_str device_mode)]) ;;
  has_poll_rate <- hasattr w device "poll_rate" ;;
  when has_poll_rate
    (try_catch
       (poll_rate <- getattr w device "poll_rate" ;;
        print [Lit "Poll Rate: "; Arg (py_str poll_rate)])
       (except_all (print [Lit "Poll Rate: Not readable"]))).

(** lines 52-67 *)
Definition brightness_test (matrix : pyval) : M unit :=
  try_catch
    (original_brightness <- getattr w matrix "brightness" ;;
     print [Lit "  Current brightness: "; Arg (py_str original_brightness)] ;;
     setattr w matrix "brightness" (VInt 128) ;;
     sleep (1 # 10)%Q ;;
     new_brightness <- getattr w matrix "brightness" ;;
     print [Lit "  Set brightness to 128, got: "; Arg (py_str new_brightness)] ;;
     setattr w matrix "brightness" original_brightness ;;
     print [Lit "  ✓ Brightness control working"])
    (except_Exception
       (fun e => print [Lit "  ✗ Brightness control failed: "; Arg (exn_msg e)])).

(** lines 69-83 *)
Definition static_test (matrix : pyval) : M unit :=
  try_catch
    (_ <- call w matrix "static" [VInt 255; VInt 0; VInt 0] ;;
     print [Lit "  ✓ Static red color set"] ;;
     sleep (1 # 2)%Q ;;
     _ <- call w matrix "static" [VInt 0; VInt 255; VInt 0] ;;
     print [Lit "  ✓ Static green color set"] ;;
     sleep (1 # 2)%Q ;;
     _ <- call w matrix "static" [VInt 0; VInt 0; VInt 255] ;;
     print [Lit "  ✓ Static blue color set"] ;;
     sleep (1 # 2)%Q)
    (except_Exception
       (fun e => print [Lit "  ✗ Static color failed: "; Arg (exn_msg e)])).

(** The body of the loop of lines 93-100 *)
Definition effect_test (matrix : pyval) (effect : string * string) : M unit :=
  let (effect_name, description) := effect in
  has_effect <- hasattr w matrix effect_name ;;
  when has_effect
    (try_catch
       (_ <- call w matrix effect_name [] ;;
        print [Lit "  ✓ "; Arg description; Lit " working"] ;;
        sleep (1 # 1)%Q)
       (except_Exception
          (fun e =>
             print [Lit "  ✗ "; Arg description; Lit " failed: "; Arg (exn_msg e)]))).

(** lines 45-100 *)
Definition matrix_lighting (fx : pyval) (has_lighting : bool) : M bool :=
  has_matrix <- hasattr w fx "lighting_led_matrix" ;;
  if has_matrix then
    print [Lit "✓ Matrix lighting available"] ;;
    let has_lighting := true in
    matrix <- getattr w fx "lighting_led_matrix" ;;
    brightness_test matrix ;;
    static_test matrix ;;
    for_each effects_to_test (effect_test matrix) ;;
    ret has_lighting
  else ret has_lighting.

(** lines 102-111 *)
Definition logo_lighting (fx : pyval) (has_lighting : bool) : M bool :=
  has_logo <- hasattr w fx "lighting_logo" ;;
  if has_logo then
    print [Lit "✓ Logo lighting available"] ;;
    let has_lighting := true in
    try_catch
      (logo <- getattr w fx "lighting_logo" ;;
       _ <- call w logo "static" [VInt 255; VInt 255; VInt 255] ;;
       print [Lit "  ✓ Logo static color working"])
      (except_Exception
         (fun e => print [Lit "  ✗ Logo lighting failed: "; Arg (exn_msg e)])) ;;
    ret has_lighting
  else ret has_lighting.

(** lines 113-122 *)
Definition scroll_lighting (fx : pyval) (has_lighting : bool) : M bool :=
  has_scroll <- hasattr w fx "lighting_scroll" ;;
  if has_scroll then
    print [Lit "✓ Scroll wheel lighting available"] ;;
    let has_lighting := true in
    try_catch
      (scroll <- getattr w fx "lighting_scroll" ;;
       _ <- call w scroll "static" [VInt 255; VInt 255; VInt 0] ;;
       print [Lit "  ✓ Scroll wheel static color working"])
      (except_Exception
         (fun e => print [Lit "  ✗ Scroll wheel lighting failed: "; Arg (exn_msg e)])) ;;
    ret has_lighting
  else ret has_lighting.

(** [test_lighting_capabilities], lines 34-124 *)
Definition test_lighting_capabilities (device : pyval) : M bool :=
  name <- getattr w device "name" ;;
  print [Lit (nl ++ "--- Lighting Capabilities for "); Arg (py_str name); Lit " ---"] ;;
  has_fx <- hasattr w device "fx" ;;
  if negb has_fx then
    print [Lit "No lighting effects available"] ;;
    ret false
  else
    fx <- getattr w device "fx" ;;
    let has_lighting := false in
    has_lighting <- matrix_lighting fx has_lighting ;;
    has_lighting <- logo_lighting fx has_lighting ;;
    has_lighting <- scroll_lighting fx has_lighting ;;
    ret has_lighting.

(** lines 133-146 *)
Definition dpi_test (device : pyval) (capabilities_tested : Z) : M Z :=
  has_dpi <- hasattr w device "dpi" ;;
  if has_dpi then
    try_catch
      (original_dpi <- getattr w device "dpi" ;;
       print [Lit "  Current DPI: "; Arg (py_str original_dpi)] ;;
       has_available <- hasattr w device "available_dpi" ;;
       when has_available
         (available <- getattr w device "available_dpi" ;;
          print [Lit "  Available DPI: "; Arg (py_str available)]) ;;
       ret (capabilities_tested + 1))
      (except_Exception
         (fun e =>
            print [Lit "  ✗ DPI test failed: "; Arg (exn_msg e)] ;;
            ret capabilities_tested))
  else ret capabilities_tested.

(** lines 148-155 *)
Definition battery_test (device : pyval) (capabilities_tested : Z) : M Z :=
  has_battery <- hasattr w device "battery_level" ;;
  if has_battery then
    try_catch
      (battery <- getattr w device "battery_level" ;;
       print [Lit "  Battery level: "; Arg (py_str battery); Lit "%"] ;;
       ret (capabilities_tested + 1))
      (except_Exception
         (fun e =>
            print [Lit "  ✗ Battery test failed: "; Arg (exn_msg e)] ;;
            ret capabilities_tested))
  else ret capabilities_tested.

(** lines 157-164 *)
Definition charging_test (device : pyval) (capabilities_tested : Z) : M Z :=
  has_charging <- hasattr w device "is_charging" ;;
  if has_charging then
    try_catch
      (charging <- getattr w device "is_charging" ;;
       print [Lit "  Charging: "; Arg (py_str charging)] ;;
       ret (capabilities_tested + 1))
      (except_Exception
         (fun e =>
            print [Lit "  ✗ Charging status test failed: "; Arg (exn_msg e)] ;;
            ret capabilities_tested))
  else ret capabilities_tested.

(** lines 166-173 *)
Definition idle_test (device : pyval) (capabilities_tested : Z) : M Z :=
  has_idle <- hasattr w device "idle_time" ;;
  if has_idle then
    try_catch
      (idle <- getattr w device "idle_time" ;;
       print [Lit "  Idle time: "; Arg (py_str idle); Lit " seconds"] ;;
       ret (capabilities_tested + 1))
      (except_Exception
         (fun e =>
            print [Lit "  ✗ Idle time test failed: "; Arg (exn_msg e)] ;;
            ret capabilities_tested))
  else ret capabilities_tested.

(** lines 175-182 *)
Definition game_mode_test (device : pyval) (capabilities_tested : Z) : M Z :=
  has_game_mode <- hasattr w device "game_mode_led" ;;
  if has_game_mode then
    try_catch
      (game_mode <- getattr w device "game_mode_led" ;;
       print [Lit "  Game mode LED: "; Arg (py_str game_mode)] ;;
       ret (capabilities_tested + 1))
      (except_Exception
         (fun e =>
            print [Lit "  ✗ Game mode test failed: "; Arg (exn_msg e)] ;;
            ret capabilities_tested))
  else ret capabilities_tested.

(** [test_other_capabilities], lines 127-187 *)
Definition test_other_capabilities (device : pyval) : M bool :=
  name <- getattr w device "name" ;;
  print [Lit (nl ++ "--- Other Capabilities for "); Arg (py_str name); Lit " ---"] ;;
  let capabilities_tested := 0 in
  capabilities_tested <- dpi_test device capabilities_tested ;;
  capabilities_tested <- battery_test device capabilities_tested ;;
  capabilities_tested <- charging_test device capabilities_tested ;;
  capabilities_tested <- idle_test device capabilities_tested ;;
  capabilities_tested <- game_mode_test device capabilities_tested ;;
  when (capabilities_tested =? 0)
    (print [Lit "  No additional capabilities detected"]) ;;
  ret (capabilities_tested >? 0).

(** The body of the loop of lines 215-228, for the device at index [i] of
    [count] *)
Definition test_device (count : nat) (i : nat) (device : pyval) : M unit :=
  test_device_info device ;;
  has_lighting <- test_lighting_capabilities device ;;
  has_other <- test_other_capabilities device ;;
  when (negb has_lighting && negb has_other)
    (name <- getattr w device "name" ;;
     print [Lit (nl ++ "--- Detailed Capabilities for "); Arg (py_str name); Lit " ---"] ;;
     print [Lit "Use this for debugging:"] ;;
     print_attrs w device) ;;
  when (Z.of_nat i <? Z.of_nat count - 1)
    (print [Lit nl; Arg (replicate "=" 50)]).

(** [for i, device in enumerate(devices)] *)
Fixpoint test_devices (count : nat) (i : nat) (devices : list pyval) : M unit :=
  match devices with
  | [] => ret tt
  | device :: rest =>
      test_device count i device ;;
      test_devices count (S i) rest
  end.

(** [main], lines 190-231 *)
Definition main : M Z :=
  print [Lit "OpenRazer Device Capability Test"] ;;
  print [Lit "================================="] ;;
  connected <-
    try_catch
      (device_manager <- new w "DeviceManager" ;;
       ret (Some device_manager))
      (except_Exception
         (fun e =>
            print [Lit "Error connecting to OpenRazer daemon: "; Arg (exn_msg e)] ;;
            print [Lit "Make sure the daemon is running: systemctl start openrazer-daemon"] ;;
            ret None)) ;;
  match connected with
  | None => ret 1
  | Some device_manager =>
      devices <- devices_of w device_manager ;;
      match devices with
      | [] =>
          print [Lit "No OpenRazer devices found."] ;;
          print [Lit "This could mean:"] ;;
          print [Lit "- No physical devices are connected"] ;;
          print [Lit "- Devices are not recognized by OpenRazer"] ;;
          print [Lit "- Driver issues"] ;;
          print [Lit (nl ++ "For testing without hardware, try: ./scripts/quick_test_setup.sh")] ;;
          ret 1
      | _ =>
          let count := length devices in
          print [Lit "Found "; Arg (str_int (Z.of_nat count)); Lit " device(s)"] ;;
          test_devices count 0 devices ;;
          print [Lit (nl ++ "Testing completed for "); Arg (str_int (Z.of_nat count));
                 Lit " device(s)"] ;;
          ret 0
      end
  end.

(** The script itself: the imports of lines 11-12, then [sys.exit(main())],
    lines 234-235.  Its value is the status handed to [sys.exit]. *)
Definition script : M Z :=
  import_from w "openrazer.client" "DeviceManager" ;;
  import_from w "openrazer.client.debug" "print_attrs" ;;
  exit_code <- main ;;
  ret exit_code.

End Script.
End DeviceCapabilities.

(** ** The script of step 7

    [debug_workflow.py] writes the text [test_script] (lines 167-184) to
    [/tmp/test_devices.py] and has [python3] run it.  This is that script,
    run from that place. *)

Module TestDevices.
Import Py.
Local Open Scope py_scope.

(** [os.path.join(repo_root, 'pylib')], lines 169-171, with [__file__] the
    path of the file in [/tmp] *)
Definition pylib_path : string := "/pylib".

Section Script.
Variable w : World.

(** Lines 172-183.  The value is the exit status: 0 at the end of the file,
    1 from [exit(1)]. *)
Definition script : M Z :=
  there <- path_exists w pylib_path ;;
  when there (sys_path_insert pylib_path) ;;
  try_catch
    (import_from w "openrazer.client" "DeviceManager" ;;
     dm <- new w "DeviceManager" ;;
     devices <- devices_of w dm ;;
     print [Lit "Found "; Arg (str_int (Z.of_nat (length devices))); Lit " devices"] ;;
     devices <- devices_of w dm ;;
     for_each devices
       (fun device =>
          name <- getattr w device "name" ;;
          print [Lit "  - "; Arg (py_str name)]) ;;
     ret 0)
    (except_Exception
       (fun e =>
          print [Lit "Error: "; Arg (exn_msg e)] ;;
          ret 1)).

End Script.
End TestDevices.

(** ** What a trace shows *)

Module Trace.
Import Py.

Definition result {A} (m : M A) (h : history) : outcome A := fst (m h).
Definition trace {A} (m : M A) (h : history) : list event := snd (m h).

(** The exception an event ended with, if it did *)
Definition failure {A} (r : outcome A) : option exn :=
  match r with Ok _ => None | Raise e => Some e end.

Definition raised (ev : event) : option exn :=
  match ev with
  | EvRun _ _ r => failure r
  | EvFindSpec _ r => failure r
  | EvImport _ _ r => failure r
  | EvNew _ r => failure r
  | EvDevices _ r => failure r
  | EvHasAttr _ _ r => failure r
  | EvGetAttr _ _ r => failure r
  | EvSetAttr _ _ _ r => failure r
  | EvCall _ _ _ r => failure r
  | EvPrintAttrs _ r => failure r
  | EvWriteFile _ _ r => failure r
  | EvRemove _ r => failure r
  | EvPrint _ | EvSleep _ | EvPathExists _ _ | EvInSysPath _ _
  | EvSysPathInsert _ => None
  end.

Definition quiet (ev : event) : bool :=
  match raised ev with None => true | Some _ => false end.

Definition is_print (ev : event) : bool :=
  match ev with EvPrint _ => true | _ => false end.

Definition member (x : string) (l : list string) : bool :=
  existsb (String.eqb x) l.

(** *** Shell commands *)

Definition commands (t : list event) : list string :=
  flat_map (fun ev => match ev with EvRun c _ _ => [c] | _ => [] end) t.

Definition runs (t : list event) : list event :=
  filter (fun ev => match ev with EvRun _ _ _ => true | _ => false end) t.

(** The program a command line starts: its first word *)
Definition program_of (command : string) : string :=
  hd EmptyString (split_ws command).

Definition programs (t : list event) : list string :=
  map program_of (commands t).

Definition timeout_is (limit : option Q) (ev : event) : bool :=
  match ev with
  | EvRun _ timeout _ =>
      match timeout, limit with
      | Some a, Some b => Qeq_bool a b
      | None, None => true
      | _, _ => false
      end
  | _ => true
  end.

Definition has_timeout (ev : event) : bool :=
  match ev with
  | EvRun _ None _ => false
  | _ => true
  end.

(** The programs section 6 of the specification lists *)
Definition claimed_programs : list string :=
  ["lsusb"; "lsmod"; "dkms"; "systemctl"; "journalctl"; "find"].

(** The programs the command lines of the scripts start *)
Definition script_programs : list string :=
  ["lsusb"; "lsmod"; "dkms"; "find"; "systemctl"; "journalctl"; "python3"; "groups"].

Definition program_in (allowed : list string) (ev : event) : bool :=
  match ev with
  | EvRun c _ _ => member (program_of c) allowed
  | _ => true
  end.

(** *** Attributes and methods *)




Definition effect_methods : list string :=
  ["static"; "breath_random"; "wave"; "reactive"; "spectrum"].





(** *** Sleeps *)

Definition is_sleep (ev : event) : bool :=
  match ev with EvSleep _ => true | _ => false end.

(** A lighting command that went through, with the pause the script takes
    after it: a write of the brightness, a static colour, an effect. *)
Definition pause_after (ev : event) : option Q :=
  match ev with
  | EvSetAttr _ a _ (Ok _) =>
      if String.eqb a "brightness" then Some (1 # 10)%Q else None
  | EvCall _ m _ (Ok _) =>
      if String.eqb m "static" then Some (1 # 2)%Q
      else if member m effect_methods then Some (1 # 1)%Q
      else None
  | _ => None
  end.

(** A colour or effect command that went through *)
Definition colour_or_effect (ev : event) : bool :=
  match ev with
  | EvCall _ m _ (Ok _) => member m effect_methods
  | _ => false
  end.

(** Every sleep comes after a lighting command, with nothing but prints in
    between, and lasts what that command calls for. *)
Definition sleeps_follow_lighting (t : list event) : Prop :=
  forall t1 d t2,
    t = (t1 ++ EvSleep d :: t2)%list ->
    exists t0 c ps,
      t1 = (t0 ++ c :: ps)%list /\ pause_after c = Some d /\
      forallb is_print ps = true.

(** *** Brightness *)

Definition brightness_op (ev : event) : bool :=
  match ev with
  | EvGetAttr _ a _ | EvSetAttr _ a _ _ => String.eqb a "brightness"
  | _ => false
  end.

Definition brightness_ops (t : list event) : list event :=
  filter brightness_op t.

(** The brightness of the object [o] after the events [t]: the last value
    written to it, or the one it had. *)
Fixpoint brightness_of (o current : pyval) (t : list event) : pyval :=
  match t with
  | [] => current
  | EvSetAttr o' a v (Ok _) :: t' =>
      if String.eqb a "brightness" && same_object o' o
      then brightness_of o v t'
      else brightness_of o current t'
  | _ :: t' => brightness_of o current t'
  end.

(** *** Lines of the reports *)

(** [check_step]'s failure line, [f"✗ {failure_msg}"] *)
Definition failure_line (ev : event) : bool :=
  match ev with
  | EvPrint [Lit s; Arg _] => String.eqb s "✗ "
  | _ => false
  end.

(** [check_step]'s success line, [f"✓ {success_msg}"] *)
Definition success_line (ev : event) : bool :=
  match ev with
  | EvPrint [Lit s; Arg _] => String.eqb s "✓ "
  | _ => false
  end.

Definition failed_steps (t : list event) : nat :=
  length (filter failure_line t).

Definition verdicts (t : list event) : nat :=
  length (filter (fun ev => failure_line ev || success_line ev) t).

(** The steps [check_step] announced, [f"STEP: {step_name}"] *)
Definition steps_run (t : list event) : list string :=
  flat_map (fun ev =>
              match ev with
              | EvPrint [Lit s; Arg name] =>
                  if String.eqb s "STEP: " then [name] else []
              | _ => []
              end) t.

(** Every event that passes [a] is followed at once by one that passes
    [b]. *)
Definition next_is (a b : event -> bool) (t : list event) : Prop :=
  forall t1 ev t2,
    t = (t1 ++ ev :: t2)%list -> a ev = true ->
    exists ev' t3, t2 = (ev' :: t3)%list /\ b ev' = true.

(** [check_step]'s tip, [f"TIP: {tip}"], with a tip that says something *)
Definition tip_line (ev : event) : bool :=
  match ev with
  | EvPrint [Lit s; Arg tip] => String.eqb s "TIP: " && truthy tip
  | _ => false
  end.

(** Every failure line of [check_step] is followed at once by a tip. *)
Definition tips_follow (t : list event) : Prop :=
  next_is failure_line tip_line t.

(** A line printed as it stands *)
Definition line_is (s : string) (ev : event) : bool :=
  match ev with
  | EvPrint [Lit s'] => String.eqb s' s
  | _ => false
  end.

(** The numbered headers of [test_system.py] *)
Definition test_headers : list string :=
  [nl ++ "1. Checking for Razer devices...";
   nl ++ "2. Checking kernel modules...";
   nl ++ "3. Checking Python library...";
   nl ++ "4. Testing device detection...";
   nl ++ "5. Checking daemon status...";
   nl ++ "6. Testing basic device functionality..."].

Definition headers (t : list event) : list string :=
  flat_map (fun ev =>
              match ev with
              | EvPrint [Lit s] => if member s test_headers then [s] else []
              | _ => []
              end) t.

(** *** Where an exception came from *)

(** The trace ends with the call that raised [e]. *)
Definition ends_raising (e : exn) (t : list event) (from : event -> bool) : Prop :=
  exists t0 ev, t = (t0 ++ [ev])%list /\ raised ev = Some e /\ from ev = true.

(** The calls of [test_system.py] outside every handler that catches what
    they raise: [find_spec], guarded against three classes only *)
Definition open_in_test_system (ev : event) : bool :=
  match ev with
  | EvFindSpec _ (Raise e) =>
      match exn_cls e with
      | ImportError | ModuleNotFoundError | ValueError => false
      | _ => true
      end
  | _ => false
  end.


End Trace.

(** ** Some machines *)

Module Worlds.
Import Py.

Definition dbus_error : exn :=
  Exn (OtherException "DBusException")
      "org.freedesktop.DBus.Error.ServiceUnknown".

Definition attribute_error : exn :=
  Exn (OtherException "AttributeError") "no such attribute".

(** A machine with nothing installed and nothing plugged in: every command
    ends with status 1 and no output, the library is not importable. *)
Definition bare : World := {|
  w_pylib_path := "/opt/openrazer/pylib";
  w_subprocess_run := fun _ _ _ => Ok (1, EmptyString, EmptyString);
  w_find_spec := fun _ _ => Ok false;
  w_import := fun _ _ _ =>
    Raise (Exn ModuleNotFoundError "No module named 'openrazer'");
  w_new := fun _ _ => Raise dbus_error;
  w_devices := fun _ _ => Ok [];
  w_hasattr := fun _ _ _ => Ok false;
  w_getattr := fun _ _ _ => Raise attribute_error;
  w_setattr := fun _ _ _ _ => Raise attribute_error;
  w_call := fun _ _ _ _ => Raise attribute_error;
  w_print_attrs := fun _ _ => Ok tt;
  w_path_exists := fun _ _ => false;
  w_in_sys_path := fun _ _ => false;
  w_write_file := fun _ _ _ => Ok tt;
  w_remove := fun _ _ => Ok tt
|}.

Definition keyboard : pyval := VObj 1 "<RazerKeyboard>".

(** What the commands print on a machine where all is in place *)
Definition healthy_run (command : string) : Z * string * string :=
  if String.prefix "lsusb" command then
    (0, "Bus 001 Device 004: ID 1532:0203 Razer USA, Ltd" ++ nl, EmptyString)
  else if String.prefix "lsmod" command then
    (0, "razerkbd 45056 0" ++ nl ++ "razermouse 40960 0" ++ nl, EmptyString)
  else if String.prefix "find /lib" command then
    (0, "/lib/modules/6.1.0/updates/dkms/razerkbd.ko" ++ nl, EmptyString)
  else if String.prefix "find /sys" command then
    (0, "/sys/bus/hid/drivers/razerkbd/0003:1532:0203.0001" ++ nl, EmptyString)
  else if String.prefix "systemctl" command then
    (0, "active" ++ nl, EmptyString)
  else if String.prefix "python3 -c" command then
    (0, "Import successful" ++ nl, EmptyString)
  else if String.prefix "python3 /tmp" command then
    (0, "Found 1 devices" ++ nl ++ "  - Razer BlackWidow" ++ nl, EmptyString)
  else if String.prefix "groups" command then
    (0, "user plugdev" ++ nl, EmptyString)
  else (127, EmptyString, "command not found").

(** The brightness of an object that keeps what is written to it *)
Definition stored_brightness (o : pyval) (h : history) : pyval :=
  Trace.brightness_of o (VInt 255) h.

(** A machine where all is in place, with one keyboard that has every
    attribute the scripts look for. *)
Definition healthy : World := {|
  w_pylib_path := "/opt/openrazer/pylib";
  w_subprocess_run := fun _ command _ => Ok (healthy_run command);
  w_find_spec := fun _ _ => Ok true;
  w_import := fun _ _ _ => Ok tt;
  w_new := fun _ _ => Ok (VObj 0 "<DeviceManager>");
  w_devices := fun _ _ => Ok [keyboard];
  w_hasattr := fun _ _ _ => Ok true;
  w_getattr := fun h o attr =>
    if String.eqb attr "brightness" then Ok (stored_brightness o h)
    else if String.eqb attr "name" then Ok (VStr "Razer BlackWidow")
    else if String.eqb attr "fx" then Ok (VObj 2 "<RazerFX>")
    else if String.prefix "lighting_" attr then Ok (VObj 3 "<RazerLED>")
    else Ok (VStr attr);
  w_setattr := fun _ _ _ _ => Ok tt;
  w_call := fun _ _ _ _ => Ok VNone;
  w_print_attrs := fun _ _ => Ok tt;
  w_path_exists := fun _ _ => true;
  w_in_sys_path := fun _ _ => false;
  w_write_file := fun _ _ _ => Ok tt;
  w_remove := fun _ _ => Ok tt
|}.


(** The healthy machine, with a package whose import machinery breaks *)
Definition broken_package : World := {|
  w_pylib_path := w_pylib_path healthy;
  w_subprocess_run := w_subprocess_run healthy;
  w_find_spec := fun _ _ =>
    Raise (Exn (OtherException "AttributeError") "module has no __path__");
  w_import := w_import healthy;
  w_new := w_new healthy;
  w_devices := w_devices healthy;
  w_hasattr := w_hasattr healthy;
  w_getattr := w_getattr healthy;
  w_setattr := w_setattr healthy;
  w_call := w_call healthy;
  w_print_attrs := w_print_attrs healthy;
  w_path_exists := w_path_exists healthy;
  w_in_sys_path := w_in_sys_path healthy;
  w_write_file := w_write_file healthy;
  w_remove := w_remove healthy
|}.

(** The healthy machine, on which the user presses Ctrl-C during the first
    command *)
Definition interrupted : World := {|
  w_pylib_path := w_pylib_path healthy;
  w_subprocess_run := fun _ _ _ => Raise (Exn KeyboardInterrupt EmptyString);
  w_find_spec := w_find_spec healthy;
  w_import := w_import healthy;
  w_new := w_new healthy;
  w_devices := w_devices healthy;
  w_hasattr := w_hasattr healthy;
  w_getattr := w_getattr healthy;
  w_setattr := w_setattr healthy;
  w_call := w_call healthy;
  w_print_attrs := w_print_attrs healthy;
  w_path_exists := w_path_exists healthy;
  w_in_sys_path := w_in_sys_path healthy;
  w_write_file := w_write_file healthy;
  w_remove := w_remove healthy
|}.

End Worlds.

(** * What is proved of the runs *)

Import Py Trace.
Local Open Scope list_scope.

(** ** Every event of a run *)

(** [emits p m]: whatever the history, each event [m] adds passes [p]. *)
Definition emits {A} (p : event -> bool) (m : M A) : Prop :=
  forall h, forallb p (snd (m h)) = true.

(** ** Shell commands *)

(** The command lines of the scripts, in the order of [debug_workflow.py];
    [test_system.py] runs the first, the second and the sixth. *)
Definition script_commands : list string :=
  ["lsusb | grep 1532";
   "lsmod | grep razer";
   "dkms status openrazer-driver";
   "find /lib/modules/$(uname -r) -name '*razer*'";
   "find /sys/bus/hid/drivers/razer* -name '*1532*' 2>/dev/null";
   "systemctl is-active openrazer-daemon";
   "journalctl -u openrazer-daemon --no-pager -n 10";
   DebugWorkflow.import_command;
   "python3 /tmp/test_devices.py";
   "groups | grep plugdev"].

Definition command_in (allowed : list string) (ev : event) : bool :=
  match ev with
  | EvRun c _ _ => member c allowed
  | _ => true
  end.

Definition no_run (ev : event) : bool :=
  match ev with EvRun _ _ _ => false | _ => true end.

(** The place of a command line in [script_commands]; the length of the
    list for a line that is not in it *)
Fixpoint index_of (c : string) (l : list string) : nat :=
  match l with
  | [] => 0
  | x :: l' => if String.eqb x c then 0 else S (index_of c l')
  end.

Definition rank (c : string) : nat := index_of c script_commands.

(** [in_turn lo hi cs]: the command lines [cs] come in the order of
    [script_commands], each later in it than the one before, none before
    place [lo], all before place [hi]. *)
Fixpoint in_turn (lo hi : nat) (cs : list string) : bool :=
  match cs with
  | [] => (lo <=? hi)%nat
  | c :: cs' => (lo <=? rank c)%nat && in_turn (S (rank c)) hi cs'
  end.

Definition runs_in_turn {A} (lo hi : nat) (m : M A) : Prop :=
  forall h, in_turn lo hi (commands (snd (m h))) = true.

(** A machine whose commands never come back in time *)
Definition stalled : World := {|
  w_pylib_path := w_pylib_path Worlds.bare;
  w_subprocess_run := fun _ command timeout =>
    match timeout with
    | Some _ => Raise (Exn TimeoutExpired ("Command '" ++ command ++ "' timed out"))
    | None => Raise (Exn (OtherException "OSError") "Resource temporarily unavailable")
    end;
  w_find_spec := w_find_spec Worlds.bare;
  w_import := w_import Worlds.bare;
  w_new := w_new Worlds.bare;
  w_devices := w_devices Worlds.bare;
  w_hasattr := w_hasattr Worlds.bare;
  w_getattr := w_getattr Worlds.bare;
  w_setattr := w_setattr Worlds.bare;
  w_call := w_call Worlds.bare;
  w_print_attrs := w_print_attrs Worlds.bare;
  w_path_exists := w_path_exists Worlds.bare;
  w_in_sys_path := w_in_sys_path Worlds.bare;
  w_write_file := w_write_file Worlds.bare;
  w_remove := w_remove Worlds.bare
|}.

(** ** Objects of the client library *)


(** ** Properties that hold piece by piece *)

(** A property of traces that the empty trace has and that two traces put
    end to end keep. *)
Class Segmental (P : list event -> Prop) : Prop := {
  seg_nil : P [];
  seg_app : forall t1 t2, P t1 -> P t2 -> P (t1 ++ t2)
}.

(** [always P m]: whatever the history, what [m] adds satisfies [P]. *)
Definition always (P : list event -> Prop) {A} (m : M A) : Prop :=
  forall h, P (snd (m h)).

(** ** Sleeps *)

Definition Q_eqb (a b : Q) : bool :=
  (Qnum a =? Qnum b) && Pos.eqb (Qden a) (Qden b).

(** A run through a trace that remembers the pause the last lighting command
    calls for, as long as only prints came after it. *)
Fixpoint pauses_ok (pending : option Q) (t : list event) : bool :=
  match t with
  | [] => true
  | EvSleep d :: t' =>
      match pending with
      | Some d' => Q_eqb d' d && pauses_ok None t'
      | None => false
      end
  | EvPrint _ :: t' => pauses_ok pending t'
  | ev :: t' => pauses_ok (pause_after ev) t'
  end.

Definition no_sleep (ev : event) : bool := negb (is_sleep ev).

Definition sleep_lengths : list Q := [(1 # 10)%Q; (1 # 2)%Q; (1 # 1)%Q].

Definition sleep_length_ok (ev : event) : bool :=
  match ev with
  | EvSleep d => existsb (Q_eqb d) sleep_lengths
  | _ => true
  end.

(** What [pending] stands for, given the trace read so far *)
Definition pending_in (pending : option Q) (pre : list event) : Prop :=
  forall d, pending = Some d ->
            exists t0 c ps,
              pre = t0 ++ c :: ps /\ pause_after c = Some d /\
              forallb is_print ps = true.

(** ** Exceptions, results *)

(** [escapes from own m]: an [Exception] that [m] ends with was raised by
    the script itself ([own]) or by the last call of the trace, which is one
    of [from]. *)
Definition escapes {A} (from : event -> bool) (own : exn -> Prop) (m : M A) : Prop :=
  forall h e,
    fst (m h) = Raise e -> is_Exception e = true ->
    own e \/ ends_raising e (snd (m h)) from.

(** [post m Q]: whatever the history, the result of [m] and what it adds
    satisfy [Q]. *)
Definition post {A} (m : M A) (Q : outcome A -> list event -> Prop) : Prop :=
  forall h, Q (fst (m h)) (snd (m h)).

(** ** Lines of the reports *)

(** An event that is none of the lines the reports are read by: no numbered
    header, no line of [check_step]. *)
Definition plain (ev : event) : bool :=
  match ev with
  | EvPrint [Lit s] => negb (member s test_headers)
  | EvPrint [Lit s; Arg _] =>
      negb (String.eqb s "✗ " || String.eqb s "✓ " || String.eqb s "STEP: "
            || String.eqb s "TIP: ")
  | _ => true
  end.

(** What a test of [test_system.py] does to the counters, and the header it
    prints *)
Definition counted (tests_passed total_tests : Z) (header : string)
    (r : outcome (Z * Z)) (t : list event) : Prop :=
  headers t = [header] /\
  match r with
  | Ok (tests_passed', total_tests') =>
      total_tests' = total_tests + 1 /\
      tests_passed <= tests_passed' <= tests_passed + 1
  | Raise _ => True
  end.

Fixpoint next_ok (a b : event -> bool) (t : list event) : bool :=
  match t with
  | [] => true
  | ev :: t' =>
      (if a ev then match t' with ev' :: _ => b ev' | [] => false end else true)
      && next_ok a b t'
  end.

Definition daemon_down : string := "✗ OpenRazer daemon is not running".

Definition daemon_tip : string := "  Try: systemctl start openrazer-daemon".

Definition import_failed : string := "✗ Cannot import OpenRazer Python library".

Definition import_tip : string :=
  "  Make sure openrazer is installed: pip3 install openrazer".


(** What one call of [check_step] leaves in the trace: the step announced,
    one verdict, a failure line when the check failed *)
Definition marks (name : string) (ok : bool) (t : list event) : Prop :=
  steps_run t = [name] /\ verdicts t = 1%nat /\
  failed_steps t = (if ok then 0 else 1)%nat.

(** The same for a step of [main], with the issue it adds on failure *)
Definition step_done (name issue : string) (issues : list string) (ok : bool)
    (issues' : list string) (t : list event) : Prop :=
  marks name ok t /\ issues' = issues ++ (if ok then [] else [issue]).

(** The steps a run of [debug_workflow.py] announces, given what the
    hardware, module and library checks found *)
Definition steps_for (hardware modules python : bool) : list string :=
  ["Hardware Detection"; "Kernel Module Loading"; "Module Files"]
  ++ (if hardware && modules then ["Device Files"] else [])
  ++ ["Daemon Status"; "Python Library"]
  ++ (if python then ["Device Detection"] else [])
  ++ ["User Permissions"].

(** The issues it collects, given the verdict of each check *)
Definition issues_for
    (hardware modules files device_files daemon python detection plugdev : bool)
  : list string :=
  (if hardware then [] else ["No hardware detected"])
  ++ (if modules then [] else ["Kernel modules not loaded"])
  ++ (if files then [] else ["Module files missing"])
  ++ (if hardware && modules && negb device_files
      then ["Device files not created"] else [])
  ++ (if daemon then [] else ["Daemon not running"])
  ++ (if python then [] else ["Python library import failed"])
  ++ (if python && negb detection then ["Device detection failed"] else [])
  ++ (if plugdev then [] else ["User not in plugdev group"]).

Definition steps_report (r : outcome (list string)) (t : list event) : Prop :=
  match r with
  | Ok issues =>
      exists hardware modules files device_files daemon python detection plugdev,
        steps_run t = steps_for hardware modules python /\
        issues = issues_for hardware modules files device_files daemon python
                   detection plugdev /\
        failed_steps t = length issues /\
        verdicts t = length (steps_run t)
  | Raise _ => True
  end.

(** ** The checks of test_system.py *)

(** What the tests of [test_system.py] look at, and the headers they print:
    a command handed to the shell, the search for a module, the import of a
    name, a manager made, its devices listed, a property of a device read.
    [ok] tells whether the call went through; a listing that went through
    comes with the devices it gave. *)
Inductive check : Type :=
| Header (line : string)
| Shell (command : string)
| FindSpec (module : string)
| ImportFrom (module name : string) (ok : bool)
| NewManager (cls : string) (ok : bool)
| ListDevices (found : option (list pyval))
| ReadAttr (device : pyval) (attr : string) (ok : bool).

Definition went {A} (r : outcome A) : bool :=
  match r with Ok _ => true | Raise _ => false end.

Definition given {A} (r : outcome A) : option A :=
  match r with Ok a => Some a | Raise _ => None end.

(** The properties of a device the tests print *)
Definition device_properties : list string :=
  ["name"; "serial"; "type"; "firmware_version"; "driver_version"].

Definition checks (t : list event) : list check :=
  flat_map (fun ev =>
              match ev with
              | EvPrint [Lit s] =>
                  if member s test_headers then [Header s] else []
              | EvRun command _ _ => [Shell command]
              | EvFindSpec module _ => [FindSpec module]
              | EvImport module name r => [ImportFrom module name (went r)]
              | EvNew cls r => [NewManager cls (went r)]
              | EvDevices _ r => [ListDevices (given r)]
              | EvGetAttr o a r =>
                  if member a device_properties then [ReadAttr o a (went r)]
                  else []
              | _ => []
              end) t.

Definition no_check (ev : event) : bool :=
  match checks [ev] with [] => true | _ => false end.

(** Test 4 reads the name and the serial number of every device, up to the
    first read that raises. *)
Inductive names_and_serials : list pyval -> list check -> Prop :=
| all_named : names_and_serials [] []
| name_raised device devices :
    names_and_serials (device :: devices) [ReadAttr device "name" false]
| serial_raised device devices :
    names_and_serials (device :: devices)
      [ReadAttr device "name" true; ReadAttr device "serial" false]
| next_named device devices reads :
    names_and_serials devices reads ->
    names_and_serials (device :: devices)
      (ReadAttr device "name" true :: ReadAttr device "serial" true :: reads).

(** The properties [attrs] of [device] read in turn, up to the first read
    that raises *)
Inductive read_in_turn (device : pyval) : list string -> list check -> Prop :=
| read_all : read_in_turn device [] []
| read_raised attr attrs :
    read_in_turn device (attr :: attrs) [ReadAttr device attr false]
| read_next attr attrs reads :
    read_in_turn device attrs reads ->
    read_in_turn device (attr :: attrs) (ReadAttr device attr true :: reads).

(** Test 6 reads name, type, firmware and driver version of the first
    device; with no first device it reads nothing. *)
Inductive first_device_read : list pyval -> list check -> Prop :=
| no_first_device : first_device_read [] []
| first_read device devices reads :
    read_in_turn device ["name"; "type"; "firmware_version"; "driver_version"]
      reads ->
    first_device_read (device :: devices) reads.

(** How far tests 4 and 6 get with the devices: [DeviceManager] imported,
    a manager made, its devices listed; when the list is not empty, the
    devices listed once more and their properties read as [reads] has it.
    The first call that raises is the last of these. *)
Inductive device_detection (reads : list pyval -> list check -> Prop)
  : list check -> Prop :=
| import_raised :
    device_detection reads
      [ImportFrom "openrazer.client" "DeviceManager" false]
| manager_raised :
    device_detection reads
      [ImportFrom "openrazer.client" "DeviceManager" true;
       NewManager "DeviceManager" false]
| listing_raised :
    device_detection reads
      [ImportFrom "openrazer.client" "DeviceManager" true;
       NewManager "DeviceManager" true; ListDevices None]
| nothing_listed :
    device_detection reads
      [ImportFrom "openrazer.client" "DeviceManager" true;
       NewManager "DeviceManager" true; ListDevices (Some [])]
| relisting_raised device devices :
    device_detection reads
      [ImportFrom "openrazer.client" "DeviceManager" true;
       NewManager "DeviceManager" true;
       ListDevices (Some (device :: devices)); ListDevices None]
| devices_read device devices listed_again l :
    reads listed_again l ->
    device_detection reads
      (ImportFrom "openrazer.client" "DeviceManager" true
       :: NewManager "DeviceManager" true
       :: ListDevices (Some (device :: devices))
       :: ListDevices (Some listed_again) :: l).

(** The checks of a run of [test_system.py] that reaches its summary, given
    how far tests 4 and 6 got with the devices *)
Definition test_system_checks (detection4 detection6 : list check) : list check :=
  [Header (nl ++ "1. Checking for Razer devices...");
   Shell "lsusb | grep 1532";
   Header (nl ++ "2. Checking kernel modules...");
   Shell "lsmod | grep razer";
   Header (nl ++ "3. Checking Python library...");
   FindSpec "openrazer.client";
   Header (nl ++ "4. Testing device detection...")]
  ++ detection4
  ++ [Header (nl ++ "5. Checking daemon status...");
      Shell "systemctl is-active openrazer-daemon";
      Header (nl ++ "6. Testing basic device functionality...")]
  ++ detection6.

(** What a test of [test_system.py] that ends leaves in the trace *)
Definition checked (expected : list check -> Prop) (r : outcome (Z * Z))
    (t : list event) : Prop :=
  match r with
  | Ok _ => expected (checks t)
  | Raise _ => True
  end.

(** ** Brightness *)

Definition brightness_ok_text : string := "  - Brightness control: ✓".

(** [device.fx.lighting_led_matrix] when both reads go through, with the
    objects they give *)
Definition led_matrix_read (device fx matrix : pyval) : list event :=
  [EvGetAttr device "fx" (Ok fx);
   EvGetAttr fx "lighting_led_matrix" (Ok matrix)].

(** The lighting test of [test_system.py] up to the value read back: the
    brightness saved, set to 128 and read again, each on the matrix looked
    up from the device for that access *)
Definition save_set_read
    (device fx1 m1 original fx2 m2 fx3 m3 read : pyval) : list event :=
  led_matrix_read device fx1 m1
  ++ [EvGetAttr m1 "brightness" (Ok original)]
  ++ led_matrix_read device fx2 m2
  ++ [EvSetAttr m2 "brightness" (VInt 128) (Ok tt)]
  ++ led_matrix_read device fx3 m3
  ++ [EvGetAttr m3 "brightness" (Ok read)].

(** The line that tells whether 128 was read back *)
Definition brightness_line (read : pyval) : event :=
  EvPrint (if py_eq read (VInt 128) then TestSystem.brightness_ok
           else TestSystem.brightness_bad).

(** The whole of that test when no call raises: then the line, and the
    value first read written back *)
Definition save_set_read_restore
    (device fx1 m1 original fx2 m2 fx3 m3 read fx4 m4 : pyval) : list event :=
  save_set_read device fx1 m1 original fx2 m2 fx3 m3 read
  ++ [brightness_line read]
  ++ led_matrix_read device fx4 m4
  ++ [EvSetAttr m4 "brightness" original (Ok tt)].

(** The brightness test of [test_device_capabilities.py] when no call
    raises: every access on the one [matrix] *)
Definition capability_brightness_run (matrix original read : pyval) : list event :=
  [EvGetAttr matrix "brightness" (Ok original);
   EvPrint [Lit "  Current brightness: "; Arg (py_str original)];
   EvSetAttr matrix "brightness" (VInt 128) (Ok tt);
   EvSleep (1 # 10);
   EvGetAttr matrix "brightness" (Ok read);
   EvPrint [Lit "  Set brightness to 128, got: "; Arg (py_str read)];
   EvSetAttr matrix "brightness" original (Ok tt);
   EvPrint [Lit "  ✓ Brightness control working"]].

(** An event that touches no brightness and is not the line of success *)
Definition inert (ev : event) : bool :=
  negb (line_is brightness_ok_text ev) && negb (brightness_op ev).

Definition no_listing (ev : event) : bool :=
  match ev with EvDevices _ _ => false | _ => true end.

(** In the run [t] the value [read] was read back from [device]: the device
    is the first of the devices listed last, and its brightness was saved,
    set to 128 and read again. *)
Definition read_back (device read : pyval) (t : list event) : Prop :=
  exists before manager others since fx1 m1 original fx2 m2 fx3 m3 after,
    t = before ++ EvDevices manager (Ok (device :: others)) :: since
        ++ save_set_read device fx1 m1 original fx2 m2 fx3 m3 read ++ after /\
    forallb no_listing since = true.

(** A run with at most one lighting test, on the first of the devices
    listed last, and no brightness touched outside it *)
Definition one_lighting_test (w : World) (t : list event) : Prop :=
  forallb inert t = true \/
  exists before manager device others since h after,
    t = before ++ EvDevices manager (Ok (device :: others)) :: since
        ++ trace (TestSystem.lighting_test w device) h ++ after /\
    forallb inert before = true /\ forallb inert since = true /\
    forallb no_listing since = true /\ forallb inert after = true.

(** * More readings of a run *)

(** ** Blank lines *)

(** The healthy machine, with an empty line in what [lsmod | grep razer]
    prints *)
Definition gapped_lsmod : World := {|
  w_pylib_path := w_pylib_path Worlds.healthy;
  w_subprocess_run := fun h command timeout =>
    if String.prefix "lsmod" command
    then Ok (0,
             ("razerkbd 45056 0" ++ nl ++ nl ++ "razermouse 40960 0" ++ nl)%string,
             EmptyString)
    else w_subprocess_run Worlds.healthy h command timeout;
  w_find_spec := w_find_spec Worlds.healthy;
  w_import := w_import Worlds.healthy;
  w_new := w_new Worlds.healthy;
  w_devices := w_devices Worlds.healthy;
  w_hasattr := w_hasattr Worlds.healthy;
  w_getattr := w_getattr Worlds.healthy;
  w_setattr := w_setattr Worlds.healthy;
  w_call := w_call Worlds.healthy;
  w_print_attrs := w_print_attrs Worlds.healthy;
  w_path_exists := w_path_exists Worlds.healthy;
  w_in_sys_path := w_in_sys_path Worlds.healthy;
  w_write_file := w_write_file Worlds.healthy;
  w_remove := w_remove Worlds.healthy
|}.

(** ** Lines with a cross *)

(** A printed line that starts with the cross of a failed test *)
Definition cross_line (ev : event) : bool :=
  match ev with
  | EvPrint msg => String.prefix "✗" (render msg)
  | _ => false
  end.

Definition no_cross (ev : event) : bool := negb (cross_line ev).

Definition crosses (t : list event) : nat := length (filter cross_line t).

(** A test of [test_system.py] passes or prints one line with a cross. *)
Definition pass_or_cross (tests_passed : Z) (r : outcome (Z * Z)) (t : list event)
  : Prop :=
  match r with
  | Ok (tests_passed', _) => tests_passed' + Z.of_nat (crosses t) = tests_passed + 1
  | Raise _ => True
  end.

(** ** Paths *)

(** The looks at the file system and at [sys.path], and the changes of
    [sys.path] *)
Definition path_event (ev : event) : bool :=
  match ev with
  | EvPathExists _ _ | EvInSysPath _ _ | EvSysPathInsert _ => true
  | _ => false
  end.

Definition path_events (t : list event) : list event := filter path_event t.

Definition no_path (ev : event) : bool := negb (path_event ev).

Definition no_insert (ev : event) : bool :=
  match ev with EvSysPathInsert _ => false | _ => true end.

(** What lines 74-75 of [test_system.py] do with the path [p]: look whether
    it exists, then whether it is listed, and insert it when it exists and
    is not listed *)
Definition guarded_insert (p : string) (ops : list event) : Prop :=
  ops = [EvPathExists p false] \/
  ops = [EvPathExists p true; EvInSysPath p true] \/
  ops = [EvPathExists p true; EvInSysPath p false; EvSysPathInsert p].

(** ** Brightness written *)

(** A read or a write of a brightness that went through, with the object it
    was made on *)
Inductive access : Type :=
| Read (o v : pyval)
| Written (o v : pyval).

Definition accesses (t : list event) : list access :=
  flat_map (fun ev =>
              match ev with
              | EvGetAttr o a (Ok v) =>
                  if String.eqb a "brightness" then [Read o v] else []
              | EvSetAttr o a v (Ok _) =>
                  if String.eqb a "brightness" then [Written o v] else []
              | _ => []
              end) t.

Definition accessed (a : access) : pyval :=
  match a with Read o _ | Written o _ => o end.

(** The objects [device.fx.lighting_led_matrix] gave, one for each time
    both reads went through *)
Fixpoint matrices (device : pyval) (t : list event) : list pyval :=
  match t with
  | [] => []
  | EvGetAttr d a (Ok fx) :: t' =>
      match t' with
      | EvGetAttr fx' a' (Ok m) :: _ =>
          if String.eqb a "fx" && String.eqb a' "lighting_led_matrix"
             && same_object d device && same_object fx' fx
          then m :: matrices device t'
          else matrices device t'
      | _ => matrices device t'
      end
  | _ :: t' => matrices device t'
  end.

Definition failed (ev : event) : bool := negb (quiet ev).

(** How a brightness test goes, by its accesses that went through: a read,
    a write, a read, a write, as far as it gets.  A first write is that of
    128; if it is the only one a call raised, and what was read first is
    never written back.  A second write is that of the value read first,
    and comes exactly in a run with no call that raised. *)
Definition brightness_left (t : list event) : Prop :=
  match accesses t with
  | [] | [Read _ _] => True
  | [Read _ _; Written _ v] | [Read _ _; Written _ v; Read _ _] =>
      v = VInt 128 /\ existsb failed t = true
  | [Read _ original; Written _ v; Read _ _; Written _ restored] =>
      v = VInt 128 /\ restored = original /\ forallb quiet t = true
  | _ => False
  end.

(** The healthy machine, with a keyboard whose brightness cannot be read
    once it has been written *)
Definition write_only : World := {|
  w_pylib_path := w_pylib_path Worlds.healthy;
  w_subprocess_run := w_subprocess_run Worlds.healthy;
  w_find_spec := w_find_spec Worlds.healthy;
  w_import := w_import Worlds.healthy;
  w_new := w_new Worlds.healthy;
  w_devices := w_devices Worlds.healthy;
  w_hasattr := w_hasattr Worlds.healthy;
  w_getattr := fun h o attr =>
    if String.eqb attr "brightness"
       && negb (forallb (fun ev => negb (brightness_op ev)) h)
    then Raise Worlds.dbus_error
    else w_getattr Worlds.healthy h o attr;
  w_setattr := w_setattr Worlds.healthy;
  w_call := w_call Worlds.healthy;
  w_print_attrs := w_print_attrs Worlds.healthy;
  w_path_exists := w_path_exists Worlds.healthy;
  w_in_sys_path := w_in_sys_path Worlds.healthy;
  w_write_file := w_write_file Worlds.healthy;
  w_remove := w_remove Worlds.healthy
|}.

(** ** Deeds *)

(** What a run does to the machine: the commands it hands to the shell, the
    files it writes and removes (the attempts, whatever came of them) *)
Inductive deed : Type :=
| Ran (command : string)
| Wrote (path content : string)
| Removed (path : string).

Definition deeds (t : list event) : list deed :=
  flat_map (fun ev =>
              match ev with
              | EvRun c _ _ => [Ran c]
              | EvWriteFile p c _ => [Wrote p c]
              | EvRemove p _ => [Removed p]
              | _ => []
              end) t.

Definition no_deed (ev : event) : bool :=
  match ev with
  | EvRun _ _ _ | EvWriteFile _ _ _ | EvRemove _ _ => false
  | _ => true
  end.

(** The issues [main] of [debug_workflow.py] can find, in the order of the
    file *)
Definition all_issues : list string :=
  ["No hardware detected"; "Kernel modules not loaded"; "Module files missing";
   "Device files not created"; "Daemon not running";
   "Python library import failed"; "Device detection failed";
   "User not in plugdev group"].

(** What [main] of [debug_workflow.py] does to the machine, read off the
    issues it found *)
Definition deeds_for (issues : list string) : list deed :=
  [Ran "lsusb | grep 1532"; Ran "lsmod | grep razer"]
  ++ (if DebugWorkflow.mem "Kernel modules not loaded" issues
      then [Ran "dkms status openrazer-driver"] else [])
  ++ [Ran "find /lib/modules/$(uname -r) -name '*razer*'"]
  ++ (if DebugWorkflow.mem "No hardware detected" issues
         || DebugWorkflow.mem "Kernel modules not loaded" issues
      then []
      else [Ran "find /sys/bus/hid/drivers/razer* -name '*1532*' 2>/dev/null"])
  ++ [Ran "systemctl is-active openrazer-daemon"]
  ++ (if DebugWorkflow.mem "Daemon not running" issues
      then [Ran "journalctl -u openrazer-daemon --no-pager -n 10"] else [])
  ++ [Ran DebugWorkflow.import_command]
  ++ (if DebugWorkflow.mem "Python library import failed" issues then []
      else [Wrote "/tmp/test_devices.py" DebugWorkflow.test_script;
            Ran "python3 /tmp/test_devices.py";
            Removed "/tmp/test_devices.py"])
  ++ [Ran "groups | grep plugdev"].

(** What a step of [main] does and the issue it adds on failure: [does ok]
    are its deeds when its check gave [ok] *)
Definition step_did (does : bool -> list deed) (issue : string)
    (issues : list string) (ok : bool) (issues' : list string) (t : list event)
  : Prop :=
  deeds t = does ok /\ issues' = issues ++ (if ok then [] else [issue]).

Definition deeds_of_checks (hardware modules daemon python : bool) : list deed :=
  [Ran "lsusb | grep 1532"; Ran "lsmod | grep razer"]
  ++ (if modules then [] else [Ran "dkms status openrazer-driver"])
  ++ [Ran "find /lib/modules/$(uname -r) -name '*razer*'"]
  ++ (if hardware && modules
      then [Ran "find /sys/bus/hid/drivers/razer* -name '*1532*' 2>/dev/null"]
      else [])
  ++ [Ran "systemctl is-active openrazer-daemon"]
  ++ (if daemon then []
      else [Ran "journalctl -u openrazer-daemon --no-pager -n 10"])
  ++ [Ran DebugWorkflow.import_command]
  ++ (if python
      then [Wrote "/tmp/test_devices.py" DebugWorkflow.test_script;
            Ran "python3 /tmp/test_devices.py";
            Removed "/tmp/test_devices.py"]
      else [])
  ++ [Ran "groups | grep plugdev"].

(** ** Commands shown *)

(** Every command is announced: the two lines [run_command] of
    [debug_workflow.py] prints come right before it, the second one with the
    command line itself. *)
Definition announced (t : list event) : Prop :=
  forall t1 command timeout r t2,
    t = t1 ++ EvRun command timeout r :: t2 ->
    exists t0 description,
      t1 = t0 ++ [EvPrint [Lit nl; Arg description; Lit "..."];
                  EvPrint [Lit "$ "; Arg command]].

(** The line [run_command] of [debug_workflow.py] ends with: the exit code,
    the timeout, or the error *)
Definition outcome_line (ev : event) : bool :=
  match ev with
  | EvPrint [Lit s; Arg _] =>
      String.eqb s "Exit code: " || String.eqb s "Error running command: "
  | EvPrint [Lit s] => String.eqb s "Command timed out!"
  | _ => false
  end.

(** A command that came back, or failed with an [Exception] *)
Definition settled_run (ev : event) : bool :=
  match ev with
  | EvRun _ _ (Ok _) => true
  | EvRun _ _ (Raise e) => is_Exception e
  | _ => false
  end.

(** As many closing lines as commands that were settled *)
Definition reported (t : list event) : Prop :=
  length (filter outcome_line t) = length (filter settled_run t).

(** ** Files *)

Definition touches_file (d : deed) : bool :=
  match d with Ran _ => false | _ => true end.

(** The files a run wrote and removed *)
Definition file_deeds (t : list event) : list deed := filter touches_file (deeds t).

Definition no_file (ev : event) : bool :=
  match ev with
  | EvWriteFile _ _ _ | EvRemove _ _ => false
  | _ => true
  end.

Definition deed_eqb (a b : deed) : bool :=
  match a, b with
  | Ran c, Ran c' => String.eqb c c'
  | Wrote p c, Wrote p' c' => String.eqb p p' && String.eqb c c'
  | Removed p, Removed p' => String.eqb p p'
  | _, _ => false
  end.

Fixpoint starts (l full : list deed) : bool :=
  match l, full with
  | [], _ => true
  | a :: l', b :: full' => deed_eqb a b && starts l' full'
  | _ :: _, [] => false
  end.

(** The life of the file of step 7: written, then removed *)
Definition temp_file_life : list deed :=
  [Wrote "/tmp/test_devices.py" DebugWorkflow.test_script;
   Removed "/tmp/test_devices.py"].

(** The healthy machine, on which the user presses Ctrl-C while the script
    of step 7 runs *)
Definition interrupted_late : World := {|
  w_pylib_path := w_pylib_path Worlds.healthy;
  w_subprocess_run := fun h command timeout =>
    if String.eqb command "python3 /tmp/test_devices.py"
    then Raise (Exn KeyboardInterrupt EmptyString)
    else w_subprocess_run Worlds.healthy h command timeout;
  w_find_spec := w_find_spec Worlds.healthy;
  w_import := w_import Worlds.healthy;
  w_new := w_new Worlds.healthy;
  w_devices := w_devices Worlds.healthy;
  w_hasattr := w_hasattr Worlds.healthy;
  w_getattr := w_getattr Worlds.healthy;
  w_setattr := w_setattr Worlds.healthy;
  w_call := w_call Worlds.healthy;
  w_print_attrs := w_print_attrs Worlds.healthy;
  w_path_exists := w_path_exists Worlds.healthy;
  w_in_sys_path := w_in_sys_path Worlds.healthy;
  w_write_file := w_write_file Worlds.healthy;
  w_remove := w_remove Worlds.healthy
|}.

(** ** Standard output *)

(** What a run writes to its standard output: every printed line with its
    newline *)
Definition stdout_of (t : list event) : string :=
  fold_right (fun ev out =>
                match ev with
                | EvPrint msg => (render msg ++ nl ++ out)%string
                | _ => out
                end) EmptyString t.

(** How the script of step 7 ends: with status 0 after a run in which no
    call raised and the first line of output starts with [Found]; with
    status 1 after the line that reports an [Exception]; or with an exception
    that is no [Exception]. *)
Definition detection_ends (r : outcome Z) (t : list event) : Prop :=
  match r with
  | Ok status =>
      (status = 0 /\ forallb quiet t = true /\
       contains "Found" (stdout_of t) = true) \/
      (status = 1 /\
       exists t0 e,
         t = t0 ++ [EvPrint [Lit "Error: "; Arg (exn_msg e)]] /\
         is_Exception e = true /\ existsb (fun ev => negb (quiet ev)) t0 = true)
  | Raise e => is_Exception e = false
  end.

(** ** Capabilities found *)

(** A probe that found one of the three kinds of lighting *)
Definition lighting_found (ev : event) : bool :=
  match ev with
  | EvHasAttr _ a r =>
      member a ["lighting_led_matrix"; "lighting_logo"; "lighting_scroll"]
      && match r with Ok true => true | _ => false end
  | _ => false
  end.

(** An event that changes nothing on a device: no write, no method call *)
Definition harmless (ev : event) : bool :=
  match ev with
  | EvSetAttr _ _ _ _ | EvCall _ _ _ _ => false
  | _ => true
  end.

Definition any_event (ev : event) : bool := true.

(** What [test_lighting_capabilities] returns: whether a probe found
    lighting, whatever became of the tests of it; and a run that found none
    changed nothing. *)
Definition lighting_verdict (r : outcome bool) (t : list event) : Prop :=
  match r with
  | Ok has_lighting =>
      has_lighting = existsb lighting_found t /\
      (has_lighting = false -> forallb harmless t = true)
  | Raise _ => True
  end.

(** A line that reports a capability read and shown *)
Definition capability_read (ev : event) : bool :=
  match ev with
  | EvGetAttr _ a (Ok _) =>
      member a ["dpi"; "battery_level"; "is_charging"; "idle_time"; "game_mode_led"]
  | _ => false
  end.

Definition no_capabilities_text : string := "  No additional capabilities detected".

(** What [test_other_capabilities] returns: whether it did not print that it
    found nothing; a run that returns [True] has read a capability. *)
Definition capabilities_verdict (r : outcome bool) (t : list event) : Prop :=
  match r with
  | Ok has_other =>
      has_other = negb (existsb (line_is no_capabilities_text) t) /\
      (has_other = true -> existsb capability_read t = true) /\
      forallb harmless t = true
  | Raise _ => True
  end.

(** What one of the five tests of [test_other_capabilities] does to the
    count *)
Definition capability_counted (n : Z) (r : outcome Z) (t : list event) : Prop :=
  match r with
  | Ok n' =>
      (n' = n \/ (n' = n + 1 /\ existsb capability_read t = true)) /\
      forallb harmless t = true /\
      existsb (line_is no_capabilities_text) t = false
  | Raise _ => True
  end.

(** ** The report on a device *)

(** The line that opens the report on a device, [f"\n=== {device.name} ==="] *)
Definition device_header (ev : event) : bool :=
  match ev with
  | EvPrint [Lit a; Arg _; Lit b] => String.eqb a (nl ++ "=== ") && String.eqb b " ==="
  | _ => false
  end.

(** The line between two devices, ["\n" + "="*50] *)
Definition separator (ev : event) : bool :=
  match ev with
  | EvPrint [Lit a; Arg b] => String.eqb a nl && String.eqb b (replicate "=" 50)
  | _ => false
  end.

Definition attrs_printed (ev : event) : bool :=
  match ev with EvPrintAttrs _ _ => true | _ => false end.

Definition tally (p : event -> bool) (t : list event) : nat := length (filter p t).

(** What the loop of [main] does for the device at index [i] of [devices]:
    one header; the attributes printed exactly when no lighting was found
    and no other capability; a separator unless the device is the last. *)
Definition device_reported (devices : nat) (i : nat) (r : outcome unit)
    (t : list event) : Prop :=
  match r with
  | Ok _ =>
      tally device_header t = 1%nat /\
      existsb attrs_printed t
      = negb (existsb lighting_found t)
        && existsb (line_is no_capabilities_text) t /\
      (tally attrs_printed t <= 1)%nat /\
      tally separator t = (if (S i <? devices)%nat then 1 else 0)%nat
  | Raise _ => True
  end.

(** The marks of a part of the report on a device *)
Definition part_marks (headers : nat) (lighting no_capabilities : bool)
    (t : list event) : Prop :=
  tally device_header t = headers /\ tally separator t = 0%nat /\
  tally attrs_printed t = 0%nat /\ existsb attrs_printed t = false /\
  existsb lighting_found t = lighting /\
  existsb (line_is no_capabilities_text) t = no_capabilities.

Definition no_report_mark (ev : event) : bool :=
  negb (device_header ev) && negb (separator ev) && negb (attrs_printed ev).

Definition quiet_lighting (ev : event) : bool :=
  no_report_mark ev && negb (line_is no_capabilities_text ev).

Definition quiet_other (ev : event) : bool :=
  no_report_mark ev && negb (lighting_found ev).

(** ** The end of the capability test *)

(** An event that touches no device *)
Definition untouched (ev : event) : bool :=
  match ev with
  | EvHasAttr _ _ _ | EvGetAttr _ _ _ | EvSetAttr _ _ _ _ | EvCall _ _ _ _
  | EvPrintAttrs _ _ => false
  | _ => true
  end.

(** The two ways [main] of the capability test gives up: no connection to
    the daemon, no device *)
Definition gave_up (ev : event) : bool :=
  match ev with
  | EvNew _ (Raise _) => true
  | EvDevices _ (Ok []) => true
  | _ => false
  end.

(** How [main] of the capability test ends when it returns: with status 1,
    having touched no device, after [DeviceManager()] raised or gave no
    device; or with status 0, after one report for each device of the list,
    with a separator between two reports. *)
Definition capabilities_end (r : outcome Z) (t : list event) : Prop :=
  match r with
  | Ok status =>
      (status = 1 /\ forallb untouched t = true /\ existsb gave_up t = true) \/
      (status = 0 /\
       exists manager devices,
         In (EvDevices manager (Ok devices)) t /\ devices <> [] /\
         tally device_header t = length devices /\
         tally separator t = pred (length devices) /\
         (tally attrs_printed t <= length devices)%nat /\
         In (EvPrint [Lit (nl ++ "Testing completed for ");
                      Arg (str_int (Z.of_nat (length devices)));
                      Lit " device(s)"]) t)
  | Raise _ => True
  end.

(** ** Method calls *)

(** The method calls of a run: the method, its arguments, whether the call
    went through *)
Definition calls (t : list event) : list (string * list pyval * bool) :=
  flat_map (fun ev =>
              match ev with
              | EvCall _ m args (Ok _) => [(m, args, true)]
              | EvCall _ m args (Raise _) => [(m, args, false)]
              | _ => []
              end) t.

Definition colour_red : list pyval := [VInt 255; VInt 0; VInt 0].
Definition colour_green : list pyval := [VInt 0; VInt 255; VInt 0].
Definition colour_blue : list pyval := [VInt 0; VInt 0; VInt 255].

(** [static_test] goes from colour_red to colour_green to colour_blue and stops at the first
    colour that fails. *)
Definition stops_at_failure (t : list event) : Prop :=
  calls t = [("static", colour_red, false)] \/
  calls t = [("static", colour_red, true); ("static", colour_green, false)] \/
  calls t = [("static", colour_red, true); ("static", colour_green, true); ("static", colour_blue, false)] \/
  calls t = [("static", colour_red, true); ("static", colour_green, true); ("static", colour_blue, true)].

(** The probes for the methods of a lighting object: the method, and
    whether the object has it *)
Definition probes (t : list event) : list (string * bool) :=
  flat_map (fun ev =>
              match ev with
              | EvHasAttr _ a (Ok b) => [(a, b)]
              | _ => []
              end) t.

(** Each effect is looked for, and tried once when it is there, whatever
    became of the effects before it. *)
Definition each_effect_tried (names : list string) (r : outcome unit)
    (t : list event) : Prop :=
  match r with
  | Ok _ =>
      map fst (probes t) = names /\
      map (fun c => fst (fst c)) (calls t) = map fst (filter snd (probes t)) /\
      forallb (fun c => match snd (fst c) with [] => true | _ => false end) (calls t)
      = true
  | Raise _ => True
  end.

(** ** One more machine *)

(** The healthy machine, on which the user presses Ctrl-C while the poll
    rate is read *)
Definition interrupted_poll : World := {|
  w_pylib_path := w_pylib_path Worlds.healthy;
  w_subprocess_run := w_subprocess_run Worlds.healthy;
  w_find_spec := w_find_spec Worlds.healthy;
  w_import := w_import Worlds.healthy;
  w_new := w_new Worlds.healthy;
  w_devices := w_devices Worlds.healthy;
  w_hasattr := w_hasattr Worlds.healthy;
  w_getattr := fun h o attr =>
    if String.eqb attr "poll_rate" then Raise (Exn KeyboardInterrupt EmptyString)
    else w_getattr Worlds.healthy h o attr;
  w_setattr := w_setattr Worlds.healthy;
  w_call := w_call Worlds.healthy;
  w_print_attrs := w_print_attrs Worlds.healthy;
  w_path_exists := w_path_exists Worlds.healthy;
  w_in_sys_path := w_in_sys_path Worlds.healthy;
  w_write_file := w_write_file Worlds.healthy;
  w_remove := w_remove Worlds.healthy
|}.

(** ** The summary of the issues *)

(** The numbered lines of the summary of [debug_workflow.py],
    [f"  {i}. {issue}"]: the number and the issue of each *)
Definition issue_lines (t : list event) : list (string * string) :=
  flat_map (fun ev =>
              match ev with
              | EvPrint [Lit a; Arg i; Lit b; Arg issue] =>
                  if String.eqb a "  " && String.eqb b ". " then [(i, issue)] else []
              | _ => []
              end) t.

(** [enumerate(issues, i)] with the numbers as text *)
Fixpoint numbered (i : Z) (issues : list string) : list (string * string) :=
  match issues with
  | [] => []
  | issue :: rest => (str_int i, issue) :: numbered (i + 1) rest
  end.

Definition printed (s : string) (t : list event) : bool := existsb (line_is s) t.

(** What the summary of [debug_workflow.py] prints for the issues it is
    given: each issue once, numbered from 1; the congratulation when there
    is none; each piece of advice exactly when an issue calls for it. *)
Definition summary_fits (issues : list string) (r : outcome Z) (t : list event)
  : Prop :=
  r = Ok (Z.of_nat (length issues)) /\
  issue_lines t = numbered 1 issues /\
  printed "🎉 No issues detected! OpenRazer should be working correctly." t
  = match issues with [] => true | _ => false end /\
  printed (nl ++ "NEXT STEPS:") t = match issues with [] => false | _ => true end /\
  printed "1. Verify your Razer device is connected and powered on" t
  = DebugWorkflow.mem "No hardware detected" issues /\
  printed "1. Reinstall OpenRazer kernel modules" t
  = (DebugWorkflow.mem "Kernel modules not loaded" issues
     || DebugWorkflow.mem "Module files missing" issues) /\
  printed "1. Start daemon: systemctl start openrazer-daemon" t
  = DebugWorkflow.mem "Daemon not running" issues /\
  printed "1. Install Python library: pip3 install openrazer" t
  = DebugWorkflow.mem "Python library import failed" issues /\
  printed "1. Add user to group: sudo usermod -a -G plugdev $USER" t
  = DebugWorkflow.mem "User not in plugdev group" issues.

Definition not_line (s : string) (ev : event) : bool := negb (line_is s ev).

Definition no_issue_line (ev : event) : bool :=
  match issue_lines [ev] with [] => true | _ => false end.

(** A first look at the runs of the three scripts on these machines. *)

Import Py Trace.

Example found_one_device :
  render [Lit "Found "; Arg (str_int 1); Lit " device(s)"] = "Found 1 device(s)".
Proof. reflexivity. Qed.

Example test_system_on_healthy :
  result (TestSystem.main Worlds.healthy) [] = Ok 0.
Proof. vm_compute. reflexivity. Qed.

Example test_system_on_bare :
  result (TestSystem.main Worlds.bare) [] = Ok 1.
Proof. vm_compute. reflexivity. Qed.

Example test_system_on_broken_package :
  result (TestSystem.main Worlds.broken_package) []
  = Raise (Exn (OtherException "AttributeError") "module has no __path__").
Proof. vm_compute. reflexivity. Qed.

Example debug_workflow_on_healthy :
  result (DebugWorkflow.script Worlds.healthy) [] = Ok 0.
Proof. vm_compute. reflexivity. Qed.

Example debug_workflow_on_bare :
  result (DebugWorkflow.script Worlds.bare) [] = Ok 6.
Proof. vm_compute. reflexivity. Qed.

Example capabilities_on_healthy :
  result (DeviceCapabilities.script Worlds.healthy) [] = Ok 0.
Proof. vm_compute. reflexivity. Qed.

Example capabilities_on_bare :
  result (DeviceCapabilities.script Worlds.bare) []
  = Raise (Exn ModuleNotFoundError "No module named 'openrazer'").
Proof. vm_compute. reflexivity. Qed.

(** * Reasoning about runs *)

(** ** The shape of a run *)

Module Logic.
Import Py Trace.
Local Open Scope py_scope.
Local Open Scope list_scope.

Lemma bind_run {A B} (m : M A) (f : A -> M B) h :
  bind m f h =
  match m h with
  | (Ok a, t1) => (fst (f a (h ++ t1)), t1 ++ snd (f a (h ++ t1)))
  | (Raise e, t1) => (Raise e, t1)
  end.
Proof.
  unfold bind. destruct (m h) as [[a|e] t1]; [|reflexivity].
  destruct (f a (h ++ t1)); reflexivity.
Qed.

Lemma try_run {A} (body : M A) handler h :
  try_catch body handler h =
  match body h with
  | (Ok a, t) => (Ok a, t)
  | (Raise e, t) =>
      match handler e with
      | Some m => (fst (m (h ++ t)), t ++ snd (m (h ++ t)))
      | None => (Raise e, t)
      end
  end.
Proof.
  unfold try_catch. destruct (body h) as [[a|e] t]; [reflexivity|].
  destruct (handler e) as [m|]; [|reflexivity].
  destruct (m (h ++ t)); reflexivity.
Qed.

(** What [bind m f] gave, read backwards. *)
Lemma bind_inv {A B} (m : M A) (f : A -> M B) h r t :
  bind m f h = (r, t) ->
  (exists e, m h = (Raise e, t) /\ r = Raise e) \/
  (exists a t1 t2, m h = (Ok a, t1) /\ f a (h ++ t1) = (r, t2) /\ t = t1 ++ t2).
Proof.
  unfold bind. destruct (m h) as [[a|e] t1].
  - destruct (f a (h ++ t1)) as [r2 t2] eqn:E. intros [= <- <-].
    right. exists a, t1, t2. auto.
  - intros [= <- <-]. left. exists e. auto.
Qed.

Lemma bind_ok_inv {A B} (m : M A) (f : A -> M B) h b t :
  bind m f h = (Ok b, t) ->
  exists a t1 t2, m h = (Ok a, t1) /\ f a (h ++ t1) = (Ok b, t2) /\ t = t1 ++ t2.
Proof.
  intros H. apply bind_inv in H as [(e & _ & [=])|H]. exact H.
Qed.


(** ** Every event of a run *)

Section Emits.
Variable p : event -> bool.

Lemma emits_ret {A} (a : A) : emits p (ret a).
Proof. intros h. reflexivity. Qed.

Lemma emits_raise {A} e : emits p (@raise A e).
Proof. intros h. reflexivity. Qed.

Lemma emits_tell ev : p ev = true -> emits p (tell ev).
Proof. intros H h. simpl. rewrite H. reflexivity. Qed.

Lemma emits_ask {A} answer (ev : outcome A -> event) :
  (forall r, p (ev r) = true) -> emits p (ask answer ev).
Proof. intros H h. simpl. rewrite H. reflexivity. Qed.

Lemma emits_ask_bool answer ev :
  (forall b, p (ev b) = true) -> emits p (ask_bool answer ev).
Proof. intros H h. simpl. rewrite H. reflexivity. Qed.

Lemma emits_bind {A B} (m : M A) (f : A -> M B) :
  emits p m -> (forall a, emits p (f a)) -> emits p (bind m f).
Proof.
  intros Hm Hf h. rewrite bind_run. specialize (Hm h).
  destruct (m h) as [[a|e] t1]; simpl in *; [|exact Hm].
  rewrite forallb_app, Hm. apply Hf.
Qed.

Lemma emits_try {A} (body : M A) handler :
  emits p body ->
  (forall e, match handler e with Some m => emits p m | None => True end) ->
  emits p (try_catch body handler).
Proof.
  intros Hb Hh h. rewrite try_run. specialize (Hb h).
  destruct (body h) as [[a|e] t]; simpl in *; [exact Hb|].
  specialize (Hh e). destruct (handler e) as [m|]; simpl; [|exact Hb].
  rewrite forallb_app, Hb. apply Hh.
Qed.

Lemma emits_for_each {A} (l : list A) body :
  (forall x, In x l -> emits p (body x)) -> emits p (for_each l body).
Proof.
  induction l as [|x l IH]; intros H; simpl.
  - apply emits_ret.
  - apply emits_bind; [apply H; left; reflexivity|].
    intros _. apply IH. intros y Hy. apply H. right. exact Hy.
Qed.

Lemma emits_when c body : emits p body -> emits p (when c body).
Proof. intros H. destruct c; [exact H|apply emits_ret]. Qed.
End Emits.

End Logic.

(** ** Unfolding the scripts *)

Create HintDb scripts.

#[export] Hint Unfold
  Py.print Py.sleep Py.subprocess_run Py.find_spec Py.import_from Py.new
  Py.devices_of Py.hasattr Py.getattr Py.setattr Py.call Py.print_attrs
  Py.path_exists Py.in_sys_path Py.sys_path_insert Py.write_file Py.remove
  Py.except_Exception Py.except_all : scripts.

#[export] Hint Unfold
  TestSystem.check_import TestSystem.run_command TestSystem.test1_razer_devices
  TestSystem.test2_kernel_modules TestSystem.test3_python_library
  TestSystem.test4_device_detection TestSystem.test5_daemon_status
  TestSystem.led_matrix TestSystem.lighting_test
  TestSystem.test6_device_functionality TestSystem.summary TestSystem.tests
  TestSystem.main : scripts.

#[export] Hint Unfold
  DebugWorkflow.run_command DebugWorkflow.check_step DebugWorkflow.step1_hardware
  DebugWorkflow.step2_kernel_modules DebugWorkflow.step3_module_files
  DebugWorkflow.step4_device_files DebugWorkflow.step5_daemon
  DebugWorkflow.step6_python_library DebugWorkflow.step7_device_detection
  DebugWorkflow.step8_permissions DebugWorkflow.summary DebugWorkflow.steps
  DebugWorkflow.main DebugWorkflow.script : scripts.

#[export] Hint Unfold
  DeviceCapabilities.effects_to_test DeviceCapabilities.test_device_info
  DeviceCapabilities.brightness_test DeviceCapabilities.static_test
  DeviceCapabilities.effect_test DeviceCapabilities.matrix_lighting
  DeviceCapabilities.logo_lighting DeviceCapabilities.scroll_lighting
  DeviceCapabilities.test_lighting_capabilities DeviceCapabilities.dpi_test
  DeviceCapabilities.battery_test DeviceCapabilities.charging_test
  DeviceCapabilities.idle_test DeviceCapabilities.game_mode_test
  DeviceCapabilities.test_other_capabilities DeviceCapabilities.test_device
  DeviceCapabilities.main DeviceCapabilities.script : scripts.

Import Logic.
Local Open Scope list_scope.

(** The innermost term a nested [match] looks at *)
Ltac case_head x :=
  lazymatch x with
  | match ?y with _ => _ end => case_head y
  | _ => destruct x
  end.

(** The constant or primitive a computation starts with *)
Ltac head_of m :=
  lazymatch m with
  | ?f _ => head_of f
  | _ => m
  end.

Lemma emits_print_issues p i l :
  (forall i issue,
      p (EvPrint [Lit "  "; Arg (str_int i); Lit ". "; Arg issue]) = true) ->
  emits p (DebugWorkflow.print_issues i l).
Proof.
  intros H. revert i. induction l as [|issue l IH]; intros i; simpl.
  - apply emits_ret.
  - apply emits_bind; [apply emits_tell, H|]. intros _. apply IH.
Qed.

Lemma emits_test_devices p w count i l :
  (forall i device, emits p (DeviceCapabilities.test_device w count i device)) ->
  emits p (DeviceCapabilities.test_devices w count i l).
Proof.
  intros H. revert i. induction l as [|device l IH]; intros i; simpl.
  - apply emits_ret.
  - apply emits_bind; [apply H|]. intros _. apply IH.
Qed.

(** One step through a script, for a property of each event *)
Ltac emits_step :=
  lazymatch goal with
  | |- emits _ (ret _) => apply emits_ret
  | |- emits _ (raise _) => apply emits_raise
  | |- emits _ (tell _) => apply emits_tell; reflexivity
  | |- emits _ (ask _ _) => apply emits_ask; intros; reflexivity
  | |- emits _ (ask_bool _ _) => apply emits_ask_bool; intros; reflexivity
  | |- emits _ (bind _ _) => apply emits_bind; [|intros]
  | |- emits _ (try_catch _ _) => apply emits_try; [|intros]
  | |- emits _ (when _ _) => apply emits_when
  | |- emits _ (for_each (_ :: _) _) => cbn [for_each]
  | |- emits _ (for_each [] _) => cbn [for_each]
  | |- emits _ (for_each _ _) => apply emits_for_each; intros
  | |- emits _ (DebugWorkflow.print_issues _ _) =>
      apply emits_print_issues; intros; reflexivity
  | |- emits _ (DeviceCapabilities.test_devices _ _ _ _) =>
      apply emits_test_devices; intros; autounfold with scripts
  | |- emits _ (match ?x with _ => _ end) => case_head x
  | |- match ?x with _ => _ end => case_head x
  | |- True => exact I
  end.

Ltac emits_auto := intros; autounfold with scripts; repeat emits_step.

(** ** Shell commands (C2, C4) *)

Lemma member_In x l : member x l = true <-> In x l.
Proof.
  unfold member. rewrite existsb_exists. split.
  - intros (y & Hy & E). apply String.eqb_eq in E. subst. exact Hy.
  - intros H. exists x. split; [exact H|apply String.eqb_refl].
Qed.

Lemma member_true_In x l : member x l = true -> In x l.
Proof. apply member_In. Qed.

Lemma member_false_not_In x l : member x l = false -> ~ In x l.
Proof.
  intros H Hin. apply (proj2 (member_In x l)) in Hin. congruence.
Qed.

Lemma commands_incl allowed t :
  forallb (command_in allowed) t = true -> incl (commands t) allowed.
Proof.
  induction t as [|ev t IH]; simpl; intros H c Hc; [contradiction|].
  apply andb_true_iff in H as [H1 H2]. apply in_app_or in Hc as [Hc|Hc].
  - destruct ev; simpl in Hc; try contradiction.
    destruct Hc as [<-|[]]. apply member_In. exact H1.
  - apply (IH H2). exact Hc.
Qed.

Lemma programs_incl allowed t :
  forallb (program_in allowed) t = true -> incl (programs t) allowed.
Proof.
  unfold programs.
  induction t as [|ev t IH]; simpl; intros H c Hc; [contradiction|].
  apply andb_true_iff in H as [H1 H2].
  rewrite map_app in Hc. apply in_app_or in Hc as [Hc|Hc].
  - destruct ev; simpl in Hc; try contradiction.
    destruct Hc as [<-|[]]. apply member_In. exact H1.
  - apply (IH H2). exact Hc.
Qed.

Lemma no_run_commands t : forallb no_run t = true -> commands t = [].
Proof.
  induction t as [|ev t IH]; simpl; intros H; [reflexivity|].
  apply andb_true_iff in H as [H1 H2]. rewrite (IH H2).
  destruct ev; simpl in *; try reflexivity. discriminate.
Qed.

Lemma test_system_commands w :
  emits (command_in script_commands) (TestSystem.main w).
Proof. emits_auto. Qed.

Lemma debug_workflow_commands w :
  emits (command_in script_commands) (DebugWorkflow.script w).
Proof. emits_auto. Qed.

Lemma capabilities_no_command w : emits no_run (DeviceCapabilities.script w).
Proof. emits_auto. Qed.

Lemma test_system_programs w :
  emits (program_in script_programs) (TestSystem.main w).
Proof. emits_auto. Qed.

Lemma debug_workflow_programs w :
  emits (program_in script_programs) (DebugWorkflow.script w).
Proof. emits_auto. Qed.

(** C4, as the specification has it, fails: on a healthy machine
    [debug_workflow.py] runs [groups] and [python3], which the list of
    section 6 leaves out. *)
Lemma C4_counterexample :
  In "groups" (programs (trace (DebugWorkflow.script Worlds.healthy) [])) /\
  In "python3" (programs (trace (DebugWorkflow.script Worlds.healthy) [])) /\
  ~ In "groups" claimed_programs /\ ~ In "python3" claimed_programs.
Proof.
  split; [apply member_true_In; vm_compute; reflexivity|].
  split; [apply member_true_In; vm_compute; reflexivity|].
  split; apply member_false_not_In; reflexivity.
Qed.

(** C4, amended: every command line a script hands to the shell is one of the
    ten of [script_commands], so the programs these lines start are among
    lsusb, lsmod, dkms, find, systemctl, journalctl, python3 and groups;
    [test_device_capabilities.py] runs no command; and all eight programs
    are started in the run of [debug_workflow.py] on a bare machine. *)
Theorem C4_programs_run :
  (forall w h,
      incl (commands (trace (TestSystem.main w) h)) script_commands /\
      incl (commands (trace (DebugWorkflow.script w) h)) script_commands /\
      commands (trace (DeviceCapabilities.script w) h) = [] /\
      incl (programs (trace (TestSystem.main w) h)) script_programs /\
      incl (programs (trace (DebugWorkflow.script w) h)) script_programs) /\
  incl script_programs (programs (trace (DebugWorkflow.script Worlds.bare) [])).
Proof.
  split.
  - intros w h. repeat split.
    + apply commands_incl, test_system_commands.
    + apply commands_incl, debug_workflow_commands.
    + apply no_run_commands, capabilities_no_command.
    + apply programs_incl, test_system_programs.
    + apply programs_incl, debug_workflow_programs.
  - intros p Hp. apply member_true_In. revert p Hp.
    apply (proj1 (forallb_forall
             (fun p => member p (programs (trace (DebugWorkflow.script Worlds.bare) [])))
             script_programs)).
    vm_compute. reflexivity.
Qed.

(** ** Attributes and effect methods (C3) *)








(** ** Timeouts and single attempts (C2) *)

Lemma test_system_no_timeout w : emits (timeout_is None) (TestSystem.main w).
Proof. emits_auto. Qed.

Lemma debug_workflow_timeout w :
  emits (timeout_is (Some (10 # 1)%Q)) (DebugWorkflow.script w).
Proof. emits_auto. Qed.

(** What [run_command] of [debug_workflow.py] does, answer by answer *)
Lemma debug_run_command_run w command description h :
  let r := w_subprocess_run w
             (h ++ [EvPrint [Lit nl; Arg description; Lit "..."];
                    EvPrint [Lit "$ "; Arg command]])
             command (Some (10 # 1)%Q) in
  runs (trace (DebugWorkflow.run_command w command description) h)
  = [EvRun command (Some (10 # 1)%Q) r] /\
  match r with
  | Ok (returncode, stdout, stderr) =>
      result (DebugWorkflow.run_command w command description) h
      = Ok (returncode =? 0, stdout, stderr)
  | Raise e =>
      match exn_cls e with
      | TimeoutExpired =>
          result (DebugWorkflow.run_command w command description) h
          = Ok (false, EmptyString, "Timeout")
      | KeyboardInterrupt =>
          result (DebugWorkflow.run_command w command description) h = Raise e
      | _ =>
          result (DebugWorkflow.run_command w command description) h
          = Ok (false, EmptyString, exn_msg e)
      end
  end.
Proof.
  unfold result, trace, DebugWorkflow.run_command.
  autounfold with scripts.
  unfold bind, try_catch, ask, tell, when, ret. simpl.
  rewrite <- app_assoc. simpl.
  destruct (w_subprocess_run w _ command _) as [[[rc out] err]|e]; simpl.
  - destruct (truthy out), (truthy err); simpl; auto.
  - unfold is_Exception. destruct (exn_cls e); simpl; auto.
Qed.

(** What [run_command] of [test_system.py] does, answer by answer *)
Lemma test_run_command_run w command h :
  let r := w_subprocess_run w h command None in
  trace (TestSystem.run_command w command) h = [EvRun command None r] /\
  match r with
  | Ok (returncode, stdout, stderr) =>
      result (TestSystem.run_command w command) h
      = Ok (returncode =? 0, stdout, stderr)
  | Raise e =>
      if is_Exception e
      then result (TestSystem.run_command w command) h
           = Ok (false, EmptyString, exn_msg e)
      else result (TestSystem.run_command w command) h = Raise e
  end.
Proof.
  unfold result, trace, TestSystem.run_command.
  autounfold with scripts.
  unfold bind, try_catch, ask, ret. simpl.
  destruct (w_subprocess_run w h command None) as [[[rc out] err]|e]; simpl; auto.
  destruct (is_Exception e); simpl; auto.
Qed.

(** *** Each command line in its turn *)

Lemma in_turn_le lo hi cs : in_turn lo hi cs = true -> (lo <= hi)%nat.
Proof.
  revert lo. induction cs as [|c cs IH]; simpl; intros lo H.
  - apply Nat.leb_le, H.
  - apply andb_true_iff in H as [H1 H2]. apply Nat.leb_le in H1.
    apply IH in H2. lia.
Qed.

Lemma in_turn_from lo lo' hi cs :
  (lo <= lo')%nat -> in_turn lo' hi cs = true -> in_turn lo hi cs = true.
Proof.
  destruct cs as [|c cs]; simpl; intros Hle H.
  - apply Nat.leb_le. apply Nat.leb_le in H. lia.
  - apply andb_true_iff in H as [H1 H2]. apply Nat.leb_le in H1.
    rewrite H2, andb_true_r. apply Nat.leb_le. lia.
Qed.

Lemma in_turn_app lo mid hi a b :
  in_turn lo mid a = true -> in_turn mid hi b = true ->
  in_turn lo hi (a ++ b) = true.
Proof.
  revert lo. induction a as [|c a IH]; simpl; intros lo Ha Hb.
  - apply Nat.leb_le in Ha. apply (in_turn_from lo mid); assumption.
  - apply andb_true_iff in Ha as [H1 H2]. rewrite H1. simpl. apply IH; assumption.
Qed.

Lemma in_turn_upto lo hi hi' cs :
  (hi <= hi')%nat -> in_turn lo hi cs = true -> in_turn lo hi' cs = true.
Proof.
  intros Hle H. rewrite <- (app_nil_r cs).
  apply (in_turn_app lo hi hi'); [exact H|]. apply Nat.leb_le, Hle.
Qed.

Lemma in_turn_ranks lo hi cs :
  in_turn lo hi cs = true -> forall c, In c cs -> (lo <= rank c < hi)%nat.
Proof.
  revert lo. induction cs as [|c cs IH]; simpl; intros lo H x Hx; [contradiction|].
  apply andb_true_iff in H as [H1 H2]. apply Nat.leb_le in H1.
  destruct Hx as [<-|Hx].
  - apply in_turn_le in H2. lia.
  - apply (IH _ H2) in Hx. lia.
Qed.

(** Command lines that come in their turn come once each *)
Lemma in_turn_NoDup lo hi cs : in_turn lo hi cs = true -> NoDup cs.
Proof.
  revert lo. induction cs as [|c cs IH]; simpl; intros lo H; [constructor|].
  apply andb_true_iff in H as [H1 H2]. constructor.
  - intros Hin. apply (in_turn_ranks _ _ _ H2) in Hin. lia.
  - apply (IH _ H2).
Qed.

Lemma commands_app t1 t2 : commands (t1 ++ t2) = commands t1 ++ commands t2.
Proof. apply flat_map_app. Qed.

Lemma commands_runs t : commands (runs t) = commands t.
Proof.
  induction t as [|ev t IH]; [reflexivity|].
  destruct ev; simpl; try exact IH. f_equal. exact IH.
Qed.

(** A part that runs no command keeps any place *)
Lemma turn_quiet {A} (m : M A) lo hi :
  (lo <= hi)%nat -> emits no_run m -> runs_in_turn lo hi m.
Proof.
  intros Hle H h. rewrite (no_run_commands _ (H h)). apply Nat.leb_le, Hle.
Qed.

(** One part after another: the second takes up where the first left *)
Lemma turn_bind {A B} (m : M A) (f : A -> M B) lo mid hi :
  runs_in_turn lo mid m -> (mid <= hi)%nat ->
  (forall a, runs_in_turn mid hi (f a)) ->
  runs_in_turn lo hi (bind m f).
Proof.
  intros Hm Hle Hf h. rewrite bind_run. specialize (Hm h).
  destruct (m h) as [[a|e] t1]; simpl in *.
  - rewrite commands_app. apply (in_turn_app lo mid hi); [exact Hm|apply Hf].
  - apply (in_turn_upto lo mid hi); assumption.
Qed.

(** A handler that runs no command leaves the order as the body has it *)
Lemma turn_try {A} (body : M A) handler lo hi :
  runs_in_turn lo hi body ->
  (forall e m, handler e = Some m -> emits no_run m) ->
  runs_in_turn lo hi (try_catch body handler).
Proof.
  intros Hb Hh h. rewrite try_run. specialize (Hb h).
  destruct (body h) as [[a|e] t1]; simpl in *; [exact Hb|].
  destruct (handler e) as [m|] eqn:E; simpl; [|exact Hb].
  rewrite commands_app, (no_run_commands _ (Hh e m E _)), app_nil_r. exact Hb.
Qed.

(** [run_command] gives its command line, once *)
Lemma debug_run_command_turn w command description :
  runs_in_turn (rank command) (S (rank command))
    (DebugWorkflow.run_command w command description).
Proof.
  intros h. rewrite <- commands_runs.
  destruct (debug_run_command_run w command description h) as [Hr _].
  unfold trace in Hr. rewrite Hr. simpl.
  rewrite !Nat.leb_refl. reflexivity.
Qed.

Lemma test_run_command_turn w command :
  runs_in_turn (rank command) (S (rank command)) (TestSystem.run_command w command).
Proof.
  intros h.
  destruct (test_run_command_run w command h) as [Hr _].
  unfold trace in Hr. rewrite Hr. simpl.
  rewrite !Nat.leb_refl. reflexivity.
Qed.

(** One step through a script for the order of its commands *)
Ltac turn_step :=
  lazymatch goal with
  | |- forall _, _ => intro
  | |- runs_in_turn _ _ (DebugWorkflow.run_command _ ?c _) =>
      apply (debug_run_command_turn _ c)
  | |- runs_in_turn _ _ (TestSystem.run_command _ ?c) =>
      apply (test_run_command_turn _ c)
  | |- runs_in_turn _ _ (bind (DebugWorkflow.run_command _ ?c _) _) =>
      apply (turn_bind _ _ _ (S (rank c)) _); [|vm_compute; lia|]
  | |- runs_in_turn _ _ (bind (TestSystem.run_command _ ?c) _) =>
      apply (turn_bind _ _ _ (S (rank c)) _); [|vm_compute; lia|]
  | |- runs_in_turn ?lo _ (bind _ _) =>
      apply (turn_bind _ _ lo lo _);
      [apply turn_quiet; [lia|solve [emits_auto]]|vm_compute; lia|]
  | |- runs_in_turn _ _ (match ?x with _ => _ end) => case_head x
  | |- runs_in_turn _ _ ?m =>
      first [ apply turn_quiet; [vm_compute; lia|solve [emits_auto]]
            | let c := head_of m in unfold c ]
  end.

Ltac turn_auto := repeat turn_step.

Lemma step1_turn w issues : runs_in_turn 0 1 (DebugWorkflow.step1_hardware w issues).
Proof. turn_auto. Qed.

Lemma step2_turn w issues : runs_in_turn 1 3 (DebugWorkflow.step2_kernel_modules w issues).
Proof. turn_auto. Qed.

Lemma step3_turn w issues : runs_in_turn 3 4 (DebugWorkflow.step3_module_files w issues).
Proof. turn_auto. Qed.

Lemma step4_turn w hardware modules issues :
  runs_in_turn 4 5 (DebugWorkflow.step4_device_files w hardware modules issues).
Proof. turn_auto. Qed.

Lemma step5_turn w issues : runs_in_turn 5 7 (DebugWorkflow.step5_daemon w issues).
Proof. turn_auto. Qed.

Lemma step6_turn w issues : runs_in_turn 7 8 (DebugWorkflow.step6_python_library w issues).
Proof. turn_auto. Qed.

Lemma step7_turn w python issues :
  runs_in_turn 8 9 (DebugWorkflow.step7_device_detection w python issues).
Proof. turn_auto. Qed.

Lemma step8_turn w issues : runs_in_turn 9 10 (DebugWorkflow.step8_permissions w issues).
Proof. turn_auto. Qed.

(** Taking a step by its lemma; the rest starts at place [mid] *)
Ltac turn_by lemma mid :=
  apply (turn_bind _ _ _ mid _); [apply lemma|lia|].

Lemma debug_workflow_turn w : runs_in_turn 0 10 (DebugWorkflow.script w).
Proof.
  unfold DebugWorkflow.script. apply turn_try.
  - apply (turn_bind _ _ 0 10 10); [|lia|intros; turn_auto].
    unfold DebugWorkflow.main.
    apply (turn_bind _ _ 0 10 10); [|lia|intros; turn_auto].
    unfold DebugWorkflow.steps. do 10 turn_step.
    turn_by step1_turn 1%nat. intros [hardware issues1].
    turn_by step2_turn 3%nat. intros [modules issues2].
    turn_by step3_turn 4%nat. intros issues3.
    turn_by step4_turn 5%nat. intros issues4.
    turn_by step5_turn 7%nat. intros issues5.
    turn_by step6_turn 8%nat. intros [python issues6].
    turn_by step7_turn 9%nat. intros issues7.
    apply step8_turn.
  - intros e m. unfold except_Exception.
    destruct (exn_cls e), (is_Exception e); intros [= <-]; emits_auto.
Qed.

Lemma test1_turn w p n : runs_in_turn 0 1 (TestSystem.test1_razer_devices w p n).
Proof. turn_auto. Qed.

Lemma test2_turn w p n : runs_in_turn 1 2 (TestSystem.test2_kernel_modules w p n).
Proof. turn_auto. Qed.

Lemma test5_turn w p n : runs_in_turn 5 6 (TestSystem.test5_daemon_status w p n).
Proof. turn_auto. Qed.

Lemma test_system_turn w : runs_in_turn 0 10 (TestSystem.main w).
Proof.
  unfold TestSystem.main.
  apply (turn_bind _ _ 0 10 10); [|lia|intros; turn_auto].
  unfold TestSystem.tests. do 4 turn_step.
  turn_by test1_turn 1%nat. intros [p1 n1].
  turn_by test2_turn 2%nat. intros [p2 n2].
  apply (turn_bind _ _ _ 2%nat _);
    [apply turn_quiet; [lia|solve [emits_auto]]|lia|intros [p3 n3]].
  apply (turn_bind _ _ _ 5%nat _);
    [apply turn_quiet; [lia|solve [emits_auto]]|lia|intros [p4 n4]].
  turn_by test5_turn 6%nat. intros [p5 n5].
  turn_auto.
Qed.

(** C2, as the specification has it, fails: [test_system.py] calls
    [subprocess.run] with no timeout (line 24). *)
Lemma C2_counterexample :
  runs (trace (TestSystem.main Worlds.bare) [])
  = [EvRun "lsusb | grep 1532" None (Ok (1, EmptyString, EmptyString));
     EvRun "lsmod | grep razer" None (Ok (1, EmptyString, EmptyString));
     EvRun "systemctl is-active openrazer-daemon" None
       (Ok (1, EmptyString, EmptyString))] /\
  forallb has_timeout (trace (TestSystem.main Worlds.bare) []) = false.
Proof.
  split; vm_compute; reflexivity.
Qed.

(** C2, amended: a call of [run_command] makes one call of [subprocess.run]
    and never a second one, whatever the first one gave, and no run of
    [debug_workflow.py] or of [test_system.py] gives the same command line
    twice.  In [debug_workflow.py] every such call has [timeout=10], and
    when it raises [TimeoutExpired] [run_command] returns
    [(False, "", "Timeout")].  In [test_system.py] no call has a timeout,
    and when the call raises an [Exception] [run_command] returns
    [(False, "", str(e))]. *)
Theorem C2_single_attempt :
  forall w h,
    forallb (timeout_is (Some (10 # 1)%Q)) (trace (DebugWorkflow.script w) h) = true /\
    forallb (timeout_is None) (trace (TestSystem.main w) h) = true /\
    NoDup (commands (trace (DebugWorkflow.script w) h)) /\
    NoDup (commands (trace (TestSystem.main w) h)) /\
    (forall command description,
        exists r,
          runs (trace (DebugWorkflow.run_command w command description) h)
          = [EvRun command (Some (10 # 1)%Q) r] /\
          (forall e, r = Raise e -> exn_cls e = TimeoutExpired ->
                     result (DebugWorkflow.run_command w command description) h
                     = Ok (false, EmptyString, "Timeout"))) /\
    (forall command,
        exists r,
          trace (TestSystem.run_command w command) h = [EvRun command None r] /\
          (forall e, r = Raise e -> is_Exception e = true ->
                     result (TestSystem.run_command w command) h
                     = Ok (false, EmptyString, exn_msg e))).
Proof.
  intros w h. split; [apply debug_workflow_timeout|].
  split; [apply test_system_no_timeout|].
  split; [apply (in_turn_NoDup 0 10), debug_workflow_turn|].
  split; [apply (in_turn_NoDup 0 10), test_system_turn|]. split.
  - intros command description.
    destruct (debug_run_command_run w command description h) as [Hr Hres].
    eexists. split; [exact Hr|].
    intros e He Hcls. rewrite He, Hcls in Hres. exact Hres.
  - intros command.
    destruct (test_run_command_run w command h) as [Hr Hres].
    eexists. split; [exact Hr|].
    intros e He Hexc. rewrite He, Hexc in Hres. exact Hres.
Qed.

(** On a machine whose commands never come back, [run_command] of
    [debug_workflow.py] gives its failure result after one attempt. *)
Lemma C2_single_attempt_witness :
  exists r,
    runs (trace (DebugWorkflow.run_command stalled "lsusb | grep 1532"
                   "Checking for Razer devices") [])
    = [EvRun "lsusb | grep 1532" (Some (10 # 1)%Q) r] /\
    result (DebugWorkflow.run_command stalled "lsusb | grep 1532"
              "Checking for Razer devices") []
    = Ok (false, EmptyString, "Timeout").
Proof.
  destruct (C2_single_attempt stalled []) as (_ & _ & _ & _ & H & _).
  destruct (H "lsusb | grep 1532" "Checking for Razer devices") as (r & Hr & Ht).
  exists r. split; [exact Hr|].
  vm_compute in Hr. injection Hr as <-.
  apply (Ht _ eq_refl). reflexivity.
Defined.

(** ** Properties of a trace that hold piece by piece *)

Section Always.
Context (P : list event -> Prop) `{Segmental P}.

Lemma always_ret {A} (a : A) : always P (ret a).
Proof. intros h. apply seg_nil. Qed.

Lemma always_raise {A} e : always P (@raise A e).
Proof. intros h. apply seg_nil. Qed.

Lemma always_tell ev : P [ev] -> always P (tell ev).
Proof. intros Hev h. exact Hev. Qed.

Lemma always_ask {A} answer (ev : outcome A -> event) :
  (forall r, P [ev r]) -> always P (ask answer ev).
Proof. intros Hev h. apply Hev. Qed.

Lemma always_ask_bool answer ev :
  (forall b, P [ev b]) -> always P (ask_bool answer ev).
Proof. intros Hev h. apply Hev. Qed.

Lemma always_bind {A B} (m : M A) (f : A -> M B) :
  always P m -> (forall a, always P (f a)) -> always P (bind m f).
Proof.
  intros Hm Hf h. rewrite bind_run. specialize (Hm h).
  destruct (m h) as [[a|e] t1]; simpl in *; [|exact Hm].
  apply seg_app; [exact Hm|apply Hf].
Qed.

Lemma always_try {A} (body : M A) handler :
  always P body ->
  (forall e, match handler e with Some m => always P m | None => True end) ->
  always P (try_catch body handler).
Proof.
  intros Hb Hh h. rewrite try_run. specialize (Hb h).
  destruct (body h) as [[a|e] t]; simpl in *; [exact Hb|].
  specialize (Hh e). destruct (handler e) as [m|]; simpl; [|exact Hb].
  apply seg_app; [exact Hb|apply Hh].
Qed.

Lemma always_for_each {A} (l : list A) body :
  (forall x, always P (body x)) -> always P (for_each l body).
Proof.
  intros Hb. induction l as [|x l IH]; simpl.
  - apply always_ret.
  - apply always_bind; [apply Hb|]. intros _. exact IH.
Qed.

Lemma always_when c body : always P body -> always P (when c body).
Proof. intros Hb. destruct c; [exact Hb|apply always_ret]. Qed.

Lemma always_print_issues i l :
  (forall i issue, P [EvPrint [Lit "  "; Arg (str_int i); Lit ". "; Arg issue]]) ->
  always P (DebugWorkflow.print_issues i l).
Proof.
  intros Hp. revert i. induction l as [|issue l IH]; intros i; simpl.
  - apply always_ret.
  - apply always_bind; [apply always_tell, Hp|]. intros _. apply IH.
Qed.

Lemma always_test_devices w count i l :
  (forall i device, always P (DeviceCapabilities.test_device w count i device)) ->
  always P (DeviceCapabilities.test_devices w count i l).
Proof.
  intros Hd. revert i. induction l as [|device l IH]; intros i; simpl.
  - apply always_ret.
  - apply always_bind; [apply Hd|]. intros _. apply IH.
Qed.
End Always.

Create HintDb blocks.

(** One step through a script for a piecewise property; [leaf] settles a
    single event, the lemmas of [blocks] settle the parts that are not
    taken apart. *)
Ltac always_step leaf :=
  first
    [ solve [auto with blocks]
    | lazymatch goal with
      | |- always ?P (ret _) => apply (always_ret P)
      | |- always ?P (raise _) => apply (always_raise P)
      | |- always _ (tell _) => apply always_tell; leaf
      | |- always _ (ask _ _) => apply always_ask; intros; leaf
      | |- always _ (ask_bool _ _) => apply always_ask_bool; intros; leaf
      | |- always ?P (bind _ _) => apply (always_bind P); [|intros]
      | |- always ?P (try_catch _ _) =>
          apply (always_try P);
          [|intros; try unfold except_Exception; try unfold except_all]
      | |- always ?P (when _ _) => apply (always_when P)
      | |- always ?P (for_each _ _) => apply (always_for_each P); intros
      | |- always ?P (DebugWorkflow.print_issues _ _) =>
          apply (always_print_issues P); intros; leaf
      | |- always ?P (DeviceCapabilities.test_devices _ _ _ _) =>
          apply (always_test_devices P); intros
      | |- always _ (match ?x with _ => _ end) => case_head x
      | |- match ?x with _ => _ end => case_head x
      | |- True => exact I
      | |- always _ ?m => let c := head_of m in unfold c
      end ].

Ltac always_auto leaf := intros; repeat always_step leaf.

(** ** Sleeps (C6) *)

Lemma Q_eqb_eq a b : Q_eqb a b = true -> a = b.
Proof.
  destruct a as [n d], b as [n' d']. unfold Q_eqb. simpl.
  intros H. apply andb_true_iff in H as [H1 H2].
  apply Z.eqb_eq in H1. apply Pos.eqb_eq in H2. subst. reflexivity.
Qed.

Lemma pending_print pending pre msg :
  pending_in pending pre -> pending_in pending (pre ++ [EvPrint msg]).
Proof.
  intros H d Hd. destruct (H d Hd) as (t0 & c & ps & -> & Hc & Hps).
  exists t0, c, (ps ++ [EvPrint msg]). repeat split.
  - rewrite <- app_assoc. reflexivity.
  - exact Hc.
  - rewrite forallb_app, Hps. reflexivity.
Qed.

Lemma pending_command pre ev : pending_in (pause_after ev) (pre ++ [ev]).
Proof.
  intros d Hd. exists pre, ev, []. repeat split. exact Hd.
Qed.

Lemma pending_none pre : pending_in None pre.
Proof. intros d [=]. Qed.

Lemma pauses_ok_sound t :
  forall pending pre,
    pending_in pending pre -> pauses_ok pending t = true ->
    forall t1 d t2,
      t = t1 ++ EvSleep d :: t2 ->
      exists t0 c ps,
        pre ++ t1 = t0 ++ c :: ps /\ pause_after c = Some d /\
        forallb is_print ps = true.
Proof.
  induction t as [|ev t IH]; intros pending pre Hpre Hok t1 d t2 E.
  - destruct t1; discriminate.
  - destruct t1 as [|ev' t1]; simpl in E; injection E as E1 E2; subst.
    + simpl in Hok. destruct pending as [d'|]; [|discriminate].
      apply andb_true_iff in Hok as [Hd _]. apply Q_eqb_eq in Hd. subst d'.
      rewrite app_nil_r. apply Hpre. reflexivity.
    + assert (Hstep : exists pending',
                 pending_in pending' (pre ++ [ev']) /\
                 pauses_ok pending' (t1 ++ EvSleep d :: t2) = true).
      { destruct ev'; simpl in Hok;
          try (eexists; split; [apply pending_command|exact Hok]).
        - exists pending. split; [apply pending_print, Hpre|exact Hok].
        - destruct pending; [|discriminate].
          apply andb_true_iff in Hok as [_ Hok].
          exists None. split; [apply pending_none|exact Hok]. }
      destruct Hstep as (pending' & Hpre' & Hok').
      destruct (IH pending' (pre ++ [ev']) Hpre' Hok' t1 d t2 eq_refl)
        as (t0 & c & ps & E & Hc & Hps).
      exists t0, c, ps. rewrite <- app_assoc in E. auto.
Qed.

Lemma pauses_follow t : pauses_ok None t = true -> sleeps_follow_lighting t.
Proof.
  intros Hok t1 d t2 E.
  apply (pauses_ok_sound t None [] (pending_none _) Hok t1 d t2 E).
Qed.

#[export] Instance sleeps_segmental : Segmental sleeps_follow_lighting.
Proof.
  split.
  - intros t1 d t2 E. destruct t1; discriminate.
  - intros a b Ha Hb t1 d t2 E.
    apply app_eq_app in E as (l & [[-> E]|[-> E]]).
    + destruct l as [|ev l].
      * simpl in E. subst b. destruct (Hb [] d t2 eq_refl) as (t0 & c & ps & E & _).
        destruct t0; discriminate.
      * simpl in E. injection E as <- ->.
        destruct (Ha t1 d l eq_refl) as (t0 & c & ps & E & Hc & Hps).
        exists t0, c, ps. auto.
    + destruct (Hb l d t2 E) as (t0 & c & ps & -> & Hc & Hps).
      exists (a ++ t0), c, ps. rewrite <- app_assoc. auto.
Qed.

Lemma quiet_single ev : is_sleep ev = false -> sleeps_follow_lighting [ev].
Proof.
  intros H. apply pauses_follow. destruct ev; try reflexivity. discriminate.
Qed.

(** Running a piece of a script answer by answer *)
Ltac run_cases :=
  repeat (simpl;
          match goal with
          | |- context [match ?x with _ => _ end] =>
              lazymatch x with
              | context [match _ with _ => _ end] => fail
              | _ => destruct x eqn:?
              end
          end);
  simpl.

Ltac run_block :=
  autounfold with scripts;
  unfold bind, try_catch, ask, ask_bool, tell, when, ret, raise;
  run_cases.

Lemma brightness_test_sleeps w matrix :
  always sleeps_follow_lighting (DeviceCapabilities.brightness_test w matrix).
Proof.
  intros h. apply pauses_follow. run_block; reflexivity.
Qed.

Lemma static_test_sleeps w matrix :
  always sleeps_follow_lighting (DeviceCapabilities.static_test w matrix).
Proof.
  intros h. apply pauses_follow. run_block; reflexivity.
Qed.

Lemma effect_test_sleeps w matrix effect :
  In effect DeviceCapabilities.effects_to_test ->
  always sleeps_follow_lighting (DeviceCapabilities.effect_test w matrix effect).
Proof.
  intros Hin h. apply pauses_follow.
  simpl in Hin. destruct Hin as [<-|[<-|[<-|[<-|[]]]]]; run_block; reflexivity.
Qed.

Lemma effects_loop_sleeps w matrix :
  always sleeps_follow_lighting
    (for_each DeviceCapabilities.effects_to_test
       (DeviceCapabilities.effect_test w matrix)).
Proof.
  unfold DeviceCapabilities.effects_to_test. cbn [for_each].
  repeat (apply (always_bind sleeps_follow_lighting);
          [apply effect_test_sleeps; simpl; auto 10|intros _]).
  apply (always_ret sleeps_follow_lighting).
Qed.

#[export] Hint Resolve brightness_test_sleeps static_test_sleeps
  effects_loop_sleeps : blocks.

Ltac no_sleep_leaf := apply quiet_single; reflexivity.

Lemma capabilities_sleeps w :
  always sleeps_follow_lighting (DeviceCapabilities.script w).
Proof. always_auto no_sleep_leaf. Qed.

Lemma capabilities_sleep_lengths w :
  emits sleep_length_ok (DeviceCapabilities.script w).
Proof. emits_auto. Qed.

Lemma test_system_no_sleep w : emits no_sleep (TestSystem.main w).
Proof. emits_auto. Qed.

Lemma debug_workflow_no_sleep w : emits no_sleep (DebugWorkflow.script w).
Proof. emits_auto. Qed.

(** C6, as the specification has it, fails: the first sleep of the
    capability test (line 59) follows the write of the brightness, before any
    colour or effect command has gone out. *)
Lemma C6_counterexample :
  exists t1 t2,
    trace (DeviceCapabilities.script Worlds.healthy) []
    = t1 ++ EvSetAttr (VObj 3 "<RazerLED>") "brightness" (VInt 128) (Ok tt)
         :: EvSleep (1 # 10)%Q :: t2 /\
    existsb colour_or_effect t1 = false.
Proof.
  exists (firstn 32 (trace (DeviceCapabilities.script Worlds.healthy) [])),
         (skipn 34 (trace (DeviceCapabilities.script Worlds.healthy) [])).
  split; vm_compute; reflexivity.
Qed.

(** C6, amended: every sleep comes right after a lighting command that went
    through, with nothing but prints in between, and lasts what that command
    calls for: 0.1 s after a write of the brightness, 0.5 s after a static
    colour, 1 s after an effect.  These three constants are the only
    durations, and only the capability test sleeps. *)
Theorem C6_sleeps :
  forall w h,
    sleeps_follow_lighting (trace (DeviceCapabilities.script w) h) /\
    forallb sleep_length_ok (trace (DeviceCapabilities.script w) h) = true /\
    forallb no_sleep (trace (TestSystem.main w) h) = true /\
    forallb no_sleep (trace (DebugWorkflow.script w) h) = true.
Proof.
  intros w h. split; [apply capabilities_sleeps|].
  split; [apply capabilities_sleep_lengths|].
  split; [apply test_system_no_sleep|apply debug_workflow_no_sleep].
Qed.

(** ** Exceptions that leave a script (C1) *)


Section Escapes.
Variable from : event -> bool.
Variable own : exn -> Prop.










End Escapes.




(** [check_import] lets through what [find_spec] raises outside the three
    classes it names. *)
Lemma check_import_escapes w module_name :
  escapes open_in_test_system (fun e => e = TestSystem.index_error)
    (TestSystem.check_import w module_name).
Proof.
  intros h e. unfold TestSystem.check_import.
  autounfold with scripts. unfold bind, try_catch, ask, ret. simpl.
  destruct (w_find_spec w h module_name) as [found|e'] eqn:E; simpl; [intros [=]|].
  destruct (exn_cls e') eqn:Ecls; simpl; intros [= <-] He;
    right; exists [], (EvFindSpec module_name (Raise e'));
    simpl; rewrite Ecls; auto.
Qed.

#[export] Hint Resolve check_import_escapes : blocks.



(** The [__main__] block of [debug_workflow.py] turns whatever [main] ends
    with into an exit status. *)
Lemma debug_script_run w h :
  match DebugWorkflow.main w h with
  | (Ok n, t) => DebugWorkflow.script w h = (Ok n, t)
  | (Raise e, t) =>
      exists report, DebugWorkflow.script w h = (Ok 1, t ++ [EvPrint report])
  end.
Proof.
  unfold DebugWorkflow.script. rewrite try_run, bind_run.
  destruct (DebugWorkflow.main w h) as [[n|e] t]; simpl.
  - rewrite app_nil_r. reflexivity.
  - unfold except_Exception, is_Exception.
    destruct (exn_cls e); simpl; eexists; reflexivity.
Qed.




(** ** Results and traces together *)

Lemma post_ret {A} (a : A) (Q : outcome A -> list event -> Prop) :
  Q (Ok a) [] -> post (ret a) Q.
Proof. intros H h. exact H. Qed.

Lemma post_raise {A} e (Q : outcome A -> list event -> Prop) :
  Q (Raise e) [] -> post (raise e) Q.
Proof. intros H h. exact H. Qed.

Lemma post_tell ev (Q : outcome unit -> list event -> Prop) :
  Q (Ok tt) [ev] -> post (tell ev) Q.
Proof. intros H h. exact H. Qed.

Lemma post_ask {A} answer (ev : outcome A -> event) Q :
  (forall r, Q r [ev r]) -> post (ask answer ev) Q.
Proof. intros H h. apply H. Qed.

Lemma post_ask_bool answer ev (Q : outcome bool -> list event -> Prop) :
  (forall b, Q (Ok b) [ev b]) -> post (ask_bool answer ev) Q.
Proof. intros H h. apply H. Qed.

Lemma post_bind {A B} (m : M A) (f : A -> M B) Q :
  post m (fun r t1 =>
            match r with
            | Ok a => post (f a) (fun r2 t2 => Q r2 (t1 ++ t2))
            | Raise e => Q (Raise e) t1
            end) ->
  post (bind m f) Q.
Proof.
  intros H h. rewrite bind_run. specialize (H h).
  destruct (m h) as [[a|e] t1]; simpl in *; [apply H|exact H].
Qed.

Lemma post_try {A} (body : M A) handler Q :
  post body (fun r t1 =>
               match r with
               | Ok a => Q (Ok a) t1
               | Raise e =>
                   match handler e with
                   | Some m => post m (fun r2 t2 => Q r2 (t1 ++ t2))
                   | None => Q (Raise e) t1
                   end
               end) ->
  post (try_catch body handler) Q.
Proof.
  intros H h. rewrite try_run. specialize (H h).
  destruct (body h) as [[a|e] t1]; simpl in *; [exact H|].
  destruct (handler e) as [m|]; simpl; [apply H|exact H].
Qed.

Lemma post_weaken {A} (m : M A) (Q1 Q : outcome A -> list event -> Prop) :
  post m Q1 -> (forall r t, Q1 r t -> Q r t) -> post m Q.
Proof. intros H HQ h. apply HQ, H. Qed.

Lemma post_emits {A} p (m : M A) (Q : outcome A -> list event -> Prop) :
  emits p m -> (forall r t, forallb p t = true -> Q r t) -> post m Q.
Proof. intros H HQ h. apply HQ, H. Qed.


(** ** Marked lines *)

Lemma headers_app t1 t2 : headers (t1 ++ t2) = headers t1 ++ headers t2.
Proof. apply flat_map_app. Qed.

Lemma steps_run_app t1 t2 : steps_run (t1 ++ t2) = steps_run t1 ++ steps_run t2.
Proof. apply flat_map_app. Qed.

Lemma failed_steps_app t1 t2 :
  failed_steps (t1 ++ t2) = (failed_steps t1 + failed_steps t2)%nat.
Proof. unfold failed_steps. rewrite filter_app, length_app. reflexivity. Qed.

Lemma verdicts_app t1 t2 : verdicts (t1 ++ t2) = (verdicts t1 + verdicts t2)%nat.
Proof. unfold verdicts. rewrite filter_app, length_app. reflexivity. Qed.

Lemma plain_marks t :
  forallb plain t = true ->
  headers t = [] /\ steps_run t = [] /\ failed_steps t = 0%nat /\ verdicts t = 0%nat.
Proof.
  unfold failed_steps, verdicts.
  induction t as [|ev t IH]; simpl; intros H; [auto|].
  apply andb_true_iff in H as [Hev Ht].
  destruct (IH Ht) as (IH1 & IH2 & IH3 & IH4).
  rewrite IH1, IH2. clear IH Ht IH1 IH2.
  destruct ev as [msg| | | | | | | | | | | | | | | |]; simpl; auto.
  destruct msg as [|[s|s] [|[s'|s'] [|f msg]]]; simpl in *; auto.
  - apply negb_true_iff in Hev. rewrite Hev. auto.
  - apply negb_true_iff in Hev.
    apply orb_false_iff in Hev as [Hev _].
    apply orb_false_iff in Hev as [Hev Hstep].
    apply orb_false_iff in Hev as [Hfail Hsucc].
    rewrite Hfail, Hsucc, Hstep. simpl. auto.
Qed.

Lemma plain_headers t : forallb plain t = true -> headers t = [].
Proof. intros H. apply plain_marks, H. Qed.

Lemma plain_steps t : forallb plain t = true -> steps_run t = [].
Proof. intros H. apply plain_marks, H. Qed.

Lemma plain_failed t : forallb plain t = true -> failed_steps t = 0%nat.
Proof. intros H. apply plain_marks, H. Qed.

Lemma plain_verdicts t : forallb plain t = true -> verdicts t = 0%nat.
Proof. intros H. apply plain_marks, H. Qed.

(** One step through a script for a property of result and trace.  Loops
    and the two [run_command]s are taken whole: all their events pass [p]. *)
Ltac post_step_for p :=
  lazymatch goal with
  | |- forall _, _ => intro
  | |- context [except_Exception] => unfold except_Exception
  | |- context [except_all] => unfold except_all
  | |- post (ret _) _ => apply post_ret; cbv beta iota
  | |- post (raise _) _ => apply post_raise; cbv beta iota
  | |- post (tell _) _ => apply post_tell; cbv beta iota
  | |- post (ask _ _) _ => apply post_ask; intros [?|?]; cbv beta iota
  | |- post (ask_bool _ _) _ => apply post_ask_bool; intros ?; cbv beta iota
  | |- post (bind _ _) _ => apply post_bind
  | |- post (try_catch _ _) _ => apply post_try
  | |- post (for_each _ _) _ =>
      apply (post_emits p); [solve [emits_auto]|intros [[]|?] ? ?; cbv beta iota]
  | |- post (TestSystem.run_command _ _) _ =>
      apply (post_emits p);
      [solve [emits_auto]|intros [[[? ?] ?]|?] ? ?; cbv beta iota]
  | |- post (DebugWorkflow.run_command _ _ _) _ =>
      apply (post_emits p);
      [solve [emits_auto]|intros [[[? ?] ?]|?] ? ?; cbv beta iota]
  | |- post (match ?x with _ => _ end) _ => case_head x; cbv beta iota
  | |- match ?x with _ => _ end => case_head x; cbv beta iota
  | |- post ?m _ => let c := head_of m in unfold c
  end.

Ltac post_step := post_step_for plain.

Ltac post_auto := repeat post_step.

(** The same, with [block] tried first on the parts that have a lemma of
    their own *)
Ltac post_auto_with block := repeat first [block | post_step].

Ltac post_auto_for p block := repeat first [block | post_step_for p].

(** ** The counters of test_system.py (C8) and the order of its tests (C5) *)

Ltac marks_leaf :=
  repeat rewrite headers_app;
  repeat match goal with
         | H : forallb plain ?t = true |- _ => rewrite (plain_headers t H)
         end;
  vm_compute; reflexivity.

Ltac counted_leaf := split; [marks_leaf|try exact I; lia].

Lemma test1_counted w tests_passed total_tests :
  post (TestSystem.test1_razer_devices w tests_passed total_tests)
    (counted tests_passed total_tests (nl ++ "1. Checking for Razer devices...")).
Proof. unfold counted. post_auto; counted_leaf. Qed.

Lemma test2_counted w tests_passed total_tests :
  post (TestSystem.test2_kernel_modules w tests_passed total_tests)
    (counted tests_passed total_tests (nl ++ "2. Checking kernel modules...")).
Proof. unfold counted. post_auto; counted_leaf. Qed.

Lemma test3_counted w tests_passed total_tests :
  post (TestSystem.test3_python_library w tests_passed total_tests)
    (counted tests_passed total_tests (nl ++ "3. Checking Python library...")).
Proof. unfold counted. post_auto; counted_leaf. Qed.

Lemma test4_counted w tests_passed total_tests :
  post (TestSystem.test4_device_detection w tests_passed total_tests)
    (counted tests_passed total_tests (nl ++ "4. Testing device detection...")).
Proof. unfold counted. post_auto; counted_leaf. Qed.

Lemma test5_counted w tests_passed total_tests :
  post (TestSystem.test5_daemon_status w tests_passed total_tests)
    (counted tests_passed total_tests (nl ++ "5. Checking daemon status...")).
Proof. unfold counted. post_auto; counted_leaf. Qed.

Lemma lighting_test_plain w device : emits plain (TestSystem.lighting_test w device).
Proof. emits_auto. Qed.

Ltac lighting_test_block :=
  idtac;
  lazymatch goal with
  | |- post (TestSystem.lighting_test _ _) _ =>
      apply (post_emits plain);
      [apply lighting_test_plain|intros [[]|?] ? ?; cbv beta iota]
  end.

Lemma test6_counted w tests_passed total_tests :
  post (TestSystem.test6_device_functionality w tests_passed total_tests)
    (counted tests_passed total_tests
       (nl ++ "6. Testing basic device functionality...")).
Proof. unfold counted. post_auto_with lighting_test_block; counted_leaf. Qed.

(** Taking a part of a script by the lemma that describes it *)
Ltac by_spec lemma :=
  apply post_bind; eapply post_weaken; [apply lemma|]; cbv beta.

Lemma tests_counted w :
  post (TestSystem.tests w)
    (fun r t =>
       match r with
       | Ok (tests_passed, total_tests) =>
           headers t = test_headers /\ total_tests = 6 /\ 0 <= tests_passed <= 6
       | Raise _ => True
       end).
Proof.
  unfold TestSystem.tests.
  do 2 (apply post_bind, post_tell; cbv beta iota).
  by_spec test1_counted. intros [[p1 n1]|] t1 [H1 C1]; [|exact I].
  by_spec test2_counted. intros [[p2 n2]|] t2 [H2 C2]; [|exact I].
  by_spec test3_counted. intros [[p3 n3]|] t3 [H3 C3]; [|exact I].
  by_spec test4_counted. intros [[p4 n4]|] t4 [H4 C4]; [|exact I].
  by_spec test5_counted. intros [[p5 n5]|] t5 [H5 C5]; [|exact I].
  eapply post_weaken; [apply test6_counted|]. cbv beta.
  intros [[p6 n6]|] t6 [H6 C6]; [|exact I].
  split; [|lia].
  repeat rewrite headers_app. rewrite H1, H2, H3, H4, H5, H6. reflexivity.
Qed.

(** What [summary] of [test_system.py] prints and returns *)
Lemma test_summary_run tests_passed total_tests h :
  exists rest,
    TestSystem.summary tests_passed total_tests h
    = (Ok (if tests_passed >=? total_tests - 1 then 0 else 1),
       EvPrint [Lit nl; Arg (replicate "=" 40)]
       :: EvPrint [Lit "Test Results: "; Arg (str_int tests_passed); Lit "/";
                   Arg (str_int total_tests); Lit " passed"]
       :: rest) /\
    forallb plain rest = true.
Proof.
  unfold TestSystem.summary. autounfold with scripts.
  unfold bind, tell, ret. simpl.
  destruct (tests_passed =? total_tests) eqn:E.
  - apply Z.eqb_eq in E. subst.
    replace (total_tests >=? total_tests - 1) with true
      by (symmetry; apply Z.geb_le; lia).
    eexists. split; reflexivity.
  - destruct (tests_passed >=? total_tests - 1); eexists; split; reflexivity.
Qed.

(** C8: when [main] of [test_system.py] reaches its summary, all six tests
    have been counted, the tests passed lie between 0 and 6, the line of
    results shows the two counters, and [main] returns 0 exactly when at most
    one test failed, 1 otherwise. *)
Theorem C8_test_counters :
  forall w h status t,
    TestSystem.main w h = (Ok status, t) ->
    exists tests_passed total_tests t1 t2,
      TestSystem.tests w h = (Ok (tests_passed, total_tests), t1) /\
      t = t1 ++ t2 /\
      In (EvPrint [Lit "Test Results: "; Arg (str_int tests_passed); Lit "/";
                   Arg (str_int total_tests); Lit " passed"]) t2 /\
      0 <= tests_passed <= total_tests /\
      total_tests = 6 /\
      (status = 0 <-> total_tests - 1 <= tests_passed) /\
      (status <> 0 -> status = 1).
Proof.
  intros w h status t Hmain. unfold TestSystem.main in Hmain.
  apply bind_ok_inv in Hmain as ([tests_passed total_tests] & t1 & t2 & Ht & Hs & ->).
  exists tests_passed, total_tests, t1, t2.
  pose proof (tests_counted w h) as Hc. rewrite Ht in Hc. simpl in Hc.
  destruct Hc as (_ & -> & Hp).
  destruct (test_summary_run tests_passed 6 (h ++ t1)) as (rest & Hrun & _).
  rewrite Hrun in Hs. injection Hs as Hstatus <-.
  split; [exact Ht|]. split; [reflexivity|].
  split; [right; left; reflexivity|].
  split; [lia|]. split; [reflexivity|].
  assert (Hst : status = if tests_passed >=? 5 then 0 else 1)
    by (symmetry; exact Hstatus).
  clear Hstatus Hrun. change (6 - 1) with 5.
  destruct (Z.geb_spec tests_passed 5) as [E|E]; subst status.
  - split; [split; [lia|reflexivity]|congruence].
  - split; [split; [discriminate|lia]|reflexivity].
Qed.

(** On the healthy machine all six tests pass and [main] returns 0. *)
Lemma C8_test_counters_witness :
  exists tests_passed total_tests t1 t2,
    TestSystem.tests Worlds.healthy [] = (Ok (tests_passed, total_tests), t1) /\
    trace (TestSystem.main Worlds.healthy) [] = t1 ++ t2 /\
    In (EvPrint [Lit "Test Results: "; Arg (str_int tests_passed); Lit "/";
                 Arg (str_int total_tests); Lit " passed"]) t2 /\
    0 <= tests_passed <= total_tests /\
    total_tests = 6 /\
    (0 = 0 <-> total_tests - 1 <= tests_passed) /\
    (0 <> 0 -> 0 = 1).
Proof.
  apply (C8_test_counters Worlds.healthy [] 0
           (trace (TestSystem.main Worlds.healthy) [])).
  vm_compute. reflexivity.
Defined.

(** ** Lines that follow one another (C7) *)

Lemma next_ok_sound a b t : next_ok a b t = true -> next_is a b t.
Proof.
  induction t as [|ev0 t IH]; intros Hok t1 ev t2 E Ha.
  - destruct t1; discriminate.
  - simpl in Hok. apply andb_true_iff in Hok as [Hhead Htail].
    destruct t1 as [|ev1 t1]; simpl in E; injection E as E1 E2; subst.
    + rewrite Ha in Hhead. destruct t2 as [|ev' t3]; [discriminate|].
      exists ev', t3. auto.
    + apply (IH Htail t1 ev t2 eq_refl Ha).
Qed.

#[export] Instance next_is_segmental a b : Segmental (next_is a b).
Proof.
  split.
  - intros t1 ev t2 E. destruct t1; discriminate.
  - intros u v Hu Hv t1 ev t2 E Ha.
    apply app_eq_app in E as (l & [[-> E]|[-> E]]).
    + destruct l as [|ev0 l].
      * simpl in E. subst v. apply (Hv [] ev t2 eq_refl Ha).
      * simpl in E. injection E as <- ->.
        destruct (Hu t1 ev l eq_refl Ha) as (ev' & t3 & -> & Hb).
        exists ev', (t3 ++ v). auto.
    + apply (Hv l ev t2 E Ha).
Qed.

#[export] Instance tips_follow_segmental : Segmental tips_follow.
Proof. apply next_is_segmental. Qed.



Lemma check_step_tips step_name condition success_msg failure_msg tip :
  truthy tip = true ->
  always tips_follow
    (DebugWorkflow.check_step step_name condition success_msg failure_msg tip).
Proof.
  intros Htip h. apply next_ok_sound.
  unfold DebugWorkflow.check_step. autounfold with scripts.
  unfold bind, tell, when, ret. destruct condition; simpl.
  - reflexivity.
  - rewrite Htip. simpl. rewrite Htip. reflexivity.
Qed.

#[export] Hint Resolve check_step_tips : blocks.



Lemma test5_daemon_tip w tests_passed total_tests :
  always (next_is (line_is daemon_down) (line_is daemon_tip))
    (TestSystem.test5_daemon_status w tests_passed total_tests).
Proof. intros h. apply next_ok_sound. run_block; reflexivity. Qed.

Lemma test3_import_tip w tests_passed total_tests :
  always (next_is (line_is import_failed) (line_is import_tip))
    (TestSystem.test3_python_library w tests_passed total_tests).
Proof. intros h. apply next_ok_sound. run_block; reflexivity. Qed.

#[export] Hint Resolve test5_daemon_tip test3_import_tip : blocks.






(** ** The steps of debug_workflow.py (C5, C9) *)

Lemma check_step_marks step_name condition success_msg failure_msg tip :
  post (DebugWorkflow.check_step step_name condition success_msg failure_msg tip)
    (fun r t => r = Ok condition /\ marks step_name condition t).
Proof. unfold marks. post_auto; repeat split; reflexivity. Qed.

Ltac check_step_block :=
  idtac;
  lazymatch goal with
  | |- post (DebugWorkflow.check_step _ _ _ _ _) _ =>
      eapply post_weaken;
      [apply check_step_marks
      |intros ? ? [-> (? & ? & ?)];
       lazymatch goal with
       | H : failed_steps _ = (if ?c then _ else _) |- _ => destruct c
       end;
       cbn [negb]; cbv beta iota]
  end.

Ltac use_marks :=
  repeat rewrite steps_run_app; repeat rewrite verdicts_app;
  repeat rewrite failed_steps_app;
  repeat match goal with
         | H : forallb plain ?t = true |- _ =>
             first [rewrite (plain_steps t H)
                   |rewrite (plain_verdicts t H)
                   |rewrite (plain_failed t H)]
         | H : steps_run ?t = _ |- _ => rewrite H
         | H : verdicts ?t = _ |- _ => rewrite H
         | H : failed_steps ?t = _ |- _ => rewrite H
         end.

Ltac step_close :=
  unfold step_done, marks;
  repeat split; try (use_marks; reflexivity);
  rewrite ?app_nil_r; reflexivity.

Ltac step_leaf :=
  try exact I;
  first [solve [step_close]
        |exists true; solve [step_close]
        |exists false; solve [step_close]].

Lemma step1_done w issues :
  post (DebugWorkflow.step1_hardware w issues)
    (fun r t =>
       match r with
       | Ok (ok, issues') =>
           step_done "Hardware Detection" "No hardware detected" issues ok issues' t
       | Raise _ => True
       end).
Proof. post_auto_with check_step_block; step_leaf. Qed.

Lemma step2_done w issues :
  post (DebugWorkflow.step2_kernel_modules w issues)
    (fun r t =>
       match r with
       | Ok (ok, issues') =>
           step_done "Kernel Module Loading" "Kernel modules not loaded"
             issues ok issues' t
       | Raise _ => True
       end).
Proof. post_auto_with check_step_block; step_leaf. Qed.

Lemma step3_done w issues :
  post (DebugWorkflow.step3_module_files w issues)
    (fun r t =>
       match r with
       | Ok issues' =>
           exists ok, step_done "Module Files" "Module files missing"
                        issues ok issues' t
       | Raise _ => True
       end).
Proof. post_auto_with check_step_block; step_leaf. Qed.

Lemma step4_done w has_hardware has_modules issues :
  post (DebugWorkflow.step4_device_files w has_hardware has_modules issues)
    (fun r t =>
       match r with
       | Ok issues' =>
           if has_hardware && has_modules then
             exists ok, step_done "Device Files" "Device files not created"
                          issues ok issues' t
           else t = [] /\ issues' = issues
       | Raise _ => True
       end).
Proof.
  destruct has_hardware, has_modules;
    post_auto_with check_step_block; step_leaf.
Qed.

Lemma step5_done w issues :
  post (DebugWorkflow.step5_daemon w issues)
    (fun r t =>
       match r with
       | Ok issues' =>
           exists ok, step_done "Daemon Status" "Daemon not running"
                        issues ok issues' t
       | Raise _ => True
       end).
Proof. post_auto_with check_step_block; step_leaf. Qed.

Lemma step6_done w issues :
  post (DebugWorkflow.step6_python_library w issues)
    (fun r t =>
       match r with
       | Ok (ok, issues') =>
           step_done "Python Library" "Python library import failed"
             issues ok issues' t
       | Raise _ => True
       end).
Proof. post_auto_with check_step_block; step_leaf. Qed.

Lemma step7_done w python_works issues :
  post (DebugWorkflow.step7_device_detection w python_works issues)
    (fun r t =>
       match r with
       | Ok issues' =>
           if python_works then
             exists ok, step_done "Device Detection" "Device detection failed"
                          issues ok issues' t
           else t = [] /\ issues' = issues
       | Raise _ => True
       end).
Proof.
  destruct python_works; post_auto_with check_step_block; step_leaf.
Qed.

Lemma step8_done w issues :
  post (DebugWorkflow.step8_permissions w issues)
    (fun r t =>
       match r with
       | Ok issues' =>
           exists ok, step_done "User Permissions" "User not in plugdev group"
                        issues ok issues' t
       | Raise _ => True
       end).
Proof. post_auto_with check_step_block; step_leaf. Qed.

Lemma steps_done w : post (DebugWorkflow.steps w) steps_report.
Proof.
  unfold DebugWorkflow.steps, steps_report.
  do 5 (apply post_bind, post_tell; cbv beta iota).
  by_spec step1_done. intros [[hw i1]|] t1; [intros [(S1 & V1 & F1) E1]|exact (fun _ => I)].
  by_spec step2_done. intros [[km i2]|] t2; [intros [(S2 & V2 & F2) E2]|exact (fun _ => I)].
  by_spec step3_done. intros [i3|] t3; [intros (mf & (S3 & V3 & F3) & E3)|exact (fun _ => I)].
  by_spec (step4_done w hw km). intros [i4|] t4 H4; [|exact I].
  by_spec step5_done. intros [i5|] t5; [intros (dm & (S5 & V5 & F5) & E5)|exact (fun _ => I)].
  by_spec step6_done. intros [[py i6]|] t6; [intros [(S6 & V6 & F6) E6]|exact (fun _ => I)].
  by_spec (step7_done w py). intros [i7|] t7 H7; [|exact I].
  eapply post_weaken; [apply step8_done|]. cbv beta.
  intros [i8|] t8; [intros (pd & (S8 & V8 & F8) & E8)|exact (fun _ => I)].
  assert (H4' : exists df,
             steps_run t4 = (if hw && km then ["Device Files"] else []) /\
             verdicts t4 = (if hw && km then 1 else 0)%nat /\
             failed_steps t4 = (if hw && km && negb df then 1 else 0)%nat /\
             i4 = i3 ++ (if hw && km && negb df
                         then ["Device files not created"] else [])).
  { destruct (hw && km).
    - destruct H4 as (df & (S4 & V4 & F4) & E4). exists df.
      rewrite S4, V4, F4, E4. destruct df; auto.
    - destruct H4 as [-> ->]. exists true. rewrite app_nil_r. auto. }
  destruct H4' as (df & S4 & V4 & F4 & E4).
  assert (H7' : exists dd,
             steps_run t7 = (if py then ["Device Detection"] else []) /\
             verdicts t7 = (if py then 1 else 0)%nat /\
             failed_steps t7 = (if py && negb dd then 1 else 0)%nat /\
             i7 = i6 ++ (if py && negb dd then ["Device detection failed"] else [])).
  { destruct py.
    - destruct H7 as (dd & (S7 & V7 & F7) & E7). exists dd.
      rewrite S7, V7, F7, E7. destruct dd; auto.
    - destruct H7 as [-> ->]. exists true. rewrite app_nil_r. auto. }
  destruct H7' as (dd & S7 & V7 & F7 & E7).
  exists hw, km, mf, df, dm, py, dd, pd.
  split; [use_marks; reflexivity|].
  split; [subst; unfold issues_for; rewrite <- !app_assoc; reflexivity|].
  split.
  - use_marks. subst. destruct hw, km, mf, df, dm, py, dd, pd; reflexivity.
  - use_marks. destruct hw, km, py; reflexivity.
Qed.

Lemma print_issues_done i issues :
  post (DebugWorkflow.print_issues i issues) (fun r _ => r = Ok tt).
Proof.
  revert i. induction issues as [|issue issues IH]; intros i; simpl.
  - apply post_ret. reflexivity.
  - apply post_bind, post_tell. cbv beta iota.
    eapply post_weaken; [apply IH|]. auto.
Qed.

Ltac print_issues_block :=
  idtac;
  lazymatch goal with
  | |- post (DebugWorkflow.print_issues _ _) _ =>
      eapply post_weaken; [apply print_issues_done|intros ? ? ->; cbv beta iota]
  end.

Lemma debug_summary_returns issues :
  post (DebugWorkflow.summary issues)
    (fun r _ => r = Ok (Z.of_nat (length issues))).
Proof. post_auto_with print_issues_block; reflexivity. Qed.

Lemma debug_summary_plain issues : emits plain (DebugWorkflow.summary issues).
Proof. emits_auto. Qed.

(** [main] of [debug_workflow.py], from its steps and its summary *)
Lemma debug_main_run w h n t :
  DebugWorkflow.main w h = (Ok n, t) ->
  exists issues t1 t2,
    DebugWorkflow.steps w h = (Ok issues, t1) /\ t = t1 ++ t2 /\
    n = Z.of_nat (length issues) /\ forallb plain t2 = true.
Proof.
  unfold DebugWorkflow.main. intros H.
  apply bind_ok_inv in H as (issues & t1 & t2 & Hsteps & Hsum & ->).
  exists issues, t1, t2. split; [exact Hsteps|]. split; [reflexivity|].
  pose proof (debug_summary_returns issues (h ++ t1)) as Hr.
  pose proof (debug_summary_plain issues (h ++ t1)) as Hp.
  rewrite Hsum in Hr, Hp. simpl in Hr, Hp. injection Hr as ->. auto.
Qed.

Lemma issues_for_length hw km mf df dm py dd pd :
  (length (issues_for hw km mf df dm py dd pd) <= 6)%nat.
Proof. destruct hw, km, mf, df, dm, py, dd, pd; simpl; lia. Qed.

(** C9: [main] of [debug_workflow.py] returns the number of issues it
    collected, which is the number of failure lines [check_step] printed, and
    the script exits with that status, which is at most 6; when [main] ends
    with an exception, [KeyboardInterrupt] or any other, the script reports
    it and exits with status 1. *)
Theorem C9_exit_status :
  forall w h,
    match DebugWorkflow.main w h with
    | (Ok n, t) =>
        DebugWorkflow.script w h = (Ok n, t) /\
        n = Z.of_nat (failed_steps t) /\
        (n = 0 <-> failed_steps t = 0%nat) /\
        0 <= n <= 6 /\
        exists issues t1,
          DebugWorkflow.steps w h = (Ok issues, t1) /\
          n = Z.of_nat (length issues)
    | (Raise e, t) =>
        exists report,
          DebugWorkflow.script w h = (Ok 1, t ++ [EvPrint report])
    end.
Proof.
  intros w h. pose proof (debug_script_run w h) as Hscript.
  destruct (DebugWorkflow.main w h) as [[n|e] t] eqn:Hmain; [|exact Hscript].
  split; [exact Hscript|].
  destruct (debug_main_run w h n t Hmain) as (issues & t1 & t2 & Hsteps & -> & -> & Hp).
  pose proof (steps_done w h) as Hd. rewrite Hsteps in Hd. simpl in Hd.
  destruct Hd as (hw & km & mf & df & dm & py & dd & pd & _ & Hi & Hf & _).
  assert (E : failed_steps (t1 ++ t2) = length issues).
  { rewrite failed_steps_app, (plain_failed t2 Hp), Hf. lia. }
  rewrite E. split; [reflexivity|]. split; [lia|].
  split.
  - pose proof (issues_for_length hw km mf df dm py dd pd) as Hlen.
    rewrite <- Hi in Hlen. lia.
  - exists issues, t1. auto.
Qed.

(** Ctrl-C during the first command: the script says so and exits with 1. *)
Example debug_workflow_interrupted :
  DebugWorkflow.script Worlds.interrupted []
  = (Ok 1,
     trace (DebugWorkflow.main Worlds.interrupted) []
     ++ [EvPrint [Lit (nl ++ nl ++ "Debugging interrupted by user.")]]).
Proof. vm_compute. reflexivity. Qed.

(** ** What debug_workflow.py does to the machine (C5, X5, X6) *)

Lemma deeds_app t1 t2 : deeds (t1 ++ t2) = deeds t1 ++ deeds t2.
Proof. apply flat_map_app. Qed.

Lemma no_deed_deeds t : forallb no_deed t = true -> deeds t = [].
Proof.
  induction t as [|ev t IH]; simpl; [reflexivity|].
  intros H. apply andb_true_iff in H as [Hev Ht].
  rewrite (IH Ht). destruct ev; try discriminate; reflexivity.
Qed.

Lemma debug_run_command_deeds w command description :
  post (DebugWorkflow.run_command w command description)
    (fun _ t => deeds t = [Ran command]).
Proof.
  intros h. unfold DebugWorkflow.run_command.
  autounfold with scripts.
  unfold bind, try_catch, ask, tell, when, ret. simpl.
  destruct (w_subprocess_run w _ command _) as [[[rc out] err]|e]; simpl.
  - destruct (truthy out), (truthy err); reflexivity.
  - unfold is_Exception. destruct (exn_cls e); reflexivity.
Qed.

Lemma check_step_deeds step_name condition success_msg failure_msg tip :
  post (DebugWorkflow.check_step step_name condition success_msg failure_msg tip)
    (fun r t => r = Ok condition /\ deeds t = []).
Proof. post_auto; split; reflexivity. Qed.

Ltac deeds_block :=
  idtac;
  lazymatch goal with
  | |- post (DebugWorkflow.run_command _ _ _) _ =>
      eapply post_weaken;
      [apply debug_run_command_deeds|intros [[[? ?] ?]|?] ? ?; cbv beta iota]
  | |- post (DebugWorkflow.check_step _ ?c _ _ _) _ =>
      eapply post_weaken;
      [apply check_step_deeds
      |intros ? ? [-> ?]; destruct c eqn:?; cbn [negb]; cbv beta iota]
  end.

Ltac use_deeds :=
  repeat rewrite deeds_app;
  repeat match goal with
         | H : deeds ?t = _ |- _ => rewrite H; clear H
         | H : forallb no_deed ?t = true |- _ => rewrite (no_deed_deeds t H); clear H
         end.

Ltac deeds_close :=
  unfold step_did; split; [use_deeds; reflexivity|rewrite ?app_nil_r; reflexivity].

Ltac deeds_leaf :=
  try exact I;
  first [solve [deeds_close]
        |exists true; solve [deeds_close]
        |exists false; solve [deeds_close]].

Lemma step1_did w issues :
  post (DebugWorkflow.step1_hardware w issues)
    (fun r t =>
       match r with
       | Ok (ok, issues') =>
           step_did (fun _ => [Ran "lsusb | grep 1532"])
             "No hardware detected" issues ok issues' t
       | Raise _ => True
       end).
Proof. post_auto_for no_deed deeds_block; deeds_leaf. Qed.

Lemma step2_did w issues :
  post (DebugWorkflow.step2_kernel_modules w issues)
    (fun r t =>
       match r with
       | Ok (ok, issues') =>
           step_did (fun ok => Ran "lsmod | grep razer"
                               :: (if ok then []
                                   else [Ran "dkms status openrazer-driver"]))
             "Kernel modules not loaded" issues ok issues' t
       | Raise _ => True
       end).
Proof. post_auto_for no_deed deeds_block; deeds_leaf. Qed.

Lemma step3_did w issues :
  post (DebugWorkflow.step3_module_files w issues)
    (fun r t =>
       match r with
       | Ok issues' =>
           exists ok,
             step_did (fun _ => [Ran "find /lib/modules/$(uname -r) -name '*razer*'"])
               "Module files missing" issues ok issues' t
       | Raise _ => True
       end).
Proof. post_auto_for no_deed deeds_block; deeds_leaf. Qed.

Lemma step4_did w has_hardware has_modules issues :
  post (DebugWorkflow.step4_device_files w has_hardware has_modules issues)
    (fun r t =>
       match r with
       | Ok issues' =>
           if has_hardware && has_modules then
             exists ok,
               step_did
                 (fun _ =>
                    [Ran "find /sys/bus/hid/drivers/razer* -name '*1532*' 2>/dev/null"])
                 "Device files not created" issues ok issues' t
           else deeds t = [] /\ issues' = issues
       | Raise _ => True
       end).
Proof.
  destruct has_hardware, has_modules;
    post_auto_for no_deed deeds_block; try deeds_leaf; split; reflexivity.
Qed.

Lemma step5_did w issues :
  post (DebugWorkflow.step5_daemon w issues)
    (fun r t =>
       match r with
       | Ok issues' =>
           exists ok,
             step_did
               (fun ok =>
                  Ran "systemctl is-active openrazer-daemon"
                  :: (if ok then []
                      else [Ran "journalctl -u openrazer-daemon --no-pager -n 10"]))
               "Daemon not running" issues ok issues' t
       | Raise _ => True
       end).
Proof. post_auto_for no_deed deeds_block; deeds_leaf. Qed.

Lemma step6_did w issues :
  post (DebugWorkflow.step6_python_library w issues)
    (fun r t =>
       match r with
       | Ok (ok, issues') =>
           step_did (fun _ => [Ran DebugWorkflow.import_command])
             "Python library import failed" issues ok issues' t
       | Raise _ => True
       end).
Proof. post_auto_for no_deed deeds_block; deeds_leaf. Qed.

Lemma step7_did w python_works issues :
  post (DebugWorkflow.step7_device_detection w python_works issues)
    (fun r t =>
       match r with
       | Ok issues' =>
           if python_works then
             exists ok,
               step_did
                 (fun _ =>
                    [Wrote "/tmp/test_devices.py" DebugWorkflow.test_script;
                     Ran "python3 /tmp/test_devices.py";
                     Removed "/tmp/test_devices.py"])
                 "Device detection failed" issues ok issues' t
           else deeds t = [] /\ issues' = issues
       | Raise _ => True
       end).
Proof.
  destruct python_works;
    post_auto_for no_deed deeds_block; try deeds_leaf; split; reflexivity.
Qed.

Lemma step8_did w issues :
  post (DebugWorkflow.step8_permissions w issues)
    (fun r t =>
       match r with
       | Ok issues' =>
           exists ok,
             step_did (fun _ => [Ran "groups | grep plugdev"])
               "User not in plugdev group" issues ok issues' t
       | Raise _ => True
       end).
Proof. post_auto_for no_deed deeds_block; deeds_leaf. Qed.

Lemma steps_did w :
  post (DebugWorkflow.steps w)
    (fun r t =>
       match r with
       | Ok issues =>
           exists hardware modules files device_files daemon python detection plugdev,
             issues = issues_for hardware modules files device_files daemon python
                        detection plugdev /\
             deeds t = deeds_of_checks hardware modules daemon python
       | Raise _ => True
       end).
Proof.
  unfold DebugWorkflow.steps.
  do 5 (apply post_bind, post_tell; cbv beta iota).
  by_spec step1_did. intros [[hw i1]|] t1; [intros [D1 E1]|exact (fun _ => I)].
  by_spec step2_did. intros [[km i2]|] t2; [intros [D2 E2]|exact (fun _ => I)].
  by_spec step3_did. intros [i3|] t3; [intros (mf & D3 & E3)|exact (fun _ => I)].
  by_spec (step4_did w hw km). intros [i4|] t4 H4; [|exact I].
  by_spec step5_did. intros [i5|] t5; [intros (dm & D5 & E5)|exact (fun _ => I)].
  by_spec step6_did. intros [[py i6]|] t6; [intros [D6 E6]|exact (fun _ => I)].
  by_spec (step7_did w py). intros [i7|] t7 H7; [|exact I].
  eapply post_weaken; [apply step8_did|]. cbv beta.
  intros [i8|] t8; [intros (pd & D8 & E8)|exact (fun _ => I)].
  assert (H4' : exists df,
             deeds t4 = (if hw && km
                         then [Ran "find /sys/bus/hid/drivers/razer* -name '*1532*' 2>/dev/null"]
                         else []) /\
             i4 = i3 ++ (if hw && km && negb df
                         then ["Device files not created"] else [])).
  { destruct (hw && km).
    - destruct H4 as (df & D4 & E4). exists df. rewrite D4, E4. destruct df; auto.
    - destruct H4 as [-> ->]. exists true. rewrite app_nil_r. auto. }
  destruct H4' as (df & D4 & E4).
  assert (H7' : exists dd,
             deeds t7 = (if py
                         then [Wrote "/tmp/test_devices.py" DebugWorkflow.test_script;
                               Ran "python3 /tmp/test_devices.py";
                               Removed "/tmp/test_devices.py"]
                         else []) /\
             i7 = i6 ++ (if py && negb dd then ["Device detection failed"] else [])).
  { destruct py.
    - destruct H7 as (dd & D7 & E7). exists dd. rewrite D7, E7. destruct dd; auto.
    - destruct H7 as [-> ->]. exists true. rewrite app_nil_r. auto. }
  destruct H7' as (dd & D7 & E7).
  exists hw, km, mf, df, dm, py, dd, pd. split.
  - subst. unfold issues_for. rewrite <- !app_assoc. reflexivity.
  - repeat rewrite deeds_app. rewrite D1, D2, D3, D4, D5, D6, D7, D8.
    destruct hw, km, dm, py; reflexivity.
Qed.

Lemma deeds_of_issues hw km mf df dm py dd pd :
  deeds_for (issues_for hw km mf df dm py dd pd) = deeds_of_checks hw km dm py.
Proof. destruct hw, km, mf, df, dm, py, dd, pd; reflexivity. Qed.

Lemma debug_summary_no_deed issues : emits no_deed (DebugWorkflow.summary issues).
Proof. emits_auto. Qed.

(** [main] goes through its summary once its steps are done *)
Lemma debug_main_of_steps w h issues t :
  DebugWorkflow.steps w h = (Ok issues, t) ->
  exists t2,
    DebugWorkflow.script w h = (Ok (Z.of_nat (length issues)), t ++ t2) /\
    forallb no_deed t2 = true.
Proof.
  intros Hsteps.
  pose proof (debug_summary_returns issues (h ++ t)) as Hr.
  pose proof (debug_summary_no_deed issues (h ++ t)) as Hq.
  destruct (DebugWorkflow.summary issues (h ++ t)) as [r t2] eqn:Hsum.
  simpl in Hr, Hq. subst r. exists t2. split; [|exact Hq].
  unfold DebugWorkflow.script. rewrite try_run, bind_run.
  unfold DebugWorkflow.main. rewrite bind_run, Hsteps.
  cbn [fst snd]. unfold history in *. rewrite Hsum. cbn [fst snd].
  unfold ret. rewrite app_nil_r. reflexivity.
Qed.

(** ** The order of the checks (C5) *)

Lemma test_system_headers w h status t :
  TestSystem.main w h = (Ok status, t) -> headers t = test_headers.
Proof.
  unfold TestSystem.main. intros H.
  apply bind_ok_inv in H as ([tests_passed total_tests] & t1 & t2 & Ht & Hs & ->).
  pose proof (tests_counted w h) as Hc. rewrite Ht in Hc. simpl in Hc.
  destruct Hc as (Hh & _).
  destruct (test_summary_run tests_passed total_tests (h ++ t1)) as (rest & Hrun & Hp).
  rewrite Hrun in Hs. injection Hs as _ Ht2.
  assert (E2 : headers t2 = []).
  { rewrite <- Ht2. pose proof (plain_headers rest Hp) as Hrest.
    unfold headers in *. simpl. exact Hrest. }
  rewrite headers_app, Hh, E2. reflexivity.
Qed.

(** C5, as the specification has it, fails: the sequence of checks is not
    the same on every run.  On a healthy machine [debug_workflow.py] runs
    eight steps; on a bare one it leaves out the device files and the device
    detection. *)
Lemma C5_counterexample :
  steps_run (trace (DebugWorkflow.script Worlds.healthy) [])
  = ["Hardware Detection"; "Kernel Module Loading"; "Module Files";
     "Device Files"; "Daemon Status"; "Python Library"; "Device Detection";
     "User Permissions"] /\
  steps_run (trace (DebugWorkflow.script Worlds.bare) [])
  = ["Hardware Detection"; "Kernel Module Loading"; "Module Files";
     "Daemon Status"; "Python Library"; "User Permissions"].
Proof. split; vm_compute; reflexivity. Qed.

Lemma checks_app t1 t2 : checks (t1 ++ t2) = checks t1 ++ checks t2.
Proof. apply flat_map_app. Qed.

Lemma no_check_checks t : forallb no_check t = true -> checks t = [].
Proof.
  induction t as [|ev t IH]; intros H; [reflexivity|].
  cbn [forallb] in H. apply andb_true_iff in H as [Hev Ht].
  change (ev :: t) with ([ev] ++ t).
  rewrite checks_app, (IH Ht), app_nil_r.
  unfold no_check in Hev. destruct (checks [ev]); [reflexivity|discriminate].
Qed.

Lemma run_command_checked w command :
  post (TestSystem.run_command w command)
    (fun _ t => checks t = [Shell command]).
Proof. unfold TestSystem.run_command. post_auto; reflexivity. Qed.

Ltac run_command_block :=
  idtac;
  lazymatch goal with
  | |- post (TestSystem.run_command _ _) _ =>
      eapply post_weaken;
      [apply run_command_checked|intros [[[? ?] ?]|?] ? ?; cbv beta iota]
  end.

Lemma lighting_test_no_check w device :
  emits no_check (TestSystem.lighting_test w device).
Proof. emits_auto. Qed.

Ltac lighting_no_check_block :=
  idtac;
  lazymatch goal with
  | |- post (TestSystem.lighting_test _ _) _ =>
      apply (post_emits no_check);
      [apply lighting_test_no_check|intros [[]|?] ? ?; cbv beta iota]
  end.

(** The loop of test 4 over the devices *)
Lemma names_and_serials_read w devices :
  post (for_each devices
          (fun device =>
             bind (getattr w device "name")
               (fun name =>
                  bind (getattr w device "serial")
                    (fun serial =>
                       print [Lit "  - "; Arg (py_str name); Lit " (Serial: ";
                              Arg (py_str serial); Lit ")"]))))
    (fun _ t => names_and_serials devices (checks t)).
Proof.
  induction devices as [|device devices IH]; cbn [for_each].
  - apply post_ret. constructor.
  - apply post_bind, post_bind, post_ask. intros [name|e]; cbv beta iota;
      [|constructor].
    apply post_bind, post_ask. intros [serial|e]; cbv beta iota;
      [|constructor].
    apply post_tell. cbv beta iota.
    eapply post_weaken; [apply IH|]. intros r t H.
    repeat rewrite checks_app. simpl. constructor. exact H.
Qed.

Ltac listing_block :=
  idtac;
  lazymatch goal with
  | |- post (for_each _ _) _ =>
      eapply post_weaken;
      [apply names_and_serials_read|intros [[]|?] ? ?; cbv beta iota]
  | |- post (if Z.of_nat (length ?l) >? 0 then _ else _) _ =>
      destruct l;
      [change (Z.of_nat (@length pyval []) >? 0) with false
      |match goal with
       | |- context [Z.of_nat (length (?d :: ?ds)) >? 0] =>
           change (Z.of_nat (length (d :: ds)) >? 0) with true
       end];
      cbv iota
  end.

Ltac checks_block :=
  first [run_command_block | lighting_no_check_block].

Ltac device_checks_block :=
  first [listing_block | lighting_no_check_block].

(** The checks of a trace that is known piece by piece *)
Ltac checks_eval :=
  repeat rewrite checks_app;
  repeat match goal with
         | H : forallb no_check ?t = true |- _ => rewrite (no_check_checks t H)
         | H : checks ?t = _ |- _ => rewrite H
         end;
  simpl.

Ltac checked_leaf :=
  unfold checked; cbv beta iota;
  first [exact I|checks_eval; reflexivity].

Ltac device_checks_leaf :=
  unfold checked; cbv beta iota;
  first
    [ exact I
    | checks_eval; rewrite ?app_nil_r;
      eexists; split; [reflexivity|];
      first [solve [repeat constructor]|apply devices_read; assumption] ].

Lemma test1_checked w tests_passed total_tests :
  post (TestSystem.test1_razer_devices w tests_passed total_tests)
    (checked (fun c => c = [Header (nl ++ "1. Checking for Razer devices...");
                            Shell "lsusb | grep 1532"])).
Proof. post_auto_for no_check checks_block; checked_leaf. Qed.

Lemma test2_checked w tests_passed total_tests :
  post (TestSystem.test2_kernel_modules w tests_passed total_tests)
    (checked (fun c => c = [Header (nl ++ "2. Checking kernel modules...");
                            Shell "lsmod | grep razer"])).
Proof. post_auto_for no_check checks_block; checked_leaf. Qed.

Lemma test3_checked w tests_passed total_tests :
  post (TestSystem.test3_python_library w tests_passed total_tests)
    (checked (fun c => c = [Header (nl ++ "3. Checking Python library...");
                            FindSpec "openrazer.client"])).
Proof. post_auto_for no_check checks_block; checked_leaf. Qed.

Lemma test4_checked w tests_passed total_tests :
  post (TestSystem.test4_device_detection w tests_passed total_tests)
    (checked (fun c => exists d,
                  c = Header (nl ++ "4. Testing device detection...") :: d /\
                  device_detection names_and_serials d)).
Proof.
  unfold TestSystem.test4_device_detection.
  post_auto_for no_check device_checks_block; device_checks_leaf.
Qed.

Lemma test5_checked w tests_passed total_tests :
  post (TestSystem.test5_daemon_status w tests_passed total_tests)
    (checked (fun c => c = [Header (nl ++ "5. Checking daemon status...");
                            Shell "systemctl is-active openrazer-daemon"])).
Proof. post_auto_for no_check checks_block; checked_leaf. Qed.

Lemma test6_checked w tests_passed total_tests :
  post (TestSystem.test6_device_functionality w tests_passed total_tests)
    (checked (fun c => exists d,
                  c = Header (nl ++ "6. Testing basic device functionality...") :: d /\
                  device_detection first_device_read d)).
Proof.
  unfold TestSystem.test6_device_functionality.
  post_auto_for no_check device_checks_block; device_checks_leaf.
Qed.

Lemma tests_checked w :
  post (TestSystem.tests w)
    (checked (fun c => exists detection4 detection6,
                  c = test_system_checks detection4 detection6 /\
                  device_detection names_and_serials detection4 /\
                  device_detection first_device_read detection6)).
Proof.
  unfold TestSystem.tests, checked.
  do 2 (apply post_bind, post_tell; cbv beta iota).
  by_spec test1_checked. intros [[p1 n1]|] t1 H1; [|exact I].
  by_spec test2_checked. intros [[p2 n2]|] t2 H2; [|exact I].
  by_spec test3_checked. intros [[p3 n3]|] t3 H3; [|exact I].
  by_spec test4_checked. intros [[p4 n4]|] t4 H4; [|exact I].
  by_spec test5_checked. intros [[p5 n5]|] t5 H5; [|exact I].
  eapply post_weaken; [apply test6_checked|]. cbv beta.
  intros [[p6 n6]|] t6 H6; [|exact I].
  simpl in H1, H2, H3, H4, H5, H6.
  destruct H4 as (d4 & H4 & D4). destruct H6 as (d6 & H6 & D6).
  exists d4, d6. split; [|split; assumption].
  repeat rewrite checks_app. rewrite H1, H2, H3, H4, H5, H6.
  unfold test_system_checks. simpl. reflexivity.
Qed.

Lemma test_summary_no_check p n : emits no_check (TestSystem.summary p n).
Proof. emits_auto. Qed.

Lemma test_system_checked w h status t :
  TestSystem.main w h = (Ok status, t) ->
  exists detection4 detection6,
    checks t = test_system_checks detection4 detection6 /\
    device_detection names_and_serials detection4 /\
    device_detection first_device_read detection6.
Proof.
  unfold TestSystem.main. intros H.
  apply bind_ok_inv in H as ([tests_passed total_tests] & t1 & t2 & Ht & Hs & ->).
  pose proof (tests_checked w h) as Hc. rewrite Ht in Hc. simpl in Hc.
  destruct Hc as (d4 & d6 & Hc & D4 & D6).
  exists d4, d6. split; [|split; assumption].
  pose proof (test_summary_no_check tests_passed total_tests (h ++ t1)) as Hn.
  rewrite Hs in Hn. simpl in Hn.
  rewrite checks_app, Hc, (no_check_checks t2 Hn), app_nil_r. reflexivity.
Qed.

(** C5, amended: a run of [test_system.py] that reaches its summary has run
    its six tests in the order of their numbers, each with its header first
    and then its check: [lsusb | grep 1532] for the devices on the USB bus,
    [lsmod | grep razer] for the kernel modules, the search for
    [openrazer.client] for the library, the device detection (the import of
    [DeviceManager], a manager, its devices, and the name and serial number
    of each), [systemctl is-active openrazer-daemon] for the daemon, and the
    device functions (the import, a manager and its devices again, and name,
    type, firmware and driver version of the first device); tests 4 and 6
    stop at the first call that raises or at an empty list of devices, and
    no test runs another command, looks for another module or reads another
    of these properties.  A run of [debug_workflow.py] that reaches its
    summary has announced, in this order, hardware detection, kernel modules,
    module files, device files when hardware and modules were both found,
    daemon status, Python library, device detection when the library could
    be imported, and user permissions, has printed one verdict, a success or
    a failure line, for each step it announced, and has run the commands and
    written and removed the file that go with the issues it found. *)
Theorem C5_order_of_checks :
  forall w h,
    (forall status t,
        TestSystem.main w h = (Ok status, t) ->
        headers t = test_headers /\
        exists detection4 detection6,
          checks t = test_system_checks detection4 detection6 /\
          device_detection names_and_serials detection4 /\
          device_detection first_device_read detection6) /\
    (forall issues t,
        DebugWorkflow.steps w h = (Ok issues, t) ->
        exists hardware modules files device_files daemon python detection plugdev,
          steps_run t = steps_for hardware modules python /\
          issues = issues_for hardware modules files device_files daemon python
                     detection plugdev /\
          verdicts t = length (steps_run t) /\
          deeds t = deeds_for issues).
Proof.
  intros w h. split.
  - intros status t H. split.
    + apply (test_system_headers w h status t H).
    + apply (test_system_checked w h status t H).
  - intros issues t Hsteps.
    pose proof (steps_done w h) as Hd. rewrite Hsteps in Hd. simpl in Hd.
    destruct Hd as (hw & km & mf & df & dm & py & dd & pd & Hs & Hi & _ & Hv).
    exists hw, km, mf, df, dm, py, dd, pd.
    split; [exact Hs|]. split; [exact Hi|]. split; [exact Hv|].
    pose proof (steps_did w h) as Hdid. rewrite Hsteps in Hdid. simpl in Hdid.
    destruct Hdid as (hw' & km' & mf' & df' & dm' & py' & dd' & pd' & Hi' & Hdeeds).
    rewrite Hdeeds, Hi'. symmetry. apply deeds_of_issues.
Qed.

(** On the healthy machine both scripts run all their checks. *)
Lemma C5_order_of_checks_witness :
  (headers (trace (TestSystem.main Worlds.healthy) []) = test_headers /\
   exists detection4 detection6,
     checks (trace (TestSystem.main Worlds.healthy) [])
     = test_system_checks detection4 detection6 /\
     device_detection names_and_serials detection4 /\
     device_detection first_device_read detection6) /\
  exists hardware modules files device_files daemon python detection plugdev,
    steps_run (trace (DebugWorkflow.steps Worlds.healthy) [])
    = steps_for hardware modules python /\
    @nil string
    = issues_for hardware modules files device_files daemon python
        detection plugdev /\
    verdicts (trace (DebugWorkflow.steps Worlds.healthy) [])
    = length (steps_run (trace (DebugWorkflow.steps Worlds.healthy) [])) /\
    deeds (trace (DebugWorkflow.steps Worlds.healthy) []) = deeds_for [].
Proof.
  destruct (C5_order_of_checks Worlds.healthy []) as [Hts Hdw]. split.
  - apply (Hts 0). vm_compute. reflexivity.
  - apply Hdw. vm_compute. reflexivity.
Defined.

(** The checks of [test_system.py] on the healthy machine and on the bare
    one, where the import of [DeviceManager] raises in tests 4 and 6 *)
Example checks_of_test_system :
  checks (trace (TestSystem.main Worlds.healthy) [])
  = test_system_checks
      [ImportFrom "openrazer.client" "DeviceManager" true;
       NewManager "DeviceManager" true;
       ListDevices (Some [Worlds.keyboard]); ListDevices (Some [Worlds.keyboard]);
       ReadAttr Worlds.keyboard "name" true;
       ReadAttr Worlds.keyboard "serial" true]
      [ImportFrom "openrazer.client" "DeviceManager" true;
       NewManager "DeviceManager" true;
       ListDevices (Some [Worlds.keyboard]); ListDevices (Some [Worlds.keyboard]);
       ReadAttr Worlds.keyboard "name" true;
       ReadAttr Worlds.keyboard "type" true;
       ReadAttr Worlds.keyboard "firmware_version" true;
       ReadAttr Worlds.keyboard "driver_version" true] /\
  checks (trace (TestSystem.main Worlds.bare) [])
  = test_system_checks
      [ImportFrom "openrazer.client" "DeviceManager" false]
      [ImportFrom "openrazer.client" "DeviceManager" false].
Proof. split; vm_compute; reflexivity. Qed.

(** ** The brightness tests (C10) *)

Lemma same_object_refl o : same_object o o = true.
Proof.
  destruct o; simpl; auto using Bool.eqb_reflx, Z.eqb_refl, String.eqb_refl,
    Nat.eqb_refl.
Qed.

Lemma printed_line s t :
  In (EvPrint [Lit s]) t <-> existsb (line_is s) t = true.
Proof.
  rewrite existsb_exists. split.
  - intros H. exists (EvPrint [Lit s]). split; [exact H|].
    simpl. apply String.eqb_refl.
  - intros (ev & Hin & Hline).
    destruct ev as [msg| | | | | | | | | | | | | | | |]; try discriminate.
    destruct msg as [|[s'|s'] [|f msg]]; try discriminate.
    simpl in Hline. apply String.eqb_eq in Hline. subst. exact Hin.
Qed.

Ltac forget_units := repeat match goal with u : unit |- _ => destruct u end.

(** The lighting test of [test_system.py] when no call raises *)
Lemma lighting_test_quiet w device h :
  let t := trace (TestSystem.lighting_test w device) h in
  forallb quiet t = true ->
  exists fx1 m1 original fx2 m2 fx3 m3 read fx4 m4,
    t = save_set_read_restore device fx1 m1 original fx2 m2 fx3 m3 read fx4 m4.
Proof.
  unfold trace, TestSystem.lighting_test, TestSystem.led_matrix,
    save_set_read_restore, save_set_read, led_matrix_read, brightness_line.
  run_block; forget_units; intros H;
    first [discriminate H|do 10 eexists; simpl;
           match goal with E : py_eq _ _ = _ |- _ => rewrite E end;
           reflexivity].
Qed.

(** The brightness test of the capability test when no call raises *)
Lemma brightness_test_quiet w matrix h :
  let t := trace (DeviceCapabilities.brightness_test w matrix) h in
  forallb quiet t = true ->
  exists original read, t = capability_brightness_run matrix original read.
Proof.
  unfold trace, DeviceCapabilities.brightness_test, capability_brightness_run.
  run_block; forget_units; intros H;
    first [discriminate H|do 2 eexists; reflexivity].
Qed.

(** What the two runs leave in the objects *)
Lemma restored_after_lighting device fx1 m1 original fx2 m2 fx3 m3 read fx4 m4 :
  let t := save_set_read_restore device fx1 m1 original fx2 m2 fx3 m3 read fx4 m4 in
  (forall current, brightness_of m4 current t = original) /\
  (forall o current,
      same_object m2 o = false -> same_object m4 o = false ->
      brightness_of o current t = current).
Proof.
  unfold save_set_read_restore, save_set_read, led_matrix_read, brightness_line.
  split.
  - intros current. simpl. rewrite same_object_refl.
    destruct (same_object m2 m4); reflexivity.
  - intros o current H2 H4. simpl. rewrite H2, H4. reflexivity.
Qed.

Lemma restored_after_capability matrix original read :
  let t := capability_brightness_run matrix original read in
  (forall current, brightness_of matrix current t = original) /\
  (forall o current,
      same_object matrix o = false -> brightness_of o current t = current).
Proof.
  unfold capability_brightness_run. split.
  - intros current. simpl. rewrite same_object_refl. reflexivity.
  - intros o current H. simpl. rewrite H. reflexivity.
Qed.

(** The line of success of the lighting test comes after a value read
    back that equals 128. *)
Lemma lighting_line_read_back w device h :
  let t := trace (TestSystem.lighting_test w device) h in
  In (EvPrint TestSystem.brightness_ok) t ->
  exists fx1 m1 original fx2 m2 fx3 m3 read rest,
    t = save_set_read device fx1 m1 original fx2 m2 fx3 m3 read ++ rest /\
    py_eq read (VInt 128) = true.
Proof.
  unfold trace, TestSystem.lighting_test, TestSystem.led_matrix,
    TestSystem.brightness_ok, TestSystem.brightness_bad,
    save_set_read, led_matrix_read.
  run_block; forget_units; intros H;
    repeat (destruct H as [H|H]; [try discriminate H|]);
    try contradiction;
    do 9 eexists; (split; [reflexivity|assumption]).
Qed.

(** Solving [l = a ++ [x; y; z] ++ b] for a list [l] that is known *)
Ltac split_ops H :=
  lazymatch type of H with
  | _ = ?a ++ _ =>
      destruct a; simpl in H;
      [try (injection H as; subst)
      |first [discriminate H
             |let H' := fresh "H" in
              injection H as H' H; try discriminate H'; split_ops H]]
  end.

(** A value read back that equals 128 is followed by the line of
    success. *)
Lemma lighting_read_back_line w device h a m1 original m2 m3 read b :
  let t := trace (TestSystem.lighting_test w device) h in
  brightness_ops t
  = a ++ [EvGetAttr m1 "brightness" (Ok original);
          EvSetAttr m2 "brightness" (VInt 128) (Ok tt);
          EvGetAttr m3 "brightness" (Ok read)] ++ b ->
  py_eq read (VInt 128) = true ->
  In (EvPrint TestSystem.brightness_ok) t.
Proof.
  unfold trace, TestSystem.lighting_test, TestSystem.led_matrix,
    TestSystem.brightness_ok, TestSystem.brightness_bad, brightness_ops.
  run_block; forget_units; intros H Heq.
  all: split_ops H.
  all: try discriminate.
  all: try congruence.
  all: simpl; auto 20.
Qed.

Lemma inert_no_line t :
  forallb inert t = true -> existsb (line_is brightness_ok_text) t = false.
Proof.
  induction t as [|ev t IH]; simpl; intros H; [reflexivity|].
  apply andb_true_iff in H as [Hev Ht]. rewrite (IH Ht).
  unfold inert in Hev. apply andb_true_iff in Hev as [Hline _].
  apply negb_true_iff in Hline. rewrite Hline. reflexivity.
Qed.

Lemma inert_not_printed t :
  forallb inert t = true -> ~ In (EvPrint TestSystem.brightness_ok) t.
Proof.
  intros H Hin. apply printed_line in Hin.
  fold brightness_ok_text in Hin. rewrite (inert_no_line t H) in Hin.
  discriminate.
Qed.

Lemma inert_no_ops t : forallb inert t = true -> brightness_ops t = [].
Proof.
  unfold brightness_ops.
  induction t as [|ev t IH]; simpl; intros H; [reflexivity|].
  apply andb_true_iff in H as [Hev Ht]. rewrite (IH Ht).
  unfold inert in Hev. apply andb_true_iff in Hev as [_ Hop].
  apply negb_true_iff in Hop. rewrite Hop. reflexivity.
Qed.

Lemma brightness_ops_app t1 t2 :
  brightness_ops (t1 ++ t2) = brightness_ops t1 ++ brightness_ops t2.
Proof. apply filter_app. Qed.

Lemma one_lighting_test_after w pre t :
  forallb inert pre = true -> one_lighting_test w t ->
  one_lighting_test w (pre ++ t).
Proof.
  intros Hpre [Ht|(before & manager & device & others & since & h & after
                   & -> & Hb & Hs & Hl & Ha)].
  - left. rewrite forallb_app, Hpre, Ht. reflexivity.
  - right. exists (pre ++ before), manager, device, others, since, h, after.
    rewrite <- app_assoc. split; [reflexivity|].
    rewrite forallb_app, Hpre, Hb. auto.
Qed.

Lemma one_lighting_test_before w t post :
  one_lighting_test w t -> forallb inert post = true ->
  one_lighting_test w (t ++ post).
Proof.
  intros [Ht|(before & manager & device & others & since & h & after
              & -> & Hb & Hs & Hl & Ha)] Hpost.
  - left. rewrite forallb_app, Hpost, Ht. reflexivity.
  - right. exists before, manager, device, others, since, h, (after ++ post).
    split.
    + rewrite <- app_assoc. simpl. rewrite <- !app_assoc. reflexivity.
    + rewrite forallb_app, Hpost, Ha. auto.
Qed.

Lemma lighting_test_traced w device :
  post (TestSystem.lighting_test w device)
    (fun _ t => exists h, t = trace (TestSystem.lighting_test w device) h).
Proof. intros h. exists h. reflexivity. Qed.

Ltac lighting_traced_block :=
  idtac;
  lazymatch goal with
  | |- post (TestSystem.lighting_test _ _) _ =>
      eapply post_weaken;
      [apply lighting_test_traced|intros [[]|?] ? [? ->]; cbv beta iota]
  end.

Ltac inert_solve :=
  repeat rewrite forallb_app;
  repeat match goal with
         | H : forallb inert ?t = true |- _ => rewrite H
         end;
  reflexivity.

(** Test 6 up to its lighting test: eleven events after the devices were
    listed *)
Ltac lighting_leaf :=
  repeat rewrite <- app_assoc; cbn [app];
  lazymatch goal with
  | |- one_lighting_test _
         (?a :: ?b :: ?c :: ?d :: EvDevices ?m (Ok (?device :: ?others))
          :: ?e1 :: ?e2 :: ?e3 :: ?e4 :: ?e5 :: ?e6 :: ?e7 :: ?e8 :: ?e9
          :: ?e10 :: ?e11 :: trace (TestSystem.lighting_test _ ?device) ?h
          ++ ?after) =>
      right;
      exists [a; b; c; d], m, device, others,
        [e1; e2; e3; e4; e5; e6; e7; e8; e9; e10; e11], h, after;
      repeat split; reflexivity
  | |- one_lighting_test _
         (?a :: ?b :: ?c :: ?d :: EvDevices ?m (Ok (?device :: ?others))
          :: ?e1 :: ?e2 :: ?e3 :: ?e4 :: ?e5 :: ?e6 :: ?e7 :: ?e8 :: ?e9
          :: ?e10 :: ?e11 :: trace (TestSystem.lighting_test _ ?device) ?h) =>
      right;
      exists [a; b; c; d], m, device, others,
        [e1; e2; e3; e4; e5; e6; e7; e8; e9; e10; e11], h, [];
      rewrite app_nil_r; repeat split; reflexivity
  | |- _ => left; solve [inert_solve]
  end.

Lemma test6_one_lighting_test w tests_passed total_tests :
  post (TestSystem.test6_device_functionality w tests_passed total_tests)
    (fun _ t => one_lighting_test w t).
Proof. post_auto_for inert lighting_traced_block; lighting_leaf. Qed.

Lemma test1_inert w p n : emits inert (TestSystem.test1_razer_devices w p n).
Proof. emits_auto. Qed.

Lemma test2_inert w p n : emits inert (TestSystem.test2_kernel_modules w p n).
Proof. emits_auto. Qed.

Lemma test3_inert w p n : emits inert (TestSystem.test3_python_library w p n).
Proof. emits_auto. Qed.

Lemma test4_inert w p n : emits inert (TestSystem.test4_device_detection w p n).
Proof. emits_auto. Qed.

Lemma test5_inert w p n : emits inert (TestSystem.test5_daemon_status w p n).
Proof. emits_auto. Qed.

Lemma test_summary_inert p n : emits inert (TestSystem.summary p n).
Proof. emits_auto. Qed.

Ltac inert_walk :=
  first
    [ assumption
    | left; solve [inert_solve]
    | apply one_lighting_test_after; [solve [inert_solve]|inert_walk]
    | apply one_lighting_test_before; [assumption|solve [inert_solve]] ].

Ltac walk_leaf := repeat rewrite <- app_assoc; inert_walk.

Ltac by_emits lemma :=
  apply post_bind, (post_emits inert); [apply lemma|];
  intros [[? ?]|?] ? ?; cbv beta iota; [|walk_leaf].

Lemma test_system_one_lighting_test w :
  post (TestSystem.main w) (fun _ t => one_lighting_test w t).
Proof.
  unfold TestSystem.main, TestSystem.tests.
  apply post_bind.
  do 2 (apply post_bind, post_tell; cbv beta iota).
  by_emits test1_inert. by_emits test2_inert. by_emits test3_inert.
  by_emits test4_inert. by_emits test5_inert.
  eapply post_weaken; [apply test6_one_lighting_test|]. cbv beta.
  intros [[p6 n6]|e] t6 H6; [|walk_leaf].
  apply (post_emits inert); [apply test_summary_inert|].
  intros r ts Hs.
  rewrite <- !app_assoc.
  do 7 (apply one_lighting_test_after; [solve [inert_solve]|]).
  apply one_lighting_test_before; assumption.
Qed.

Lemma in_stretch (ev : event) before listing since mid after :
  In ev (before ++ listing :: since ++ mid ++ after) ->
  ~ In ev before -> ev <> listing -> ~ In ev since -> ~ In ev after ->
  In ev mid.
Proof.
  intros H Hb Hl Hs Ha.
  apply in_app_or in H as [H|[H|H]]; [contradiction|congruence|].
  apply in_app_or in H as [H|H]; [contradiction|].
  apply in_app_or in H as [H|H]; [exact H|contradiction].
Qed.

(** The line of success in a run of [test_system.py] *)
Lemma success_line_read_back w h :
  let t := trace (TestSystem.main w) h in
  In (EvPrint TestSystem.brightness_ok) t <->
  exists device read, read_back device read t /\ py_eq read (VInt 128) = true.
Proof.
  intros t.
  destruct (test_system_one_lighting_test w h)
    as [Hinert|(before & manager & device & others & since & h' & after
                & Ht & Hb & Hs & Hl & Ha)];
    fold (trace (TestSystem.main w) h) in *; fold t in Hinert || fold t in Ht.
  - split.
    + intros H. destruct (inert_not_printed t Hinert H).
    + intros (device & read & (b & m & o & s & fx1 & m1 & original & fx2 & m2
                               & fx3 & m3 & a & E & _) & _).
      apply (f_equal brightness_ops) in E.
      rewrite (inert_no_ops t Hinert) in E.
      rewrite brightness_ops_app in E. simpl in E.
      rewrite !brightness_ops_app in E. simpl in E.
      destruct (brightness_ops b); destruct (brightness_ops s); discriminate E.
  - split.
    + intros H. rewrite Ht in H.
      apply in_stretch in H;
        [|apply inert_not_printed; assumption|discriminate
         |apply inert_not_printed; assumption
         |apply inert_not_printed; assumption].
      apply lighting_line_read_back in H
        as (fx1 & m1 & original & fx2 & m2 & fx3 & m3 & read & rest & E & Heq).
      exists device, read. split; [|exact Heq].
      exists before, manager, others, since, fx1, m1, original, fx2, m2, fx3, m3,
        (rest ++ after).
      split; [|exact Hl].
      rewrite Ht. unfold trace in E |- *. rewrite E, <- app_assoc. reflexivity.
    + intros (device' & read & (b & m & o & s & fx1 & m1 & original & fx2 & m2
                                & fx3 & m3 & a & E & _) & Heq).
      assert (Hops : brightness_ops t
                     = brightness_ops (trace (TestSystem.lighting_test w device) h')).
      { rewrite Ht, brightness_ops_app. simpl.
        rewrite !brightness_ops_app.
        rewrite (inert_no_ops before Hb), (inert_no_ops since Hs),
          (inert_no_ops after Ha), app_nil_r. reflexivity. }
      apply (f_equal brightness_ops) in E. rewrite Hops in E.
      rewrite brightness_ops_app in E. simpl in E.
      rewrite !brightness_ops_app in E. simpl in E.
      rewrite app_assoc in E.
      apply lighting_read_back_line in E; [|exact Heq].
      rewrite Ht. apply in_or_app. right. right.
      apply in_or_app. right. apply in_or_app. left. exact E.
Qed.

(** C10: a brightness test that meets no exception saves the brightness,
    sets it to 128, reads it back and writes back the value it saved, and
    touches nothing else.  In [test_system.py] each of the four accesses is
    made on the object that [device.fx.lighting_led_matrix] gives at that
    moment, so that the object written last holds the value saved, an object
    written before and not again holds 128, and every other object is as it
    was; in [test_device_capabilities.py] all four are made on the one
    [matrix], which ends with the value saved.  In a run of
    [test_system.py] the line "Brightness control: ✓" is printed exactly
    when the brightness of the first device listed was saved, set to 128 and
    read back, and the value read back equals 128. *)
Theorem C10_brightness_tests :
  forall w device matrix h,
    (forallb quiet (trace (TestSystem.lighting_test w device) h) = true ->
     exists fx1 m1 original fx2 m2 fx3 m3 read fx4 m4,
       trace (TestSystem.lighting_test w device) h
       = save_set_read_restore device fx1 m1 original fx2 m2 fx3 m3 read fx4 m4 /\
       (forall current,
           brightness_of m4 current (trace (TestSystem.lighting_test w device) h)
           = original) /\
       (forall o current,
           same_object m2 o = false -> same_object m4 o = false ->
           brightness_of o current (trace (TestSystem.lighting_test w device) h)
           = current)) /\
    (forallb quiet (trace (DeviceCapabilities.brightness_test w matrix) h) = true ->
     exists original read,
       trace (DeviceCapabilities.brightness_test w matrix) h
       = capability_brightness_run matrix original read /\
       (forall current,
           brightness_of matrix current
             (trace (DeviceCapabilities.brightness_test w matrix) h)
           = original) /\
       (forall o current,
           same_object matrix o = false ->
           brightness_of o current
             (trace (DeviceCapabilities.brightness_test w matrix) h)
           = current)) /\
    (In (EvPrint TestSystem.brightness_ok) (trace (TestSystem.main w) h) <->
     exists first_device read,
       read_back first_device read (trace (TestSystem.main w) h) /\
       py_eq read (VInt 128) = true).
Proof.
  intros w device matrix h. split; [|split].
  - intros H.
    destruct (lighting_test_quiet w device h H)
      as (fx1 & m1 & original & fx2 & m2 & fx3 & m3 & read & fx4 & m4 & E).
    exists fx1, m1, original, fx2, m2, fx3, m3, read, fx4, m4.
    split; [exact E|]. rewrite E. apply restored_after_lighting.
  - intros H.
    destruct (brightness_test_quiet w matrix h H) as (original & read & E).
    exists original, read.
    split; [exact E|]. rewrite E. apply restored_after_capability.
  - apply success_line_read_back.
Qed.

(** On the healthy machine, whose keyboard keeps the brightness written to
    it, no call of the test of [test_system.py] raises: it reads 255, writes
    128, reads 128 back and writes 255 again, each time on the one matrix of
    the keyboard. *)
Lemma C10_brightness_tests_witness :
  exists fx1 m1 original fx2 m2 fx3 m3 read fx4 m4,
    trace (TestSystem.lighting_test Worlds.healthy Worlds.keyboard) []
    = save_set_read_restore Worlds.keyboard fx1 m1 original fx2 m2 fx3 m3 read
        fx4 m4 /\
    (forall current,
        brightness_of m4 current
          (trace (TestSystem.lighting_test Worlds.healthy Worlds.keyboard) [])
        = original) /\
    (forall o current,
        same_object m2 o = false -> same_object m4 o = false ->
        brightness_of o current
          (trace (TestSystem.lighting_test Worlds.healthy Worlds.keyboard) [])
        = current).
Proof.
  destruct (C10_brightness_tests Worlds.healthy Worlds.keyboard Worlds.keyboard [])
    as (H & _).
  apply H. vm_compute. reflexivity.
Defined.

(** The whole run on that machine leaves the matrix of the keyboard as it
    was, and prints the line of success after reading 128 back. *)
Example brightness_kept_on_healthy :
  let t := trace (TestSystem.main Worlds.healthy) [] in
  brightness_of (VObj 3 "<RazerLED>") (VInt 255) t = VInt 255 /\
  In (EvPrint TestSystem.brightness_ok) t /\
  read_back Worlds.keyboard (VInt 128) t.
Proof.
  split; [vm_compute; reflexivity|]. split.
  - vm_compute. auto 100.
  - exists (firstn 33 (trace (TestSystem.main Worlds.healthy) [])),
      (VObj 0 "<DeviceManager>"), [],
      (firstn 11 (skipn 34 (trace (TestSystem.main Worlds.healthy) []))),
      (VObj 2 "<RazerFX>"), (VObj 3 "<RazerLED>"), (VInt 255),
      (VObj 2 "<RazerFX>"), (VObj 3 "<RazerLED>"),
      (VObj 2 "<RazerFX>"), (VObj 3 "<RazerLED>"),
      (skipn 54 (trace (TestSystem.main Worlds.healthy) [])).
    vm_compute. split; reflexivity.
Qed.

(** * More of the scripts *)

(** ** Lines with no word (X1) *)

Lemma drop_blanks_all l : forallb is_blank (drop_blanks l) = forallb is_blank l.
Proof.
  induction l as [|p l IH]; simpl; [reflexivity|].
  destruct (is_blank p) eqn:E; simpl; [exact IH|]. rewrite E. reflexivity.
Qed.

Lemma drop_blanks_end_nil l : drop_blanks_end l = [] <-> forallb is_blank l = true.
Proof.
  induction l as [|p l IH]; simpl; [tauto|].
  destruct (drop_blanks_end l) eqn:E.
  - destruct (is_blank p); simpl.
    + rewrite <- IH. tauto.
    + split; discriminate.
  - split; [discriminate|]. intros H. apply andb_true_iff in H as [_ H].
    apply IH in H. discriminate.
Qed.

Lemma join_truthy l : truthy (join l) = match l with [] => false | _ => true end.
Proof. destruct l as [|[c more|c] l]; reflexivity. Qed.

Lemma strip_truthy s : truthy (strip s) = negb (blank s).
Proof.
  unfold strip, blank. rewrite join_truthy, <- drop_blanks_all.
  destruct (drop_blanks_end (drop_blanks (pieces s))) eqn:E.
  - apply drop_blanks_end_nil in E. rewrite E. reflexivity.
  - destruct (forallb is_blank (drop_blanks (pieces s))) eqn:B; [|reflexivity].
    apply drop_blanks_end_nil in B. congruence.
Qed.

Lemma words_some tok l : words (Some tok) l <> [].
Proof.
  revert tok. induction l as [|[c more|c] l IH]; simpl; intros tok;
    [discriminate|discriminate|apply IH].
Qed.

Lemma words_nil l : words None l = [] <-> forallb is_blank l = true.
Proof.
  induction l as [|[c more|c] l IH]; simpl; [tauto|exact IH|].
  split; [|discriminate]. intros H. destruct (words_some _ _ H).
Qed.

Lemma split_ws_blank s : split_ws s = [] <-> blank s = true.
Proof. apply words_nil. Qed.

Lemma module_lines_run lines h :
  fst (for_each lines
         (fun line =>
            match split_ws line with
            | module_name :: _ => print [Lit "  "; Arg module_name]
            | [] => raise TestSystem.index_error
            end) h)
  = if existsb blank lines then Raise TestSystem.index_error else Ok tt.
Proof.
  revert h. induction lines as [|line lines IH]; intros h; [reflexivity|].
  cbn [for_each existsb]. rewrite bind_run.
  destruct (split_ws line) as [|module_name rest] eqn:E.
  - apply split_ws_blank in E. rewrite E. reflexivity.
  - destruct (blank line) eqn:B.
    + apply split_ws_blank in B. congruence.
    + simpl. rewrite IH. destruct (existsb blank lines); reflexivity.
Qed.

(** X1: test 2 of [test_system.py], by what [lsmod | grep razer] gave.  When
    the command ends with status 0 and prints more than blanks, the test
    passes if every line of the stripped output has a word, and ends with
    the [IndexError] of [line.split()[0]] if one of them is blank; on any
    other answer of the command it fails without raising; a
    [KeyboardInterrupt] passes through. *)
Theorem X1_test2_blank_line :
  forall w h tests_passed total_tests,
    let outcome := result (TestSystem.test2_kernel_modules w tests_passed total_tests) h in
    match w_subprocess_run w
            (h ++ [EvPrint [Lit (nl ++ "2. Checking kernel modules...")]])
            "lsmod | grep razer" None with
    | Ok (returncode, stdout, _) =>
        if (returncode =? 0) && negb (blank stdout) then
          if existsb blank (split_on "010" (strip stdout))
          then outcome = Raise TestSystem.index_error
          else outcome = Ok (tests_passed + 1, total_tests + 1)
        else outcome = Ok (tests_passed, total_tests + 1)
    | Raise e =>
        if is_Exception e then outcome = Ok (tests_passed, total_tests + 1)
        else outcome = Raise e
    end.
Proof.
  intros w h p n. unfold result, TestSystem.test2_kernel_modules.
  rewrite bind_run. cbn [print tell fst snd]. rewrite bind_run.
  destruct (test_run_command_run w "lsmod | grep razer"
              (h ++ [EvPrint [Lit (nl ++ "2. Checking kernel modules...")]]))
    as [Ht Hr].
  unfold result, trace in *.
  destruct (TestSystem.run_command w "lsmod | grep razer" _) as [r t].
  simpl in Ht, Hr. subst t.
  destruct (w_subprocess_run w _ "lsmod | grep razer" None) as [[[rc out] err]|e].
  - subst r. cbn [fst snd]. rewrite strip_truthy.
    destruct ((rc =? 0) && negb (blank out)); [|reflexivity].
    rewrite !bind_run. cbn [print tell fst snd]. rewrite !bind_run.
    match goal with
    | |- context [for_each ?l ?b ?h'] =>
        pose proof (module_lines_run l h') as Hloop;
        destruct (for_each l b h') as [r' t']
    end.
    simpl in Hloop. subst r'.
    destruct (existsb blank _); reflexivity.
  - destruct (is_Exception e); subst r; reflexivity.
Qed.

(** A no-break space (U+00A0) and an ideographic space (U+3000) are white
    space to [strip] and [split]; an accented letter is not. *)
Example white_space_of_unicode :
  let nbsp := String "194" (String "160" EmptyString) in
  let wide := String "227" (String "128" (String "128" EmptyString)) in
  blank (nbsp ++ wide)%string = true /\
  split_ws (nbsp ++ "razerkbd" ++ wide ++ "45056" ++ nbsp)%string
  = ["razerkbd"; "45056"] /\
  strip (wide ++ "razerkbd 45056" ++ nl ++ nbsp)%string = "razerkbd 45056" /\
  split_ws "é à" = ["é"; "à"].
Proof. repeat split. Qed.

(** An empty line in the list of modules ends [test_system.py] with an
    [IndexError]. *)
Example empty_line_ends_test_system :
  result (TestSystem.main gapped_lsmod) [] = Raise TestSystem.index_error.
Proof. vm_compute. reflexivity. Qed.

(** ** Lines with a cross (X2) *)

Lemma crosses_app t1 t2 : crosses (t1 ++ t2) = (crosses t1 + crosses t2)%nat.
Proof. unfold crosses. rewrite filter_app, length_app. reflexivity. Qed.

Lemma no_cross_crosses t : forallb no_cross t = true -> crosses t = 0%nat.
Proof.
  unfold crosses, no_cross. induction t as [|ev t IH]; simpl; [reflexivity|].
  intros H. apply andb_true_iff in H as [Hev Ht].
  apply negb_true_iff in Hev. rewrite Hev. exact (IH Ht).
Qed.

Ltac cross_leaf :=
  try exact I;
  repeat rewrite crosses_app;
  repeat match goal with
         | H : forallb no_cross ?t = true |- _ =>
             rewrite (no_cross_crosses t H); clear H
         end;
  change (crosses []) with 0%nat;
  repeat match goal with
         | |- context [crosses [?ev]] =>
             let n := eval vm_compute in (crosses [ev]) in
             change (crosses [ev]) with n
         end;
  cbn [Nat.add Z.of_nat]; lia.

Ltac lighting_cross_block :=
  idtac;
  lazymatch goal with
  | |- post (TestSystem.lighting_test _ _) _ =>
      apply (post_emits no_cross);
      [solve [emits_auto]|intros [[]|?] ? ?; cbv beta iota]
  end.

Lemma test1_cross w p n :
  post (TestSystem.test1_razer_devices w p n) (pass_or_cross p).
Proof. unfold pass_or_cross. post_auto_for no_cross fail; cross_leaf. Qed.

Lemma test2_cross w p n :
  post (TestSystem.test2_kernel_modules w p n) (pass_or_cross p).
Proof. unfold pass_or_cross. post_auto_for no_cross fail; cross_leaf. Qed.

Lemma test3_cross w p n :
  post (TestSystem.test3_python_library w p n) (pass_or_cross p).
Proof. unfold pass_or_cross. post_auto_for no_cross fail; cross_leaf. Qed.

Lemma test4_cross w p n :
  post (TestSystem.test4_device_detection w p n) (pass_or_cross p).
Proof. unfold pass_or_cross. post_auto_for no_cross fail; cross_leaf. Qed.

Lemma test5_cross w p n :
  post (TestSystem.test5_daemon_status w p n) (pass_or_cross p).
Proof. unfold pass_or_cross. post_auto_for no_cross fail; cross_leaf. Qed.

Lemma test6_cross w p n :
  post (TestSystem.test6_device_functionality w p n) (pass_or_cross p).
Proof.
  unfold pass_or_cross. post_auto_for no_cross lighting_cross_block; cross_leaf.
Qed.

Lemma tests_cross w :
  post (TestSystem.tests w)
    (fun r t =>
       match r with
       | Ok (tests_passed, _) => tests_passed + Z.of_nat (crosses t) = 6
       | Raise _ => True
       end).
Proof.
  unfold TestSystem.tests.
  do 2 (apply post_bind, post_tell; cbv beta iota).
  by_spec test1_cross. intros [[p1 n1]|] t1 H1; [|exact I].
  by_spec test2_cross. intros [[p2 n2]|] t2 H2; [|exact I].
  by_spec test3_cross. intros [[p3 n3]|] t3 H3; [|exact I].
  by_spec test4_cross. intros [[p4 n4]|] t4 H4; [|exact I].
  by_spec test5_cross. intros [[p5 n5]|] t5 H5; [|exact I].
  eapply post_weaken; [apply test6_cross|]. cbv beta.
  intros [[p6 n6]|] t6 H6; [|exact I].
  unfold pass_or_cross in *. repeat rewrite crosses_app.
  change (crosses [_]) with 0%nat. cbn [Nat.add].
  repeat rewrite Nat2Z.inj_add. lia.
Qed.

Lemma test_summary_no_cross p n : emits no_cross (TestSystem.summary p n).
Proof. emits_auto. Qed.

(** X2: when [main] of [test_system.py] returns, the number of tests that
    passed is 6 less the number of printed lines that start with a cross:
    every test that fails prints exactly one such line, a test that passes
    prints none.  So the status is 0 exactly when at most one line with a
    cross was printed. *)
Theorem X2_failed_tests_marked :
  forall w h,
    match TestSystem.main w h with
    | (Ok status, t) =>
        (crosses t <= 6)%nat /\
        In (EvPrint [Lit "Test Results: "; Arg (str_int (6 - Z.of_nat (crosses t)));
                     Lit "/"; Arg (str_int 6); Lit " passed"]) t /\
        (status = 0 <-> (crosses t <= 1)%nat)
    | (Raise _, _) => True
    end.
Proof.
  intros w h. destruct (TestSystem.main w h) as [[status|e] t] eqn:Hmain; [|exact I].
  unfold TestSystem.main in Hmain.
  apply bind_ok_inv in Hmain as ([p n] & t1 & t2 & Ht & Hs & ->).
  pose proof (tests_cross w h) as Hc. rewrite Ht in Hc. simpl in Hc.
  pose proof (tests_counted w h) as Hn. rewrite Ht in Hn. simpl in Hn.
  destruct Hn as (_ & -> & Hp).
  pose proof (test_summary_no_cross p 6 (h ++ t1)) as Hq.
  destruct (test_summary_run p 6 (h ++ t1)) as (rest & Hrun & _).
  unfold history in *. rewrite Hs in Hq. rewrite Hrun in Hs. injection Hs as Hstatus <-.
  apply no_cross_crosses in Hq. simpl in Hq.
  rewrite crosses_app, Hq, Nat.add_0_r.
  replace (6 - Z.of_nat (crosses t1)) with p by lia.
  split; [lia|]. split; [apply in_or_app; right; right; left; reflexivity|].
  change (6 - 1) with 5 in Hstatus.
  destruct (Z.geb_spec p 5) as [E|E]; subst status.
  - split; [lia|reflexivity].
  - split; [discriminate|lia].
Qed.

(** ** The module search path (X3) *)

Lemma path_events_app t1 t2 : path_events (t1 ++ t2) = path_events t1 ++ path_events t2.
Proof. apply filter_app. Qed.

Lemma no_path_events t : forallb no_path t = true -> path_events t = [].
Proof.
  unfold path_events, no_path. induction t as [|ev t IH]; simpl; [reflexivity|].
  intros H. apply andb_true_iff in H as [Hev Ht].
  apply negb_true_iff in Hev. rewrite Hev. exact (IH Ht).
Qed.

Ltac use_paths :=
  repeat rewrite path_events_app;
  repeat match goal with
         | H : forallb no_path ?t = true |- _ => rewrite (no_path_events t H); clear H
         | H : path_events ?t = _ |- _ => rewrite H; clear H
         end;
  simpl; rewrite ?app_nil_r.

(** [if not b:] is taken by the cases of [b] *)
Ltac when_not_block :=
  idtac;
  lazymatch goal with
  | |- post (when (negb ?b) _) _ => destruct b; cbn [negb when]
  end.

Lemma test3_paths w p n :
  post (TestSystem.test3_python_library w p n)
    (fun _ t => guarded_insert (w_pylib_path w) (path_events t)).
Proof.
  unfold guarded_insert.
  post_auto_for no_path when_not_block; use_paths; auto.
Qed.

Ltac no_path_part :=
  apply (post_emits no_path);
  [solve [emits_auto]|intros [?|?] ? ?; cbv beta iota].

Ltac paths_block :=
  idtac;
  lazymatch goal with
  | |- post (TestSystem.test3_python_library _ _ _) _ =>
      eapply post_weaken;
      [apply test3_paths|intros [?|?] ? ?; cbv beta iota]
  | |- post (TestSystem.test1_razer_devices _ _ _) _ => no_path_part
  | |- post (TestSystem.test2_kernel_modules _ _ _) _ => no_path_part
  | |- post (TestSystem.test4_device_detection _ _ _) _ => no_path_part
  | |- post (TestSystem.test5_daemon_status _ _ _) _ => no_path_part
  | |- post (TestSystem.test6_device_functionality _ _ _) _ => no_path_part
  | |- post (TestSystem.summary _ _) _ => no_path_part
  end.

Lemma test_system_paths w :
  post (TestSystem.main w)
    (fun _ t => path_events t = [] \/ guarded_insert (w_pylib_path w) (path_events t)).
Proof.
  post_auto_for no_path paths_block; use_paths; auto.
Qed.

Lemma debug_workflow_no_insert w : emits no_insert (DebugWorkflow.script w).
Proof. emits_auto. Qed.

Lemma capabilities_no_path w : emits no_path (DeviceCapabilities.script w).
Proof. emits_auto. Qed.

(** X3: [test_system.py] inserts nothing in [sys.path] but its [pylib]
    directory, at most once, and only after it found that the directory
    exists and is not listed; [debug_workflow.py] never inserts anything, and
    the capability test looks at no path at all. *)
Theorem X3_sys_path :
  forall w h,
    (path_events (trace (TestSystem.main w) h) = [] \/
     guarded_insert (w_pylib_path w) (path_events (trace (TestSystem.main w) h))) /\
    forallb no_insert (trace (DebugWorkflow.script w) h) = true /\
    path_events (trace (DeviceCapabilities.script w) h) = [].
Proof.
  intros w h. split; [apply test_system_paths|].
  split; [apply debug_workflow_no_insert|].
  apply no_path_events, capabilities_no_path.
Qed.

(** ** How a brightness test leaves the device (X4) *)

Ltac left_leaf :=
  unfold brightness_left; simpl; rewrite ?same_object_refl; simpl;
  repeat split; repeat constructor.

Lemma lighting_test_left w device :
  post (TestSystem.lighting_test w device)
    (fun _ t =>
       brightness_left t /\
       map accessed (accesses t)
       = firstn (length (accesses t)) (matrices device t)).
Proof. post_auto; left_leaf. Qed.

Lemma brightness_test_left w matrix :
  post (DeviceCapabilities.brightness_test w matrix)
    (fun _ t =>
       brightness_left t /\ Forall (fun a => accessed a = matrix) (accesses t)).
Proof. post_auto; left_leaf. Qed.

(** X4: how far the brightness tests of [test_system.py] (lines 139-156)
    and of the capability test (lines 52-67) get.  The accesses that go
    through are, in this order, a read, a write, a read and a write, or the
    first of these.  In [test_system.py] each is made on the object that
    [device.fx.lighting_led_matrix] gave for it, in the capability test on
    the one [matrix].  The first write is that of 128; the second writes
    back the value read first and comes exactly when no call raised, so that
    a test cut short after its first write leaves 128 behind. *)
Theorem X4_brightness_left :
  forall w device matrix h,
    (brightness_left (trace (TestSystem.lighting_test w device) h) /\
     map accessed (accesses (trace (TestSystem.lighting_test w device) h))
     = firstn (length (accesses (trace (TestSystem.lighting_test w device) h)))
         (matrices device (trace (TestSystem.lighting_test w device) h))) /\
    (brightness_left (trace (DeviceCapabilities.brightness_test w matrix) h) /\
     Forall (fun a => accessed a = matrix)
       (accesses (trace (DeviceCapabilities.brightness_test w matrix) h))).
Proof.
  intros w device matrix h.
  split; [apply (lighting_test_left w device h)
         |apply (brightness_test_left w matrix h)].
Qed.

(** On that machine [test_system.py] ends with status 0 and both scripts
    leave the matrix of the keyboard at 128. *)
Example brightness_left_at_128 :
  result (TestSystem.main write_only) [] = Ok 0 /\
  brightness_of (VObj 3 "<RazerLED>") (VInt 255)
    (trace (TestSystem.main write_only) []) = VInt 128 /\
  brightness_of (VObj 3 "<RazerLED>") (VInt 255)
    (trace (DeviceCapabilities.script write_only) []) = VInt 128.
Proof. repeat split; vm_compute; reflexivity. Qed.

(** ** The deeds of debug_workflow.py and its issues (X5, X6) *)

(** X5: when the steps of [debug_workflow.py] all return, the commands it
    ran and the file it wrote and removed are those the issues it found call
    for, in the order of the file: [dkms status] exactly when the modules
    are not loaded, the search in [/sys] exactly when neither hardware nor
    modules are missing, [journalctl] exactly when the daemon is not
    running, and the script of step 7 written, run and removed exactly when
    the library could be imported. *)
Theorem X5_deeds_follow_issues :
  forall w h,
    match DebugWorkflow.steps w h with
    | (Ok issues, t) =>
        deeds t = deeds_for issues /\
        deeds (trace (DebugWorkflow.script w) h) = deeds_for issues
    | (Raise _, _) => True
    end.
Proof.
  intros w h. pose proof (steps_did w h) as H.
  destruct (DebugWorkflow.steps w h) as [[issues|e] t] eqn:Hsteps; [|exact I].
  simpl in H. destruct H as (hw & km & mf & df & dm & py & dd & pd & -> & Hd).
  rewrite deeds_of_issues. split; [exact Hd|].
  destruct (debug_main_of_steps w h _ t Hsteps) as (t2 & Hrun & Hq).
  unfold trace. rewrite Hrun. cbn [snd].
  rewrite deeds_app, (no_deed_deeds t2 Hq), app_nil_r. exact Hd.
Qed.

(** X6: the issues [main] of [debug_workflow.py] collects are some of the
    eight of [all_issues], each at most once and in that order; missing
    device files are never reported with missing hardware or missing
    modules, nor a failed detection with a failed import. *)
Theorem X6_issues_listed :
  forall w h,
    match DebugWorkflow.steps w h with
    | (Ok issues, _) =>
        issues = filter (fun issue => DebugWorkflow.mem issue issues) all_issues /\
        (DebugWorkflow.mem "Device files not created" issues = true ->
         DebugWorkflow.mem "No hardware detected" issues = false /\
         DebugWorkflow.mem "Kernel modules not loaded" issues = false) /\
        (DebugWorkflow.mem "Device detection failed" issues = true ->
         DebugWorkflow.mem "Python library import failed" issues = false)
    | (Raise _, _) => True
    end.
Proof.
  intros w h. pose proof (steps_done w h) as H.
  destruct (DebugWorkflow.steps w h) as [[issues|e] t]; [|exact I].
  simpl in H. destruct H as (hw & km & mf & df & dm & py & dd & pd & _ & -> & _).
  destruct hw, km, mf, df, dm, py, dd, pd; vm_compute;
    (split; [reflexivity|split; [intros; split; congruence|congruence]]).
Qed.

(** ** Commands shown before and after (X7) *)

#[export] Instance announced_segmental : Segmental announced.
Proof.
  split.
  - intros t1 c to r t2 E. destruct t1; discriminate.
  - intros u v Hu Hv t1 c to r t2 E.
    apply app_eq_app in E as (l & [[-> E]|[-> E]]).
    + destruct l as [|ev0 l].
      * simpl in E. subst v.
        destruct (Hv [] c to r t2 eq_refl) as (t0 & d & E0).
        destruct t0; discriminate.
      * simpl in E. injection E as <- ->.
        apply (Hu t1 c to r l eq_refl).
    + destruct (Hv l c to r t2 E) as (t0 & d & ->).
      exists (u ++ t0), d. rewrite app_assoc. reflexivity.
Qed.

#[export] Instance reported_segmental : Segmental reported.
Proof.
  split; [reflexivity|].
  unfold reported. intros t1 t2 H1 H2.
  rewrite !filter_app, !length_app. congruence.
Qed.

Lemma announced_single ev : no_run ev = true -> announced [ev].
Proof.
  intros H t1 c to r t2 E.
  destruct t1 as [|ev' [|? ?]]; simpl in E; try discriminate.
  injection E as -> _. discriminate.
Qed.

Lemma announced_run description command timeout r rest :
  forallb no_run rest = true ->
  announced ([EvPrint [Lit nl; Arg description; Lit "..."];
              EvPrint [Lit "$ "; Arg command];
              EvRun command timeout r] ++ rest).
Proof.
  intros Hrest t1 c to r' t2 E.
  destruct t1 as [|e1 [|e2 [|e3 t1]]]; simpl in E; try discriminate.
  - injection E as <- <- <- _ _ _. exists [], description. reflexivity.
  - injection E as _ _ _ ->.
    rewrite forallb_app in Hrest. apply andb_true_iff in Hrest as [_ H].
    discriminate.
Qed.

Lemma debug_run_command_announced w command description :
  always announced (DebugWorkflow.run_command w command description).
Proof.
  intros h. unfold DebugWorkflow.run_command.
  autounfold with scripts.
  unfold bind, try_catch, ask, tell, when, ret. simpl.
  destruct (w_subprocess_run w _ command _) as [[[rc out] err]|e]; simpl.
  - destruct (truthy out), (truthy err); simpl;
      apply (announced_run description command); reflexivity.
  - unfold is_Exception. destruct (exn_cls e); simpl;
      apply (announced_run description command); reflexivity.
Qed.

Lemma debug_run_command_reported w command description :
  always reported (DebugWorkflow.run_command w command description).
Proof.
  intros h. unfold DebugWorkflow.run_command.
  autounfold with scripts.
  unfold bind, try_catch, ask, tell, when, ret. simpl.
  destruct (w_subprocess_run w _ command _) as [[[rc out] err]|[cls msg]]; simpl.
  - destruct (truthy out), (truthy err); reflexivity.
  - destruct cls; reflexivity.
Qed.

#[export] Hint Resolve debug_run_command_announced debug_run_command_reported
  : blocks.

Ltac announced_leaf := apply announced_single; reflexivity.

Ltac reported_leaf := reflexivity.

Lemma debug_workflow_announced w : always announced (DebugWorkflow.script w).
Proof. always_auto announced_leaf. Qed.

Lemma debug_workflow_reported w : always reported (DebugWorkflow.script w).
Proof. always_auto reported_leaf. Qed.

(** X7: [debug_workflow.py] shows every command before it runs it, with the
    line [$ command] right before the call, and prints one closing line
    (exit code, timeout or error) for every command that came back or failed
    with an [Exception]. *)
Theorem X7_commands_shown :
  forall w h,
    announced (trace (DebugWorkflow.script w) h) /\
    reported (trace (DebugWorkflow.script w) h).
Proof.
  intros w h. split; [apply debug_workflow_announced|apply debug_workflow_reported].
Qed.

(** ** The file of step 7 (X8) *)

Lemma file_deeds_app t1 t2 : file_deeds (t1 ++ t2) = file_deeds t1 ++ file_deeds t2.
Proof. unfold file_deeds. rewrite deeds_app, filter_app. reflexivity. Qed.

Lemma no_file_deeds t : forallb no_file t = true -> file_deeds t = [].
Proof.
  unfold file_deeds. induction t as [|ev t IH]; simpl; [reflexivity|].
  intros H. apply andb_true_iff in H as [Hev Ht].
  rewrite filter_app, (IH Ht), app_nil_r.
  destruct ev; try discriminate; reflexivity.
Qed.

Lemma starts_eq l full : starts l full = true -> exists n, l = firstn n full.
Proof.
  revert full. induction l as [|a l IH]; intros full H.
  - exists 0%nat. reflexivity.
  - destruct full as [|b full]; [discriminate|]. simpl in H.
    apply andb_true_iff in H as [Hab Hl].
    destruct (IH _ Hl) as [n ->]. exists (S n). simpl. f_equal.
    destruct a, b; simpl in Hab; try discriminate.
    + apply String.eqb_eq in Hab. congruence.
    + apply andb_true_iff in Hab as [H1 H2].
      apply String.eqb_eq in H1. apply String.eqb_eq in H2. congruence.
    + apply String.eqb_eq in Hab. congruence.
Qed.

Ltac use_files :=
  repeat rewrite file_deeds_app;
  repeat match goal with
         | H : forallb no_file ?t = true |- _ => rewrite (no_file_deeds t H); clear H
         end.

Lemma step7_files w python_works issues :
  post (DebugWorkflow.step7_device_detection w python_works issues)
    (fun _ t => starts (file_deeds t) temp_file_life = true).
Proof. post_auto_for no_file fail; use_files; reflexivity. Qed.

Ltac quiet_part :=
  apply (post_emits no_file);
  [solve [emits_auto]|intros [?|?] ? ?; cbv beta iota].

Ltac files_block :=
  idtac;
  lazymatch goal with
  | |- post (DebugWorkflow.step7_device_detection _ _ _) _ =>
      eapply post_weaken;
      [apply step7_files|intros [?|?] ? ?; cbv beta iota]
  | |- post (DebugWorkflow.step1_hardware _ _) _ => quiet_part
  | |- post (DebugWorkflow.step2_kernel_modules _ _) _ => quiet_part
  | |- post (DebugWorkflow.step3_module_files _ _) _ => quiet_part
  | |- post (DebugWorkflow.step4_device_files _ _ _ _) _ => quiet_part
  | |- post (DebugWorkflow.step5_daemon _ _) _ => quiet_part
  | |- post (DebugWorkflow.step6_python_library _ _) _ => quiet_part
  | |- post (DebugWorkflow.step8_permissions _ _) _ => quiet_part
  | |- post (DebugWorkflow.summary _) _ => quiet_part
  end.

Ltac files_leaf :=
  use_files; simpl; rewrite ?app_nil_r; first [reflexivity|assumption].

Lemma debug_workflow_files w :
  post (DebugWorkflow.script w)
    (fun _ t => starts (file_deeds t) temp_file_life = true).
Proof. post_auto_for no_file files_block; files_leaf. Qed.

Lemma test_system_no_file w : emits no_file (TestSystem.main w).
Proof. emits_auto. Qed.

Lemma capabilities_no_file w : emits no_file (DeviceCapabilities.script w).
Proof. emits_auto. Qed.

(** X8: in every run of [debug_workflow.py], interrupted or not, the only
    file written is [/tmp/test_devices.py], with [test_script], at most
    once, and the only file removed is that one, after it was written, at
    most once.  The two other scripts write and remove nothing. *)
Theorem X8_temp_file :
  forall w h,
    (exists n, file_deeds (trace (DebugWorkflow.script w) h) = firstn n temp_file_life) /\
    file_deeds (trace (TestSystem.main w) h) = [] /\
    file_deeds (trace (DeviceCapabilities.script w) h) = [].
Proof.
  intros w h. split; [apply starts_eq, debug_workflow_files|].
  split; apply no_file_deeds; [apply test_system_no_file|apply capabilities_no_file].
Qed.

(** On that machine the file stays in [/tmp]. *)
Example temp_file_left_behind :
  result (DebugWorkflow.script interrupted_late) [] = Ok 1 /\
  file_deeds (trace (DebugWorkflow.script interrupted_late) [])
  = [Wrote "/tmp/test_devices.py" DebugWorkflow.test_script].
Proof. split; vm_compute; reflexivity. Qed.

(** ** The script of step 7 (X9) *)

Lemma names_loop w devices :
  post (for_each devices
          (fun device =>
             bind (getattr w device "name")
               (fun name => print [Lit "  - "; Arg (py_str name)])))
    (fun r t =>
       match r with
       | Ok _ => forallb quiet t = true
       | Raise e => existsb (fun ev => negb (quiet ev)) t = true
       end).
Proof.
  induction devices as [|device devices IH]; cbn [for_each].
  - apply post_ret. reflexivity.
  - apply post_bind, post_bind, post_ask. intros [name|e]; cbv beta iota.
    + apply post_tell. cbv beta iota.
      eapply post_weaken; [apply IH|]. intros [[]|e] t H; simpl; exact H.
    + reflexivity.
Qed.

Lemma prefix_contains sub s : String.prefix sub s = true -> contains sub s = true.
Proof.
  intros H. destruct s; cbn [contains]; [exact H|rewrite H; reflexivity].
Qed.

(** The loop of the script and its handler, with the class of the exception
    kept *)
Ltac detection_block :=
  idtac;
  lazymatch goal with
  | |- post (for_each _ _) _ =>
      eapply post_weaken;
      [apply names_loop|intros [[]|?] ? ?; cbv beta iota]
  | |- match (if is_Exception ?e then _ else _) with _ => _ end =>
      destruct (is_Exception e) eqn:?
  end.

Ltac detection_leaf :=
  first
    [ reflexivity
    | assumption
    | left; split; [reflexivity|]; split;
      [simpl; rewrite ?app_nil_r; first [reflexivity|assumption]
      |apply prefix_contains; reflexivity]
    | right; split; [reflexivity|];
      eexists _, _; split;
      [rewrite app_nil_r, ?app_assoc; reflexivity|];
      split; [assumption|];
      rewrite ?existsb_app; simpl;
      repeat match goal with
             | H : existsb _ _ = true |- _ => rewrite H
             end;
      rewrite ?orb_true_r; reflexivity ].

Lemma detection_script_ends w : post (TestDevices.script w) detection_ends.
Proof.
  unfold TestDevices.script, detection_ends.
  post_auto_with detection_block; detection_leaf.
Qed.

(** X9: the script that step 7 writes (lines 167-184), run by itself, ends
    with status 0 after a run in which no call raised, with status 1 after
    it printed the [Exception] it caught, or with an exception that is no
    [Exception].  With status 0 what it printed holds [Found]. *)
Theorem X9_detection_script :
  forall w h,
    detection_ends (result (TestDevices.script w) h) (trace (TestDevices.script w) h) /\
    (result (TestDevices.script w) h = Ok 0 ->
     contains "Found" (stdout_of (trace (TestDevices.script w) h)) = true).
Proof.
  intros w h. pose proof (detection_script_ends w h) as H.
  split; [exact H|]. unfold result, trace. intros E. rewrite E in H.
  destruct H as [(_ & _ & H)|(H & _)]; [exact H|discriminate].
Qed.

(** ** What the capability tests return (X10, X11) *)

Ltac any_part :=
  apply (post_emits any_event);
  [solve [emits_auto]|intros [?|?] ? ?; cbv beta iota].

Ltac lighting_tests_block :=
  idtac;
  lazymatch goal with
  | |- post (DeviceCapabilities.brightness_test _ _) _ => any_part
  | |- post (DeviceCapabilities.static_test _ _) _ => any_part
  | |- post (if negb ?b then _ else _) _ => destruct b; cbn [negb]; cbv iota
  end.

Ltac verdict_leaf :=
  first
    [ exact I
    | split;
      [simpl; reflexivity
      |simpl; first [discriminate|reflexivity|intros _; reflexivity]] ].

Lemma lighting_capabilities_verdict w device :
  post (DeviceCapabilities.test_lighting_capabilities w device) lighting_verdict.
Proof.
  unfold lighting_verdict.
  post_auto_for any_event lighting_tests_block; verdict_leaf.
Qed.

Ltac counted_capability :=
  unfold capability_counted; post_auto_for any_event fail;
  first [exact I|split; [auto|split; reflexivity]].

Lemma dpi_counted w device n :
  post (DeviceCapabilities.dpi_test w device n) (capability_counted n).
Proof. counted_capability. Qed.

Lemma battery_counted w device n :
  post (DeviceCapabilities.battery_test w device n) (capability_counted n).
Proof. counted_capability. Qed.

Lemma charging_counted w device n :
  post (DeviceCapabilities.charging_test w device n) (capability_counted n).
Proof. counted_capability. Qed.

Lemma idle_counted w device n :
  post (DeviceCapabilities.idle_test w device n) (capability_counted n).
Proof. counted_capability. Qed.

Lemma game_mode_counted w device n :
  post (DeviceCapabilities.game_mode_test w device n) (capability_counted n).
Proof. counted_capability. Qed.

Lemma other_capabilities_verdict w device :
  post (DeviceCapabilities.test_other_capabilities w device) capabilities_verdict.
Proof.
  unfold DeviceCapabilities.test_other_capabilities, capabilities_verdict.
  apply post_bind, post_ask. intros [name|e]; cbv beta iota; [|exact I].
  apply post_bind, post_tell. cbv beta iota.
  by_spec dpi_counted. intros [n1|] t1; [intros (C1 & H1 & L1)|exact (fun _ => I)].
  by_spec battery_counted. intros [n2|] t2; [intros (C2 & H2 & L2)|exact (fun _ => I)].
  by_spec charging_counted. intros [n3|] t3; [intros (C3 & H3 & L3)|exact (fun _ => I)].
  by_spec idle_counted. intros [n4|] t4; [intros (C4 & H4 & L4)|exact (fun _ => I)].
  by_spec game_mode_counted. intros [n5|] t5; [intros (C5 & H5 & L5)|exact (fun _ => I)].
  assert (Hread : 0 <= n5 /\
                  (0 < n5 -> existsb capability_read (t1 ++ t2 ++ t3 ++ t4 ++ t5) = true)).
  { rewrite !existsb_app.
    destruct C1 as [->|[-> ->]], C2 as [->|[-> ->]], C3 as [->|[-> ->]],
             C4 as [->|[-> ->]], C5 as [->|[-> ->]];
      (split; [lia|]); rewrite ?orb_true_r; try reflexivity; intros; lia. }
  destruct Hread as [Hpos Hread].
  unfold DeviceCapabilities.test_other_capabilities.
  destruct (n5 =? 0) eqn:E; cbn [when].
  - apply Z.eqb_eq in E. subst n5.
    apply post_bind, post_tell. cbv beta iota. apply post_ret.
    split; [|split; [discriminate|]].
    + rewrite !existsb_app. simpl. rewrite ?orb_true_r. reflexivity.
    + rewrite !forallb_app, H1, H2, H3, H4, H5. reflexivity.
  - apply Z.eqb_neq in E. apply post_bind, post_ret. cbv beta iota. apply post_ret.
    assert (Hgt : (n5 >? 0) = true) by (apply Z.gtb_lt; lia).
    rewrite Hgt. split; [|split].
    + rewrite !existsb_app, L1, L2, L3, L4, L5. reflexivity.
    + intros _. assert (Hsome : 0 < n5) by lia. apply Hread in Hsome.
      rewrite !existsb_app in Hsome. rewrite !existsb_app. simpl.
      destruct (existsb capability_read t1), (existsb capability_read t2),
        (existsb capability_read t3), (existsb capability_read t4),
        (existsb capability_read t5); simpl in *; congruence.
    + rewrite !forallb_app, H1, H2, H3, H4, H5. reflexivity.
Qed.

(** X10: [test_lighting_capabilities] returns whether one of its three
    probes found lighting, whatever became of the tests it then ran; a run
    that returns [False] made no write and no method call. *)
Theorem X10_lighting_verdict :
  forall w device h,
    lighting_verdict
      (result (DeviceCapabilities.test_lighting_capabilities w device) h)
      (trace (DeviceCapabilities.test_lighting_capabilities w device) h).
Proof. intros. apply lighting_capabilities_verdict. Qed.

(** X11: [test_other_capabilities] returns [False] exactly when it printed
    that no additional capability was detected; when it returns [True] one
    of the five capabilities was read; it never writes to the device nor
    calls a method. *)
Theorem X11_capabilities_verdict :
  forall w device h,
    capabilities_verdict
      (result (DeviceCapabilities.test_other_capabilities w device) h)
      (trace (DeviceCapabilities.test_other_capabilities w device) h).
Proof. intros. apply other_capabilities_verdict. Qed.

(** ** The report on a device (X12) *)

Lemma tally_app p t1 t2 : tally p (t1 ++ t2) = (tally p t1 + tally p t2)%nat.
Proof. unfold tally. rewrite filter_app, length_app. reflexivity. Qed.

Lemma post_and {A} (m : M A) (Q1 Q2 : outcome A -> list event -> Prop) :
  post m Q1 -> post m Q2 -> post m (fun r t => Q1 r t /\ Q2 r t).
Proof. intros H1 H2 h. split; [apply H1|apply H2]. Qed.

Lemma post_of_emits {A} p (m : M A) :
  emits p m -> post m (fun _ t => forallb p t = true).
Proof. intros H h. apply H. Qed.

Lemma device_info_marks w device :
  post (DeviceCapabilities.test_device_info w device)
    (fun r t => match r with Ok _ => part_marks 1 false false t | Raise _ => True end).
Proof.
  unfold part_marks. post_auto_for any_event fail;
    first [exact I|repeat split; reflexivity].
Qed.

Lemma no_report_marks t :
  forallb no_report_mark t = true ->
  tally device_header t = 0%nat /\ tally separator t = 0%nat /\
  tally attrs_printed t = 0%nat /\ existsb attrs_printed t = false.
Proof.
  unfold tally, no_report_mark. induction t as [|ev t IH]; simpl; [auto|].
  intros H. apply andb_true_iff in H as [Hev Ht].
  destruct (IH Ht) as (I1 & I2 & I3 & I4).
  repeat (apply andb_true_iff in Hev as [Hev ?]).
  repeat match goal with
         | H : negb _ = true |- _ => apply negb_true_iff in H; rewrite H
         end.
  auto.
Qed.

Lemma forallb_both (p q : event -> bool) t :
  forallb (fun ev => p ev && q ev) t = true ->
  forallb p t = true /\ forallb q t = true.
Proof.
  induction t as [|ev t IH]; simpl; [auto|].
  intros H. apply andb_true_iff in H as [Hev Ht].
  apply andb_true_iff in Hev as [Hp Hq]. destruct (IH Ht) as [I1 I2].
  rewrite Hp, Hq, I1, I2. auto.
Qed.

Lemma forallb_not_existsb (p : event -> bool) t :
  forallb (fun ev => negb (p ev)) t = true -> existsb p t = false.
Proof.
  induction t as [|ev t IH]; simpl; [reflexivity|].
  intros H. apply andb_true_iff in H as [Hev Ht].
  apply negb_true_iff in Hev. rewrite Hev. exact (IH Ht).
Qed.

Lemma lighting_capabilities_quiet w device :
  emits quiet_lighting (DeviceCapabilities.test_lighting_capabilities w device).
Proof. emits_auto. Qed.

Lemma other_capabilities_quiet w device :
  emits quiet_other (DeviceCapabilities.test_other_capabilities w device).
Proof. emits_auto. Qed.

Lemma lighting_capabilities_marks w device :
  post (DeviceCapabilities.test_lighting_capabilities w device)
    (fun r t =>
       match r with
       | Ok has_lighting => part_marks 0 has_lighting false t
       | Raise _ => True
       end).
Proof.
  intros h.
  pose proof (lighting_capabilities_verdict w device h) as Hv.
  pose proof (lighting_capabilities_quiet w device h) as Hq.
  destruct (DeviceCapabilities.test_lighting_capabilities w device h) as [[b|e] t];
    [|exact I].
  simpl in *. destruct Hv as [-> _].
  apply forallb_both in Hq as [Hm Hl].
  destruct (no_report_marks t Hm) as (M1 & M2 & M3 & M4).
  apply forallb_not_existsb in Hl. unfold part_marks. auto 10.
Qed.

Lemma other_capabilities_marks w device :
  post (DeviceCapabilities.test_other_capabilities w device)
    (fun r t =>
       match r with
       | Ok has_other => part_marks 0 false (negb has_other) t
       | Raise _ => True
       end).
Proof.
  intros h.
  pose proof (other_capabilities_verdict w device h) as Hv.
  pose proof (other_capabilities_quiet w device h) as Hq.
  destruct (DeviceCapabilities.test_other_capabilities w device h) as [[b|e] t];
    [|exact I].
  simpl in *. destruct Hv as (-> & _ & _).
  apply forallb_both in Hq as [Hm Hl].
  destruct (no_report_marks t Hm) as (M1 & M2 & M3 & M4).
  apply forallb_not_existsb in Hl. unfold part_marks.
  rewrite negb_involutive. auto 10.
Qed.

Ltac use_part_marks :=
  repeat rewrite tally_app; repeat rewrite existsb_app;
  repeat match goal with
         | H : part_marks _ _ _ ?t |- _ =>
             let H1 := fresh in let H2 := fresh in let H3 := fresh in
             let H4 := fresh in let H5 := fresh in let H6 := fresh in
             destruct H as (H1 & H2 & H3 & H4 & H5 & H6);
             rewrite ?H1, ?H2, ?H3, ?H4, ?H5, ?H6
         end.

Lemma device_reported_run w devices i device :
  post (DeviceCapabilities.test_device w devices i device) (device_reported devices i).
Proof.
  unfold DeviceCapabilities.test_device, device_reported.
  by_spec device_info_marks. intros [[]|] t1 H1; [|exact I].
  by_spec lighting_capabilities_marks. intros [has_lighting|] t2 H2; [|exact I].
  by_spec other_capabilities_marks. intros [has_other|] t3 H3; [|exact I].
  assert (Hsep : (Z.of_nat i <? Z.of_nat devices - 1) = (S i <? devices)%nat).
  { destruct (Z.ltb_spec (Z.of_nat i) (Z.of_nat devices - 1)),
      (Nat.ltb_spec (S i) devices); try reflexivity; lia. }
  rewrite Hsep.
  destruct has_lighting, has_other, (S i <? devices)%nat; cbn [negb andb when];
    post_auto_for any_event fail;
    first [exact I|use_part_marks; repeat split; simpl; auto].
Qed.

(** X12: for each device the loop of [main] of the capability test prints
    one header, prints the attributes of the device exactly when no
    lighting was found and no other capability, and ends with a separator
    unless the device is the last of the list. *)
Theorem X12_device_report :
  forall w devices i device h,
    device_reported devices i
      (result (DeviceCapabilities.test_device w devices i device) h)
      (trace (DeviceCapabilities.test_device w devices i device) h).
Proof. intros. apply device_reported_run. Qed.

(** ** The end of the capability test (X13) *)

Lemma devices_reported w n l :
  forall i, (i + length l = n)%nat ->
  post (DeviceCapabilities.test_devices w n i l)
    (fun r t =>
       match r with
       | Ok _ =>
           tally device_header t = length l /\
           tally separator t = pred (length l) /\
           (tally attrs_printed t <= length l)%nat
       | Raise _ => True
       end).
Proof.
  induction l as [|device l IH]; intros i Hn; simpl.
  - apply post_ret. repeat split; reflexivity.
  - by_spec device_reported_run. intros [[]|] t1 H1; [|exact I].
    destruct H1 as (Hh & _ & Ha & Hs).
    eapply post_weaken; [apply (IH (S i)); simpl in Hn; lia|]. cbv beta.
    intros [[]|] t2 H2; [|exact I]. destruct H2 as (Hh2 & Hs2 & Ha2).
    rewrite !tally_app, Hh, Hh2, Hs, Hs2. simpl in Hn.
    split; [reflexivity|]. split; [|lia].
    destruct (Nat.ltb_spec (S i) n); destruct l; simpl in *; lia.
Qed.

Ltac devices_block :=
  idtac;
  lazymatch goal with
  | |- post (DeviceCapabilities.test_devices _ _ _ _) _ =>
      eapply post_weaken;
      [apply devices_reported; reflexivity
      |intros [[]|?] ? ?; cbv beta iota]
  | |- match (if is_Exception ?e then _ else _) with _ => _ end =>
      destruct (is_Exception e) eqn:?
  end.

Ltac tally_events :=
  repeat match goal with
         | |- context [tally ?p [?ev]] =>
             let n := eval lazy in (tally p [ev]) in
             change (tally p [ev]) with n
         | |- context [tally ?p []] => change (tally p []) with 0%nat
         end.

Ltac main_leaf :=
  first
    [ exact I
    | left; repeat split; reflexivity
    | right; split; [reflexivity|];
      match goal with
      | H : _ /\ _ /\ _ |- _ =>
          let Hh := fresh in let Hs := fresh in let Ha := fresh in
          destruct H as (Hh & Hs & Ha);
          eexists _, _; split; [simpl; auto 10|]; split; [discriminate|];
          rewrite !tally_app, Hh, Hs; tally_events;
          split; [lia|]; split; [lia|]; split; [lia|];
          rewrite !in_app_iff; simpl; auto 20
      end ].

Lemma capabilities_main_ends w : post (DeviceCapabilities.main w) capabilities_end.
Proof.
  unfold DeviceCapabilities.main, capabilities_end.
  post_auto_with devices_block; main_leaf.
Qed.

(** X13: when [main] of the capability test returns, the status is 1 and no
    device was touched, [DeviceManager()] having raised or the list of
    devices being empty; or the status is 0 and the run holds one report
    for each device of the list, one separator less than devices, and the
    closing line with their number. *)
Theorem X13_capabilities_main :
  forall w h,
    capabilities_end (result (DeviceCapabilities.main w) h)
      (trace (DeviceCapabilities.main w) h).
Proof. intros w h. apply capabilities_main_ends. Qed.

(** ** Colours and effects (X14) *)

Lemma static_test_stops w matrix :
  post (DeviceCapabilities.static_test w matrix) (fun _ t => stops_at_failure t).
Proof.
  unfold stops_at_failure.
  post_auto;
    first [left; reflexivity
          |right; left; reflexivity
          |right; right; left; reflexivity
          |right; right; right; reflexivity].
Qed.

Lemma calls_app t1 t2 : calls (t1 ++ t2) = calls t1 ++ calls t2.
Proof. apply flat_map_app. Qed.

Lemma probes_app t1 t2 : probes (t1 ++ t2) = probes t1 ++ probes t2.
Proof. apply flat_map_app. Qed.

Lemma effect_test_tried w matrix name description :
  post (DeviceCapabilities.effect_test w matrix (name, description))
    (each_effect_tried [name]).
Proof.
  unfold each_effect_tried, DeviceCapabilities.effect_test.
  post_auto; first [exact I|repeat split; reflexivity].
Qed.

Lemma each_effect_tried_app name names t1 t2 :
  each_effect_tried [name] (Ok tt) t1 ->
  each_effect_tried names (Ok tt) t2 ->
  each_effect_tried (name :: names) (Ok tt) (t1 ++ t2).
Proof.
  unfold each_effect_tried. intros (P1 & C1 & A1) (P2 & C2 & A2).
  rewrite !probes_app, !calls_app, !map_app, filter_app, map_app, forallb_app.
  rewrite P1, P2, C1, C2, A1, A2. repeat split; reflexivity.
Qed.

Lemma effects_loop_tried w matrix effects :
  post (for_each effects (DeviceCapabilities.effect_test w matrix))
    (each_effect_tried (map fst effects)).
Proof.
  induction effects as [|[name description] effects IH]; cbn [for_each map fst].
  - apply post_ret. repeat split; reflexivity.
  - by_spec effect_test_tried. intros [[]|] t1 H1; [|exact I].
    eapply post_weaken; [apply IH|]. cbv beta.
    intros [[]|] t2 H2; [|exact I].
    apply each_effect_tried_app; assumption.
Qed.

(** X14: [static_test] sets red, then green, then blue, and stops at the
    first colour that fails; the loop over [effects_to_test], when it
    returns, has looked for each of the four effects in order and called
    each one the object has exactly once, with no argument, whatever became
    of the effects before it. *)
Theorem X14_colours_and_effects :
  forall w matrix h,
    stops_at_failure (trace (DeviceCapabilities.static_test w matrix) h) /\
    each_effect_tried ["breath_random"; "wave"; "reactive"; "spectrum"]
      (result (for_each DeviceCapabilities.effects_to_test
                 (DeviceCapabilities.effect_test w matrix)) h)
      (trace (for_each DeviceCapabilities.effects_to_test
                (DeviceCapabilities.effect_test w matrix)) h).
Proof.
  intros w matrix h. split; [apply static_test_stops|].
  apply (effects_loop_tried w matrix DeviceCapabilities.effects_to_test).
Qed.

(** ** Bare except clauses (X15) *)

Lemma no_file_remove t path r :
  forallb no_file t = true -> ~ In (EvRemove path r) t.
Proof.
  intros H Hin. rewrite forallb_forall in H. apply H in Hin. discriminate.
Qed.

Ltac in_cases H :=
  rewrite ?in_app_iff in H; simpl in H;
  repeat match type of H with
         | _ \/ _ => destruct H as [H|H]
         end;
  try discriminate H; try contradiction;
  try solve [exfalso; eapply no_file_remove; eassumption].

Lemma poll_rate_swallowed w device :
  post (DeviceCapabilities.test_device_info w device)
    (fun r t =>
       forall o e,
         In (EvGetAttr o "poll_rate" (Raise e)) t ->
         r = Ok tt /\ In (EvPrint [Lit "Poll Rate: Not readable"]) t).
Proof.
  post_auto;
    match goal with Hin : In _ _ |- _ => in_cases Hin end;
    (split; [reflexivity|rewrite ?in_app_iff; simpl; auto 20]).
Qed.

Lemma remove_swallowed w python_works issues :
  post (DebugWorkflow.step7_device_detection w python_works issues)
    (fun r t =>
       forall path e,
         In (EvRemove path (Raise e)) t -> exists issues', r = Ok issues').
Proof.
  post_auto_for no_file fail;
    match goal with Hin : In _ _ |- _ => in_cases Hin end;
    eexists; reflexivity.
Qed.

(** X15: the two bare [except:] clauses let nothing through.  Whatever the
    read of [poll_rate] raises, [test_device_info] prints that the poll rate
    is not readable and returns; whatever [os.remove] raises, step 7 of
    [debug_workflow.py] returns its issues. *)
Theorem X15_bare_except :
  forall w device python_works issues h,
    (forall o e,
        In (EvGetAttr o "poll_rate" (Raise e))
           (trace (DeviceCapabilities.test_device_info w device) h) ->
        result (DeviceCapabilities.test_device_info w device) h = Ok tt /\
        In (EvPrint [Lit "Poll Rate: Not readable"])
           (trace (DeviceCapabilities.test_device_info w device) h)) /\
    (forall path e,
        In (EvRemove path (Raise e))
           (trace (DebugWorkflow.step7_device_detection w python_works issues) h) ->
        exists issues',
          result (DebugWorkflow.step7_device_detection w python_works issues) h
          = Ok issues').
Proof.
  intros w device python_works issues h. split.
  - apply (poll_rate_swallowed w device h).
  - apply (remove_swallowed w python_works issues h).
Qed.

(** The interrupt is taken for an attribute that cannot be read, and the
    capability test goes on to its end. *)
Example interrupt_swallowed :
  result (DeviceCapabilities.script interrupted_poll) [] = Ok 0 /\
  In (EvPrint [Lit "Poll Rate: Not readable"])
     (trace (DeviceCapabilities.script interrupted_poll) []).
Proof. split; [vm_compute; reflexivity|]. vm_compute. auto 30. Qed.

(** ** The summary of debug_workflow.py (X16) *)

Lemma issue_lines_app t1 t2 : issue_lines (t1 ++ t2) = issue_lines t1 ++ issue_lines t2.
Proof. apply flat_map_app. Qed.

Lemma no_issue_lines t : forallb no_issue_line t = true -> issue_lines t = [].
Proof.
  induction t as [|ev t IH]; [reflexivity|].
  cbn [forallb]. intros H. apply andb_true_iff in H as [Hev Ht].
  change (ev :: t) with ([ev] ++ t). rewrite issue_lines_app, (IH Ht), app_nil_r.
  unfold no_issue_line in Hev. destruct (issue_lines [ev]); [reflexivity|discriminate].
Qed.

Lemma not_line_printed s t : forallb (not_line s) t = true -> printed s t = false.
Proof.
  unfold printed, not_line. induction t as [|ev t IH]; simpl; [reflexivity|].
  intros H. apply andb_true_iff in H as [Hev Ht].
  apply negb_true_iff in Hev. rewrite Hev. exact (IH Ht).
Qed.

Lemma printed_app s t1 t2 : printed s (t1 ++ t2) = printed s t1 || printed s t2.
Proof. apply existsb_app. Qed.

Lemma print_issues_numbered i issues :
  post (DebugWorkflow.print_issues i issues)
    (fun r t => r = Ok tt /\ issue_lines t = numbered i issues).
Proof.
  revert i. induction issues as [|issue issues IH]; intros i; simpl.
  - apply post_ret. auto.
  - apply post_bind, post_tell. cbv beta iota.
    eapply post_weaken; [apply IH|]. cbv beta.
    intros r t (-> & Hl). split; [reflexivity|].
    simpl. rewrite Hl. reflexivity.
Qed.

Lemma print_issues_returns i issues :
  post (DebugWorkflow.print_issues i issues) (fun r _ => r = Ok tt).
Proof. apply print_issues_done. Qed.

(** A part that only prints returns, and each of its events passes [p]. *)
Ltac returns_with p :=
  eapply post_weaken;
  [apply (post_and _ (fun r _ => r = Ok tt) (fun _ t => forallb p t = true));
   [first [apply print_issues_returns|solve [post_auto; reflexivity]]
   |apply post_of_emits; solve [emits_auto]]
  |intros ? ? [-> ?]; cbv beta iota].

(** The parts of the summary that do not print the line [s] are taken
    whole. *)
Ltac advice_block s :=
  idtac;
  lazymatch goal with
  | |- post (when _ _) _ => returns_with (not_line s)
  | |- post (DebugWorkflow.print_issues _ _) _ => returns_with (not_line s)
  end.

Ltac advice_leaf :=
  repeat rewrite printed_app;
  repeat match goal with
         | H : forallb (not_line ?s) ?t = true |- _ =>
             rewrite (not_line_printed s t H); clear H
         end;
  lazy; reflexivity.

Ltac advice_fits s :=
  unfold DebugWorkflow.summary;
  post_auto_for (not_line s) ltac:(advice_block s); advice_leaf.

Lemma congratulation_fits issues :
  post (DebugWorkflow.summary issues)
    (fun _ t =>
       printed "🎉 No issues detected! OpenRazer should be working correctly." t
       = match issues with [] => true | _ => false end).
Proof.
  advice_fits "🎉 No issues detected! OpenRazer should be working correctly.".
Qed.

Lemma next_steps_fits issues :
  post (DebugWorkflow.summary issues)
    (fun _ t =>
       printed (nl ++ "NEXT STEPS:") t = match issues with [] => false | _ => true end).
Proof. advice_fits (nl ++ "NEXT STEPS:")%string. Qed.

Lemma hardware_advice_fits issues :
  post (DebugWorkflow.summary issues)
    (fun _ t =>
       printed "1. Verify your Razer device is connected and powered on" t
       = DebugWorkflow.mem "No hardware detected" issues).
Proof. advice_fits "1. Verify your Razer device is connected and powered on". Qed.

Lemma modules_advice_fits issues :
  post (DebugWorkflow.summary issues)
    (fun _ t =>
       printed "1. Reinstall OpenRazer kernel modules" t
       = (DebugWorkflow.mem "Kernel modules not loaded" issues
          || DebugWorkflow.mem "Module files missing" issues)).
Proof. advice_fits "1. Reinstall OpenRazer kernel modules". Qed.

Lemma daemon_advice_fits issues :
  post (DebugWorkflow.summary issues)
    (fun _ t =>
       printed "1. Start daemon: systemctl start openrazer-daemon" t
       = DebugWorkflow.mem "Daemon not running" issues).
Proof. advice_fits "1. Start daemon: systemctl start openrazer-daemon". Qed.

Lemma python_advice_fits issues :
  post (DebugWorkflow.summary issues)
    (fun _ t =>
       printed "1. Install Python library: pip3 install openrazer" t
       = DebugWorkflow.mem "Python library import failed" issues).
Proof. advice_fits "1. Install Python library: pip3 install openrazer". Qed.

Lemma plugdev_advice_fits issues :
  post (DebugWorkflow.summary issues)
    (fun _ t =>
       printed "1. Add user to group: sudo usermod -a -G plugdev $USER" t
       = DebugWorkflow.mem "User not in plugdev group" issues).
Proof. advice_fits "1. Add user to group: sudo usermod -a -G plugdev $USER". Qed.

Ltac numbered_block :=
  idtac;
  lazymatch goal with
  | |- post (when _ _) _ => returns_with no_issue_line
  | |- post (DebugWorkflow.print_issues _ _) _ =>
      eapply post_weaken;
      [apply print_issues_numbered|intros ? ? (-> & ?); cbv beta iota]
  end.

Lemma issues_numbered issues :
  post (DebugWorkflow.summary issues)
    (fun r t =>
       r = Ok (Z.of_nat (length issues)) /\ issue_lines t = numbered 1 issues).
Proof.
  unfold DebugWorkflow.summary.
  post_auto_for no_issue_line numbered_block;
    (split; [reflexivity|]);
    repeat rewrite issue_lines_app;
    repeat match goal with
           | H : forallb no_issue_line ?t = true |- _ =>
               rewrite (no_issue_lines t H); clear H
           | H : issue_lines ?t = _ |- _ => rewrite H; clear H
           end;
    simpl; rewrite ?app_nil_r; reflexivity.
Qed.

(** X16: the summary of [debug_workflow.py] returns the number of issues,
    lists each issue once, numbered from 1 in the order found, prints the
    congratulation exactly when there is none, and prints each piece of
    advice exactly when an issue that calls for it is in the list. *)
Theorem X16_summary_fits :
  forall issues h,
    summary_fits issues (result (DebugWorkflow.summary issues) h)
      (trace (DebugWorkflow.summary issues) h).
Proof.
  intros issues h. unfold summary_fits.
  destruct (issues_numbered issues h) as [Hr Hn].
  split; [exact Hr|]. split; [exact Hn|].
  split; [apply (congratulation_fits issues h)|].
  split; [apply (next_steps_fits issues h)|].
  split; [apply (hardware_advice_fits issues h)|].
  split; [apply (modules_advice_fits issues h)|].
  split; [apply (daemon_advice_fits issues h)|].
  split; [apply (python_advice_fits issues h)|apply (plugdev_advice_fits issues h)].
Qed.
